(** * doro-skycam-core: weather fusion, window scoring and image ingest

    A shallow embedding of the Python scripts of the observatory
    pipeline, and the properties of its specification checked against
    them.

    Conventions of the embedding.
    - Python numbers (JSON integers and binary64 floats) are rationals
      [Q].  Every constant the scripts compare against or add
      (9.5, 1.5, 0.0625, 20, ...) is dyadic or a small decimal, and no
      property below depends on a rounding error of the float
      arithmetic.  An integer from [2^1024 - 2^970] on has no float,
      and its conversion raises.  [NaN] and the two infinities are no
      rationals: values are finite, except in [Binary64], the
      simulated generator on records that hold them.
    - An aware UTC [datetime] is its number of microseconds since the
      Unix epoch, a [Z]; [timedelta] is a difference of such numbers.
    - A JSON document is a [value]; a Python [dict] keeps its insertion
      order, so it is an association list with unique keys.
    - A directory is a finite map from file names to files.
    - A Python exception is [None] in an [option] result. *)

From Stdlib Require Import ZArith QArith Qround Qabs Qminmax Ascii Lqa.
From stdpp Require Import gmap strings list fin_maps pretty.

Local Open Scope Z_scope.
Set Warnings "-register-all".

(** ** Exceptions

    A computation that may raise is an [option]; [let* x := m in k]
    runs [m] and passes its result on, or propagates the exception. *)

Notation "'let*' x ':=' m 'in' k" :=
  (match m with Some x => k | None => None end)
  (at level 10, x name, m at level 100, k at level 200,
   format "'[v' 'let*'  x  ':='  m  'in' '/' k ']'").

(** ** Python values *)

Inductive value : Type :=
| VNone
| VBool (b : bool)
| VNum (q : Q)
| VStr (s : string)
| VList (l : list value)
| VDict (d : list (string * value)).

Abbreviation dict := (list (string * value)).

(** [key in d] and [d[key]] / [d.get(key)]. *)
Fixpoint dict_get (d : dict) (k : string) : option value :=
  match d with
  | [] => None
  | (k', v) :: d' => if String.eqb k' k then Some v else dict_get d' k
  end.

Definition dict_has (d : dict) (k : string) : bool :=
  match dict_get d k with Some _ => true | None => false end.

(** [d[key] = v]: an existing key keeps its position, a new key is
    appended. *)
Fixpoint dict_set (d : dict) (k : string) (v : value) : dict :=
  match d with
  | [] => [(k, v)]
  | (k', v') :: d' =>
      if String.eqb k' k then (k', v) :: d' else (k', v') :: dict_set d' k v
  end.

(** [d.update(e)]. *)
Definition dict_update (d e : dict) : dict :=
  fold_left (fun acc kv => dict_set acc (fst kv) (snd kv)) e d.

(** [d.get(key, default)]. *)
Definition dict_get_default (d : dict) (k : string) (dflt : value) : value :=
  match dict_get d k with Some v => v | None => dflt end.

(** Truth value of a Python object, as [if x:] and [not x] take it. *)
Definition truthy (v : value) : bool :=
  match v with
  | VNone => false
  | VBool b => b
  | VNum q => negb (Qeq_bool q 0)
  | VStr s => negb (String.eqb s "")
  | VList l => match l with [] => false | _ => true end
  | VDict d => match d with [] => false | _ => true end
  end.

(** [x is None] / [x is not None]. *)
Definition is_none (v : value) : bool :=
  match v with VNone => true | _ => false end.

(** [d.get("ok")] used as a condition. *)
Definition get_ok (d : dict) : bool :=
  match dict_get d "ok" with Some v => truthy v | None => false end.

(** [key in c] for a string key: dictionary membership, list
    membership, substring test; [TypeError] on the other types. *)
Definition value_is_str (k : string) (v : value) : bool :=
  match v with VStr s => String.eqb s k | _ => false end.

Definition py_in (k : string) (c : value) : option bool :=
  match c with
  | VDict d => Some (dict_has d k)
  | VList l => Some (existsb (value_is_str k) l)
  | VStr s => Some (match String.index 0 k s with Some _ => true | None => false end)
  | _ => None
  end.

(** [c[key]] for a string key: [KeyError] on a missing key and
    [TypeError] on anything but a dictionary. *)
Definition py_getitem (c : value) (k : string) : option value :=
  match c with
  | VDict d => dict_get d k
  | _ => None
  end.

(** A [for] loop whose body may raise. *)
Fixpoint for_each {A S : Type} (body : S -> A -> option S) (l : list A) (s : S)
  : option S :=
  match l with
  | [] => Some s
  | x :: l' => let* s' := body s x in for_each body l' s'
  end.

(** ** generate_forecast.py: merge_weather_sources *)

Definition merged_init : dict :=
  [ ("temperature_c", VNone); ("humidity_pct", VNone);
    ("pressure_hpa", VNone); ("dewpoint_c", VNone);
    ("wind_speed_kmh", VNone); ("wind_direction_deg", VNone);
    ("cloud_cover_pct", VNone); ("visibility_km", VNone);
    ("conditions", VStr "Unknown") ].

Definition local_keys : list string :=
  [ "temperature_c"; "humidity_pct"; "pressure_hpa"; "dewpoint_c";
    "wind_speed_kmh"; "wind_direction_deg" ].

Definition online_keys : list string :=
  [ "cloud_cover_pct"; "visibility_km"; "conditions" ].

(** [if key in local_current and local_current[key] is not None:
        merged[key] = local_current[key]] *)
Definition merge_local_step (local_current : value) (merged : dict)
  (key : string) : option dict :=
  let* b := py_in key local_current in
  if b then
    let* v := py_getitem local_current key in
    if is_none v then Some merged else Some (dict_set merged key v)
  else Some merged.

(** [if key in online_current and (merged[key] is None or key in [...]):
        merged[key] = online_current[key]] *)
Definition merge_online_step (online_current : value) (merged : dict)
  (key : string) : option dict :=
  let* b := py_in key online_current in
  if b then
    let* cur := dict_get merged key in
    if is_none cur || existsb (String.eqb key) online_keys then
      let* v := py_getitem online_current key in Some (dict_set merged key v)
    else Some merged
  else Some merged.

(** [if merged[key] is None and key in online_current:
        merged[key] = online_current[key]] *)
Definition merge_fill_step (online_current : value) (merged : dict)
  (key : string) : option dict :=
  let* cur := dict_get merged key in
  if is_none cur then
    let* b := py_in key online_current in
    if b then let* v := py_getitem online_current key in Some (dict_set merged key v)
    else Some merged
  else Some merged.

Definition merge_weather_sources (online_data local_data : dict)
  : option dict :=
  let* merged :=
    (if get_ok local_data && dict_has local_data "current" then
       let* local_current := dict_get local_data "current" in
       for_each (merge_local_step local_current) local_keys merged_init
     else Some merged_init) in
  if get_ok online_data && dict_has online_data "current" then
    let* online_current := dict_get online_data "current" in
    let* merged := for_each (merge_online_step online_current) online_keys merged in
    for_each (merge_fill_step online_current) (map fst merged) merged
  else Some merged.

Definition merged_keys : list string := map fst merged_init.

(** The readings of the specification's fusion example. *)
Definition ex_local : dict :=
  [ ("ok", VBool true); ("current", VDict [("temperature_c", VNum 10)]) ].
Definition ex_online : dict :=
  [ ("ok", VBool true);
    ("current", VDict [("temperature_c", VNum 20); ("cloud_cover_pct", VNum 30)]) ].

(** A record carries a per-field provenance when one of its entries is
    a mapping from field names to channel names. *)
Definition carries_provenance (m : dict) (field channel : string) : Prop :=
  exists pk prov,
    dict_get m pk = Some (VDict prov) /\
    dict_get prov field = Some (VStr channel).


(** ** Numbers

    [bool] is a subclass of [int]: [True] and [False] take part in
    arithmetic and comparisons as 1 and 0.  Any other non-number makes
    the operation raise [TypeError]. *)
Definition as_num (v : value) : option Q :=
  match v with
  | VNum q => Some q
  | VBool b => Some (if b then 1%Q else 0%Q)
  | _ => None
  end.

Definition Qltb (x y : Q) : bool :=
  match (x ?= y)%Q with Lt => true | _ => false end.

Definition Qleb (x y : Q) : bool :=
  match (x ?= y)%Q with Gt => false | _ => true end.

(** [v < c] and [v > c] against a numeric constant. *)
Definition py_lt (v : value) (c : Q) : option bool :=
  let* q := as_num v in Some (Qltb q c).

Definition py_gt (v : value) (c : Q) : option bool :=
  let* q := as_num v in Some (Qltb c q).

(** [int(x)] for a non-negative or negative number: truncation
    towards zero. *)
Definition py_int (q : Q) : Z :=
  if Qltb q 0 then Qceiling q else Qfloor q.

(** [x % m] for a positive float modulus: the result has the sign of
    the modulus. *)
Definition py_fmod (x m : Q) : Q :=
  (x - m * inject_Z (Qfloor (x / m)))%Q.

(** Rounding to the nearest integer, ties to even. *)
Definition round_half_even (q : Q) : Z :=
  let f := Qfloor q in
  match ((q - inject_Z f) ?= 1 # 2)%Q with
  | Lt => f
  | Gt => f + 1
  | Eq => if Z.even f then f else f + 1
  end.

(** [round(x, ndigits)]. *)
Definition py_round (q : Q) (ndigits : nat) : Q :=
  let scale := inject_Z (10 ^ Z.of_nat ndigits) in
  (inject_Z (round_half_even (q * scale)) / scale)%Q.

(** ** Library functions

    Functions of the Python standard library that the scripts call and
    whose text is not part of the repository.  The model takes them as
    an interface; every property below holds for each implementation
    of it. *)
Class Library := {
  (** [datetime.isoformat()] of an aware UTC instant. *)
  isoformat : Z -> string;
  (** [datetime.fromisoformat(s)], a naive result read as UTC;
      [None] is [ValueError]. *)
  fromisoformat : string -> option Z;
  (** [datetime.strftime("%Y/%m/%d")]. *)
  strftime_ymd : Z -> string;
  (** [json.loads(s)]; [None] is [JSONDecodeError]. *)
  json_loads : string -> option value;
  (** [float(s)] on a string; [None] is [ValueError]. *)
  float_of_string : string -> option Q;
  (** [str.lower()]. *)
  str_lower : string -> string;
  (** [format(x, ".0f")]. *)
  format_0f : Q -> string;
}.

(** ** Instants

    An aware UTC [datetime] is its number of microseconds since
    1970-01-01T00:00:00Z; UTC has no daylight saving, so a calendar day
    is exactly [day_us] microseconds. *)
Definition second_us : Z := 1000000.
Definition minute_us : Z := 60 * second_us.
Definition hour_us : Z := 60 * minute_us.
Definition day_us : Z := 24 * hour_us.

(** [dt.replace(hour=0, minute=0, second=0, microsecond=0)]. *)
Definition midnight (dt : Z) : Z := dt - dt mod day_us.

(** [dt.replace(hour=h, minute=m, second=0, microsecond=0)]. *)
Definition at_time (dt h m : Z) : Z := midnight dt + h * hour_us + m * minute_us.

(** [timedelta.total_seconds() / 3600]. *)
Definition hours_of (delta : Z) : Q :=
  (inject_Z delta / inject_Z second_us / 3600)%Q.

(** ** Moon phase and illumination

    Both [fetch_online_weather.calculate_astronomy_data] and
    [generate_forecast.calculate_basic_astronomy] start from the same
    lines. *)

(** [datetime(2000, 1, 6, 18, 14, tzinfo=timezone.utc)]. *)
Definition new_moon_epoch : Z := 947182440 * second_us.

Definition lunar_month : Q := 29.53059.

(** [(dt - epoch).days]: a [timedelta] keeps its seconds in
    [0, 86400), so [days] is the floor. *)
Definition days_since_new_moon (dt : Z) : Z := (dt - new_moon_epoch) / day_us.

(** [(days_since_new_moon % lunar_month) / lunar_month]. *)
Definition moon_phase_float (dt : Z) : Q :=
  (py_fmod (inject_Z (days_since_new_moon dt)) lunar_month / lunar_month)%Q.

(** [abs(0.5 - p) * 200 if p <= 0.5 else (1 - p) * 200], then
    [max(0, min(100, illumination))]; the two lines are the same in
    both files. *)
Definition illumination (p : Q) : Q :=
  let raw := if Qleb p 0.5 then (Qabs (0.5 - p) * 200)%Q
             else ((1 - p) * 200)%Q in
  Qmax 0 (Qmin 100 raw).

(** The [if]/[elif] chain of [calculate_astronomy_data]. *)
Definition phase_name_online (p : Q) : string :=
  if Qltb p 0.0625 then "New Moon"
  else if Qltb p 0.1875 then "Waxing Crescent"
  else if Qltb p 0.3125 then "First Quarter"
  else if Qltb p 0.4375 then "Waxing Gibbous"
  else if Qltb p 0.5625 then "Full Moon"
  else if Qltb p 0.6875 then "Waning Gibbous"
  else if Qltb p 0.8125 then "Last Quarter"
  else "Waning Crescent".

Definition phase_names : list string :=
  [ "New Moon"; "Waxing Crescent"; "First Quarter"; "Waxing Gibbous";
    "Full Moon"; "Waning Gibbous"; "Last Quarter"; "Waning Crescent" ].

(** [phase_names[int(p * 8) % 8]] of [calculate_basic_astronomy]. *)
Definition phase_idx (p : Q) : Z := py_int (p * 8) mod 8.

Definition phase_name_basic (p : Q) : string :=
  nth (Z.to_nat (phase_idx p)) phase_names "".

Section Astronomy.
Context `{Library}.

(** fetch_online_weather.py: calculate_astronomy_data(dt). *)
Definition calculate_astronomy_data (dt : Z) : dict :=
  let p := moon_phase_float dt in
  let moon_age_days := py_fmod (inject_Z (days_since_new_moon dt)) lunar_month in
  let sunrise := at_time dt 7 15 in
  let sunset := at_time dt 17 45 in
  let twilight_end := sunset + 50 * minute_us in
  let twilight_start := sunrise - 50 * minute_us in
  [ ("moon_phase", VStr (phase_name_online p));
    ("moon_illumination_pct", VNum (py_round (illumination p) 1));
    ("moon_age_days", VNum (py_round moon_age_days 1));
    ("sun_rise", VStr (isoformat sunrise));
    ("sun_set", VStr (isoformat sunset));
    ("astronomical_twilight_end", VStr (isoformat twilight_end));
    ("astronomical_twilight_start", VStr (isoformat twilight_start)) ].

(** generate_forecast.py: calculate_basic_astronomy(), at the
    instant [now] that [datetime.now] returns. *)
Definition calculate_basic_astronomy (now : Z) : dict :=
  let p := moon_phase_float now in
  let sunrise := at_time now 7 15 in
  let sunset := at_time now 17 45 in
  let twilight_end := sunset + 50 * minute_us in
  let twilight_start := sunrise - 50 * minute_us in
  let moon_rise := sunrise + py_int (p * 720) * minute_us in
  let moon_set := sunset + py_int (p * 720) * minute_us in
  let darkness_duration := hours_of (twilight_start - twilight_end) in
  [ ("moon_phase", VStr (phase_name_basic p));
    ("moon_illumination_pct", VNum (py_round (illumination p) 1));
    ("moon_rise", VStr (isoformat moon_rise));
    ("moon_set", VStr (isoformat moon_set));
    ("sun_rise", VStr (isoformat sunrise));
    ("sun_set", VStr (isoformat sunset));
    ("astronomical_twilight_end", VStr (isoformat twilight_end));
    ("astronomical_twilight_start", VStr (isoformat twilight_start));
    ("darkness_duration_hours", VNum (py_round (Qabs darkness_duration) 1)) ].

End Astronomy.

(** ** generate_forecast.py: calculate_observation_windows *)

Record period := { name : string; start : Z; end_ : Z }.

(** The three fixed periods, relative to [now]. *)
Definition periods (now : Z) : list period :=
  [ {| name := "Tonight";
       start := at_time now 18 0;
       end_ := at_time now 23 0 |};
    {| name := "Late Night";
       start := at_time now 23 30;
       end_ := at_time (now + day_us) 5 0 |};
    {| name := "Tomorrow Evening";
       start := at_time (now + day_us) 18 0;
       end_ := at_time (now + day_us) 23 30 |} ].

(** [period["start"] <= ts <= period["end"]]. *)
Definition in_period (p : period) (ts : Z) : bool :=
  (start p <=? ts) && (ts <=? end_ p).

(** What a [for] loop iterates over: the items of a list, the keys of
    a dictionary, the characters of a string; [TypeError] otherwise. *)
Definition py_iter (v : value) : option (list value) :=
  match v with
  | VList l => Some l
  | VDict d => Some (map (fun kv => VStr (fst kv)) d)
  | VStr s => Some (map (fun c => VStr (String c "")) (String.list_ascii_of_string s))
  | _ => None
  end.

(** The base quality of an average cloud cover: quality, rating and
    recommended targets. *)
Definition base_quality (avg_clouds : Q) : string * Q * list string :=
  if Qltb avg_clouds 20 then
    ("excellent", 9.5%Q,
     ["Faint galaxies"; "Nebulae"; "Star clusters"; "Deep-sky imaging"])
  else if Qltb avg_clouds 40 then
    ("good", 7.5%Q, ["Planets"; "Bright deep-sky objects"; "Moon features"])
  else if Qltb avg_clouds 60 then
    ("moderate", 5.0%Q, ["Planets"; "Moon"; "Bright stars"])
  else
    ("poor", 3.0%Q, ["Not recommended for observation"]).

(** The moon interference of an illumination and the rating after the
    penalty. *)
Definition moon_adjust (moon_illumination : value) (rating : Q)
  : option (string * Q) :=
  let* high := py_gt moon_illumination 80 in
  if high then Some ("high", (rating - 1.5)%Q)
  else
    let* moderate := py_gt moon_illumination 40 in
    if moderate then Some ("moderate", (rating - 0.5)%Q)
    else Some ("minimal", rating).

(** [sum(f["cloud_cover_pct"] for f in period_forecasts)]. *)
Definition sum_cloud_cover (period_forecasts : list value) : option Q :=
  for_each
    (fun acc f =>
       let* v := py_getitem f "cloud_cover_pct" in
       let* q := as_num v in
       Some (acc + q)%Q)
    period_forecasts 0%Q.

Section Windows.
Context `{Library}.

(** [datetime.fromisoformat(f["timestamp"])]; a naive result is read
    as UTC. *)
Definition forecast_timestamp (f : value) : option Z :=
  let* ts := py_getitem f "timestamp" in
  match ts with
  | VStr s => fromisoformat s
  | _ => None
  end.

(** One turn of the inner loop: keep [f] when its timestamp falls in
    the period. *)
Definition period_forecasts_step (p : period) (acc : list value) (f : value)
  : option (list value) :=
  let* ts := forecast_timestamp f in
  Some (if in_period p ts then acc ++ [f] else acc).

Definition period_forecasts (p : period) (forecast : list value)
  : option (list value) :=
  for_each (period_forecasts_step p) forecast [].

(** The body of the outer loop for a period that has forecast
    entries: the window that is appended. *)
Definition score_window (p : period) (pf : list value) (astronomy_data : dict)
  : option value :=
  let* total := sum_cloud_cover pf in
  let avg_clouds := (total / inject_Z (Z.of_nat (length pf)))%Q in
  let base := base_quality avg_clouds in
  let quality := fst (fst base) in
  let targets := snd base in
  let moon_illumination :=
    dict_get_default astronomy_data "moon_illumination_pct" (VNum 50) in
  let* adjusted := moon_adjust moon_illumination (snd (fst base)) in
  let moon_interference := fst adjusted in
  let rating := Qmax 0 (Qmin 10 (snd adjusted)) in
  let duration := hours_of (end_ p - start p) in
  let* moon_q := as_num moon_illumination in
  Some (VDict
    [ ("period", VStr (name p));
      ("start", VStr (isoformat (start p)));
      ("end", VStr (isoformat (end_ p)));
      ("duration_hours", VNum (py_round duration 2));
      ("quality", VStr quality);
      ("rating", VNum (py_round rating 1));
      ("avg_cloud_cover_pct", VNum (py_round avg_clouds 1));
      ("moon_interference", VStr moon_interference);
      ("recommended_targets", VList (map VStr targets));
      ("notes", VStr ("Average cloud cover: " ++ format_0f avg_clouds
                      ++ "%, Moon: " ++ format_0f moon_q
                      ++ "% illuminated")) ]).

Definition windows_step (forecast : list value) (astronomy_data : dict)
  (windows : list value) (p : period) : option (list value) :=
  let* pf := period_forecasts p forecast in
  match pf with
  | [] => Some windows
  | _ :: _ =>
      let* w := score_window p pf astronomy_data in
      Some (windows ++ [w])
  end.

Definition calculate_observation_windows
  (online_data local_data astronomy_data : dict) (now : Z)
  : option (list value) :=
  if get_ok online_data && dict_has online_data "forecast_48h" then
    let* forecast := dict_get online_data "forecast_48h" in
    let* items := py_iter forecast in
    for_each (windows_step items astronomy_data) (periods now) []
  else Some [].

End Windows.

(** *** The scoring rule in the words of the specification *)

(** Cloud-cover base: below 20 excellent/9.5, below 40 good/7.5,
    below 60 moderate/5.0, otherwise poor/3.0. *)
Definition spec_base_rating (avg : Q) : Q :=
  if Qltb avg 20 then 9.5%Q
  else if Qltb avg 40 then 7.5%Q
  else if Qltb avg 60 then 5.0%Q
  else 3.0%Q.

Definition spec_quality (avg : Q) : string :=
  if Qltb avg 20 then "excellent"
  else if Qltb avg 40 then "good"
  else if Qltb avg 60 then "moderate"
  else "poor".

(** Moon penalty: above 80 subtract 1.5, above 40 subtract 0.5,
    otherwise nothing. *)
Definition spec_moon_penalty (moon : Q) : Q :=
  if Qltb 80 moon then 1.5%Q
  else if Qltb 40 moon then 0.5%Q
  else 0%Q.

(** The final rating, clamped to [0, 10]. *)
Definition spec_rating (avg moon : Q) : Q :=
  Qmax 0 (Qmin 10 (spec_base_rating avg - spec_moon_penalty moon)).

Section ForecastPoints.
Context `{Library}.

(** The cloud cover of a forecast point. *)
Definition point_cloud_cover (f : value) : option Q :=
  let* v := py_getitem f "cloud_cover_pct" in as_num v.


(** The forecast points whose timestamp lies in [[start, end]]. *)
Definition within (p : period) (f : value) : bool :=
  match forecast_timestamp f with
  | Some ts => in_period p ts
  | None => false
  end.

Definition matched (p : period) (forecast : list value) : list value :=
  List.filter (within p) forecast.

(** Arithmetic mean of the cloud cover of a list of points. *)
Definition total_cloud_cover (pts : list value) : Q :=
  fold_left
    (fun acc f => (acc + match point_cloud_cover f with
                         | Some q => q
                         | None => 0
                         end)%Q)
    pts 0%Q.

Definition mean_cloud_cover (pts : list value) : Q :=
  (total_cloud_cover pts / inject_Z (Z.of_nat (length pts)))%Q.

(** What the claim says of the window of period [p] in the output. *)
Definition scored (forecast : list value) (moon : Q) (windows : list value)
  (p : period) : Prop :=
  exists w r,
    In (VDict w) windows /\
    dict_get w "period" = Some (VStr (name p)) /\
    dict_get w "quality"
    = Some (VStr (spec_quality (mean_cloud_cover (matched p forecast)))) /\
    dict_get w "rating" = Some (VNum r) /\
    (r == spec_rating (mean_cloud_cover (matched p forecast)) moon)%Q.

End ForecastPoints.

(** ** A sample implementation of the library interface

    Enough of the library to run the scripts on the examples below:
    timestamps in the provider's format [YYYY-MM-DD HH:MM:SS] (or with
    a [T]), ASCII lower-casing, plain decimal numbers, and a JSON
    decoder that knows the request bodies of the examples. *)
Module Sample.

Fixpoint zeros (n : nat) : string :=
  match n with O => "" | S n' => String "0"%char (zeros n') end.

(** A non-negative number in decimal, padded with zeros. *)
Definition digits (width : nat) (n : Z) : string :=
  let s := pretty (Z.to_N n) in
  zeros (width - String.length s) ++ s.

(** Days since 1970-01-01 to a civil date and back (proleptic
    Gregorian calendar). *)
Definition civil_from_days (days : Z) : Z * Z * Z :=
  let z := days + 719468 in
  let era := z / 146097 in
  let doe := z - era * 146097 in
  let yoe := (doe - doe / 1460 + doe / 36524 - doe / 146096) / 365 in
  let doy := doe - (365 * yoe + yoe / 4 - yoe / 100) in
  let mp := (5 * doy + 2) / 153 in
  let d := doy - (153 * mp + 2) / 5 + 1 in
  let m := if mp <? 10 then mp + 3 else mp - 9 in
  let y := yoe + era * 400 + (if m <=? 2 then 1 else 0) in
  (y, m, d).

Definition days_from_civil (y m d : Z) : Z :=
  let y' := if m <=? 2 then y - 1 else y in
  let era := y' / 400 in
  let yoe := y' - era * 400 in
  let doy := (153 * (if 2 <? m then m - 3 else m + 9) + 2) / 5 + d - 1 in
  let doe := yoe * 365 + yoe / 4 - yoe / 100 + doy in
  era * 146097 + doe - 719468.

Definition isoformat (t : Z) : string :=
  let '(y, m, d) := civil_from_days (t / day_us) in
  let r := t mod day_us in
  let us := r mod second_us in
  digits 4 y ++ "-" ++ digits 2 m ++ "-" ++ digits 2 d ++ "T"
  ++ digits 2 (r / hour_us) ++ ":" ++ digits 2 (r mod hour_us / minute_us)
  ++ ":" ++ digits 2 (r mod minute_us / second_us)
  ++ (if us =? 0 then "" else "." ++ digits 6 us) ++ "+00:00".

Definition strftime_ymd (t : Z) : string :=
  let '(y, m, d) := civil_from_days (t / day_us) in
  digits 4 y ++ "/" ++ digits 2 m ++ "/" ++ digits 2 d.

Definition digit (c : Ascii.ascii) : option Z :=
  let n := Z.of_N (Ascii.N_of_ascii c) in
  if (48 <=? n) && (n <=? 57) then Some (n - 48) else None.

(** A non-empty string of decimal digits. *)
Fixpoint number_acc (acc : Z) (s : string) : option Z :=
  match s with
  | EmptyString => Some acc
  | String c s' => let* d := digit c in number_acc (10 * acc + d) s'
  end.

Definition number (s : string) : option Z :=
  match s with EmptyString => None | _ => number_acc 0 s end.

Definition char_at (s : string) (i : nat) (cs : list Ascii.ascii) : bool :=
  match String.get i s with
  | Some c => existsb (Ascii.eqb c) cs
  | None => false
  end.

Definition fromisoformat (s : string) : option Z :=
  if (String.length s =? 19)%nat
     && char_at s 4 ["-"%char] && char_at s 7 ["-"%char]
     && char_at s 10 [" "%char; "T"%char]
     && char_at s 13 [":"%char] && char_at s 16 [":"%char]
  then
    let* y := number (String.substring 0 4 s) in
    let* m := number (String.substring 5 2 s) in
    let* d := number (String.substring 8 2 s) in
    let* hh := number (String.substring 11 2 s) in
    let* mm := number (String.substring 14 2 s) in
    let* ss := number (String.substring 17 2 s) in
    if (1 <=? m) && (m <=? 12) && (1 <=? d) && (d <=? 31)
       && (hh <=? 23) && (mm <=? 59) && (ss <=? 59)
    then Some (days_from_civil y m d * day_us
               + hh * hour_us + mm * minute_us + ss * second_us)
    else None
  else None.

Definition lower_char (c : Ascii.ascii) : Ascii.ascii :=
  let n := Ascii.N_of_ascii c in
  if ((65 <=? n) && (n <=? 90))%N then Ascii.ascii_of_N (n + 32) else c.

Fixpoint str_lower (s : string) : string :=
  match s with
  | EmptyString => EmptyString
  | String c s' => String (lower_char c) (str_lower s')
  end.

(** [digits] or [digits.digits], with an optional minus sign. *)
Definition unsigned_decimal (s : string) : option Q :=
  match String.index 0 "." s with
  | None => let* n := number s in Some (inject_Z n)
  | Some i =>
      let frac := String.substring (S i) (String.length s - S i) s in
      let* n := number (String.substring 0 i s) in
      let* f := number frac in
      Some (inject_Z n
            + inject_Z f / inject_Z (10 ^ Z.of_nat (String.length frac)))%Q
  end.

Definition float_of_string (s : string) : option Q :=
  match s with
  | String "-"%char s' => let* q := unsigned_decimal s' in Some (- q)%Q
  | _ => unsigned_decimal s
  end.

Definition format_0f (q : Q) : string :=
  let n := round_half_even q in
  if n <? 0 then "-" ++ pretty (Z.to_N (- n)) else pretty (Z.to_N n).

(** The request bodies of the examples: [{"temp": 12.5}],
    [{"station": "roof"}] and a text that is not JSON. *)
Definition quote : string := String (Ascii.ascii_of_nat 34) "".
Definition body_temp : string := "{" ++ quote ++ "temp" ++ quote ++ ": 12.5}".
Definition body_station : string :=
  "{" ++ quote ++ "station" ++ quote ++ ": " ++ quote ++ "roof" ++ quote ++ "}".
Definition body_garbage : string := "temp=12.5".

Definition json_loads (s : string) : option value :=
  if String.eqb s body_temp then Some (VDict [("temp", VNum 12.5)])
  else if String.eqb s body_station then Some (VDict [("station", VStr "roof")])
  else None.

End Sample.

#[export] Instance sample_library : Library := {
  isoformat := Sample.isoformat;
  fromisoformat := Sample.fromisoformat;
  strftime_ymd := Sample.strftime_ymd;
  json_loads := Sample.json_loads;
  float_of_string := Sample.float_of_string;
  str_lower := Sample.str_lower;
  format_0f := Sample.format_0f;
}.

(** The scoring example: at noon of 2024-11-04 the forecast has two
    points in tonight's window and one in the afternoon. *)
Definition ex_now : Z := 1730721600 * second_us.

Definition ex_forecast : list value :=
  [ VDict [("timestamp", VStr "2024-11-04 15:00:00"); ("cloud_cover_pct", VNum 80)];
    VDict [("timestamp", VStr "2024-11-04 18:00:00"); ("cloud_cover_pct", VNum 10)];
    VDict [("timestamp", VStr "2024-11-04 21:00:00"); ("cloud_cover_pct", VNum 20)] ].

Definition ex_forecast_online : dict :=
  [ ("ok", VBool true); ("forecast_48h", VList ex_forecast) ].

Definition ex_astronomy : dict := [ ("moon_illumination_pct", VNum 90) ].

(** 2024-11-01T19:00:00Z, the evening of an astronomical new moon
    (12:47 UTC that day). *)
Definition new_moon_2024 : Z := 1730487600 * second_us.

(** ** generate_forecast.py: generate_combined_forecast *)

Definition LOCATION_NAME : string := "DORO Lab Observatory · IT:U Austria".

Definition educational_notes : dict :=
  [ ("transparency", VStr "Atmospheric transparency: how clear the air is. Excellent transparency means you can see fainter objects.");
    ("seeing", VStr "Atmospheric seeing: stability of the atmosphere. Good seeing means stars appear sharp, not twinkling excessively.");
    ("sqm", VStr "Sky Quality Meter reading in magnitudes per square arcsecond. Higher values = darker sky. Urban: 17-18, Rural: 20-21.");
    ("moon_phase", VStr "Moon phase affects sky darkness. New moon is best for deep-sky observation; full moon is best for lunar details.");
    ("astronomical_twilight", VStr "When the sun is 18° below horizon. True darkness for astronomy begins after evening twilight.") ].

Definition tips_for_students : list value :=
  [ VStr "Check cloud cover forecast before planning observation sessions";
    VStr "Moon-free periods (new moon ± 3 days) are best for deep-sky objects";
    VStr "Allow 20-30 minutes for your eyes to dark-adapt before observing faint objects";
    VStr "Low humidity and stable temperature indicate good seeing conditions";
    VStr "Use red flashlight to preserve night vision while taking notes" ].

(** [a and b] on comparisons: [b] is evaluated only when [a] holds. *)
Definition py_and (a : option bool) (b : option bool) : option bool :=
  let* x := a in if x then b else Some false.

(** The sky quality estimate: transparency, seeing, overall rating. *)
Definition sky_quality (current_weather : dict) : option (string * string * Q) :=
  let cloud_cover := dict_get_default current_weather "cloud_cover_pct" (VNum 50) in
  let visibility := dict_get_default current_weather "visibility_km" (VNum 10) in
  let* excellent := py_and (py_lt cloud_cover 20) (py_gt visibility 15) in
  if excellent then Some ("excellent", "good", 9.0%Q)
  else
    let* good := py_and (py_lt cloud_cover 40) (py_gt visibility 10) in
    if good then Some ("good", "moderate", 7.0%Q)
    else
      let* moderate := py_lt cloud_cover 60 in
      if moderate then Some ("moderate", "moderate", 5.0%Q)
      else Some ("poor", "poor", 3.0%Q).

(** The [data_sources] entry of one channel. *)
Definition data_source (data : dict) : value :=
  VDict
    [ ("available", dict_get_default data "ok" (VBool false));
      ("source", dict_get_default data "source" (VStr "Not available"));
      ("error", if get_ok data then VNone
                else dict_get_default data "error" VNone) ].

Section Compose.
Context `{Library}.

(** The composer, on the results of the two fetchers and the three
    readings of the clock (astronomy, windows, document timestamp). *)
Definition generate_combined_forecast (online_data local_data : dict)
  (now_astronomy now_windows now_document : Z) : option dict :=
  let astronomy_data := calculate_basic_astronomy now_astronomy in
  let* current_weather := merge_weather_sources online_data local_data in
  let* observation_windows :=
    calculate_observation_windows online_data local_data astronomy_data
      now_windows in
  let* sky := sky_quality current_weather in
  let transparency := fst (fst sky) in
  Some
    [ ("source", VStr "Combined: Online API + Local Sensors");
      ("timestamp", VStr (isoformat now_document));
      ("location", VStr LOCATION_NAME);
      ("coordinates",
        VDict [ ("lat", VNum 48.2082); ("lon", VNum 16.3738);
                ("elevation_m", VNum 171) ]);
      ("data_sources",
        VDict [ ("online", data_source online_data);
                ("local", data_source local_data) ]);
      ("current", VDict current_weather);
      ("astronomy", VDict astronomy_data);
      ("sky_quality",
        VDict [ ("transparency", VStr transparency);
                ("seeing", VStr (snd (fst sky)));
                ("overall_rating", VNum (snd sky));
                ("sqm_mag_per_arcsec2",
                  VNum (if String.eqb transparency "excellent"
                        then 19.5 else 18.5));
                ("notes", VStr "Based on combined weather observations") ]);
      ("observation_windows", VList observation_windows);
      ("forecast_48h",
        if get_ok online_data
        then dict_get_default online_data "forecast_48h" (VList [])
        else VList []);
      ("educational_notes", VDict educational_notes);
      ("tips_for_students", VList tips_for_students) ].

End Compose.

(** What [run_fetcher] returns when the online fetcher times out and
    the local station answers. *)
Definition ex_online_failed : dict :=
  [ ("ok", VBool false); ("error", VStr "Timeout");
    ("script", VStr "fetch_online_weather.py") ].

Definition ex_local_ok : dict :=
  [ ("ok", VBool true);
    ("source", VStr "Local Weather Station (file)");
    ("timestamp", VStr "2024-11-04T12:00:00+00:00");
    ("current",
      VDict [ ("temperature_c", VNum 10); ("humidity_pct", VNum 60);
              ("dewpoint_c", VNum 2.6) ]) ].

(** ** The Magnus dewpoint block

    The same five lines stand in three files; each copy is modelled
    where it stands.  [x / y] raises [ZeroDivisionError] on a zero
    divisor. *)
Definition py_div (x y : Q) : option Q :=
  if Qeq_bool y 0 then None else Some (x / y)%Q.

(** fetch_local_weather.py, parse_to_standard_format:
    [[
      tc = current["temperature_c"]; rh = current["humidity_pct"]
      a, b = 17.27, 237.7
      alpha = ((a * tc) / (b + tc)) + (rh / 100.0)
      dewpoint = (b * alpha) / (a - alpha)
      current["dewpoint_c"] = round(dewpoint, 1)
    ]] *)
Definition local_dewpoint_c (tc rh : Q) : option Q :=
  let a := 17.27%Q in
  let b := 237.7%Q in
  let* t := py_div (a * tc) (b + tc) in
  let alpha := (t + rh / 100.0)%Q in
  let* dewpoint := py_div (b * alpha) (a - alpha) in
  Some (py_round dewpoint 1).

(** fetch_online_weather.py, parse_to_forecast_format: the same lines
    on [tc = current_data["temperature_c"]] and
    [rh = current_data["humidity_pct"]]. *)
Definition online_dewpoint_c (tc rh : Q) : option Q :=
  let a := 17.27%Q in
  let b := 237.7%Q in
  let* t := py_div (a * tc) (b + tc) in
  let alpha := (t + rh / 100.0)%Q in
  let* dewpoint := py_div (b * alpha) (a - alpha) in
  Some (py_round dewpoint 1).

(** update_simulated_weather.py, generate_realistic_weather: the same
    lines on the clamped [temp] and [humidity]; the rounding is in the
    returned record, ["dewpoint_c": round(dewpoint, 1)]. *)
Definition simulated_dewpoint (temp humidity : Q) : option Q :=
  let a := 17.27%Q in
  let b := 237.7%Q in
  let* t := py_div (a * temp) (b + temp) in
  let alpha := (t + humidity / 100.0)%Q in
  py_div (b * alpha) (a - alpha).

Definition simulated_dewpoint_c (temp humidity : Q) : option Q :=
  let* dewpoint := simulated_dewpoint temp humidity in
  Some (py_round dewpoint 1).




(** ** fetch_online_weather.py: parse_to_forecast_format *)

(** [x * c] and [x / c] with a float constant. *)
Definition py_mul (v : value) (c : Q) : option Q :=
  let* q := as_num v in Some (q * c)%Q.

Definition py_div_const (v : value) (c : Q) : option Q :=
  let* q := as_num v in Some (q / c)%Q.

(** [d.get(key, default)] on any object: only a dictionary has
    [get]. *)
Definition py_get (d : value) (k : string) (dflt : value) : option value :=
  match d with
  | VDict d' => Some (dict_get_default d' k dflt)
  | _ => None
  end.

(** [v[0]] on a value that was tested to be true. *)
Definition py_first (v : value) : option value :=
  match v with
  | VList (x :: _) => Some x
  | VStr (String c _) => Some (VStr (String c ""))
  | _ => None
  end.

(** [c["weather"][0][field] if c.get("weather") else dflt]. *)
Definition weather_field (c : value) (field dflt : string) : option value :=
  let* w := py_get c "weather" VNone in
  if truthy w then
    let* w' := py_getitem c "weather" in
    let* first := py_first w' in
    py_getitem first field
  else Some (VStr dflt).

(** [c[k1][k2]]. *)
Definition py_getitem2 (c : value) (k1 k2 : string) : option value :=
  let* x := py_getitem c k1 in py_getitem x k2.

(** The dictionary of current conditions, dewpoint included. *)
Definition online_current_data (current : value) : option dict :=
  let* temperature_c := py_getitem2 current "main" "temp" in
  let* feels_like_c := py_getitem2 current "main" "feels_like" in
  let* humidity_pct := py_getitem2 current "main" "humidity" in
  let* pressure_hpa := py_getitem2 current "main" "pressure" in
  let* cloud_cover_pct := py_getitem2 current "clouds" "all" in
  let* visibility_m := py_get current "visibility" (VNum 10000) in
  let* visibility_km := py_div_const visibility_m 1000 in
  let* speed := py_getitem2 current "wind" "speed" in
  let* wind_speed_kmh := py_mul speed 3.6 in
  let* wind := py_getitem current "wind" in
  let* wind_direction_deg := py_get wind "deg" (VNum 0) in
  let* conditions := weather_field current "description" "unknown" in
  let* icon := weather_field current "icon" "" in
  let* tc := as_num temperature_c in
  let* rh := as_num humidity_pct in
  let* dewpoint_c := online_dewpoint_c tc rh in
  Some
    [ ("temperature_c", temperature_c);
      ("feels_like_c", feels_like_c);
      ("humidity_pct", humidity_pct);
      ("pressure_hpa", pressure_hpa);
      ("cloud_cover_pct", cloud_cover_pct);
      ("visibility_m", visibility_m);
      ("visibility_km", VNum visibility_km);
      ("wind_speed_kmh", VNum wind_speed_kmh);
      ("wind_direction_deg", wind_direction_deg);
      ("conditions", conditions);
      ("icon", icon);
      ("dewpoint_c", VNum dewpoint_c) ].

(** One forecast point from one entry of the provider's list. *)
Definition forecast_item (item : value) : option value :=
  let* timestamp := py_getitem item "dt_txt" in
  let* temperature_c := py_getitem2 item "main" "temp" in
  let* cloud_cover_pct := py_getitem2 item "clouds" "all" in
  let* humidity_pct := py_getitem2 item "main" "humidity" in
  let* speed := py_getitem2 item "wind" "speed" in
  let* wind_speed_kmh := py_mul speed 3.6 in
  let* conditions := weather_field item "description" "" in
  Some (VDict
    [ ("timestamp", timestamp);
      ("temperature_c", temperature_c);
      ("cloud_cover_pct", cloud_cover_pct);
      ("humidity_pct", humidity_pct);
      ("wind_speed_kmh", VNum wind_speed_kmh);
      ("conditions", conditions) ]).

(** [forecast_list[:16]], as the sequence the loop runs over. *)
Definition slice16 (forecast_list : value) : option (list value) :=
  match forecast_list with
  | VList l => Some (firstn 16 l)
  | VStr s =>
      Some (map (fun c => VStr (String c ""))
              (firstn 16 (String.list_ascii_of_string s)))
  | _ => None
  end.

(** The loop that fills [forecast_48h]. *)
Definition forecast_48h_of (items : list value) : option (list value) :=
  for_each
    (fun acc item => let* pt := forecast_item item in Some (acc ++ [pt]))
    items [].

(** The estimate of [parse_to_forecast_format]; its third test also
    looks at the visibility. *)
Definition sky_quality_estimate (cloud_cover : value) (visibility : Q)
  : option (string * Q) :=
  let* c20 := py_lt cloud_cover 20 in
  if c20 && Qltb 15 visibility then Some ("excellent", 9.0%Q)
  else
    let* c40 := py_lt cloud_cover 40 in
    if c40 && Qltb 10 visibility then Some ("good", 7.5%Q)
    else
      let* c60 := py_lt cloud_cover 60 in
      if c60 && Qltb 5 visibility then Some ("moderate", 5.0%Q)
      else Some ("poor", 3.0%Q).

Definition parse_to_forecast_format (weather_data : dict) : option dict :=
  if negb (get_ok weather_data) then Some weather_data
  else
    let* current := dict_get weather_data "current" in
    let* forecast := dict_get weather_data "forecast" in
    let* forecast_list := py_get forecast "list" (VList []) in
    let* current_data := online_current_data current in
    let* items := slice16 forecast_list in
    let* forecast_48h := forecast_48h_of items in
    let* cloud_cover := dict_get current_data "cloud_cover_pct" in
    let* visibility := dict_get current_data "visibility_km" in
    let* visibility_q := as_num visibility in
    let* estimate := sky_quality_estimate cloud_cover visibility_q in
    let* fetched_at := dict_get weather_data "fetched_at" in
    Some
      [ ("ok", VBool true);
        ("source", VStr "OpenWeatherMap API");
        ("timestamp", fetched_at);
        ("location", VStr "Vienna, Austria");
        ("coordinates", VDict [("lat", VNum 48.2082); ("lon", VNum 16.3738)]);
        ("current", VDict current_data);
        ("forecast_48h", VList forecast_48h);
        ("sky_quality_estimate",
          VDict [ ("transparency", VStr (fst estimate));
                  ("rating", VNum (snd estimate));
                  ("based_on",
                    VStr "cloud cover and visibility from weather API") ]) ].

(** An answer of the provider with 18 three-hourly entries. *)
Definition ex_provider_item (i : nat) : value :=
  VDict
    [ ("dt_txt", VStr ("entry " ++ pretty i));
      ("main", VDict [("temp", VNum 8); ("humidity", VNum 70)]);
      ("clouds", VDict [("all", VNum (inject_Z (Z.of_nat i)))]);
      ("wind", VDict [("speed", VNum 2); ("deg", VNum 270)]);
      ("weather", VList [VDict [("description", VStr "clear sky"); ("icon", VStr "01n")]]) ].

Definition ex_provider_list : list value := map ex_provider_item (seq 0 18).

Definition ex_weather_data : dict :=
  [ ("ok", VBool true);
    ("current",
      VDict [ ("main", VDict [ ("temp", VNum 18); ("feels_like", VNum 17);
                               ("humidity", VNum 60); ("pressure", VNum 1013) ]);
              ("clouds", VDict [("all", VNum 30)]);
              ("visibility", VNum 10000);
              ("wind", VDict [("speed", VNum 2); ("deg", VNum 270)]);
              ("weather", VList [VDict [("description", VStr "clear sky");
                                        ("icon", VStr "01n")]]) ]);
    ("forecast", VDict [("list", VList ex_provider_list)]);
    ("fetched_at", VStr "2024-11-04T12:00:00+00:00") ].

(** ** Conversion to float

    [float(n)] rounds an integer to the nearest binary64.  The largest
    of them is [2^1024 - 2^971]; from [2^1024 - 2^970] on, halfway to
    [2^1024], the nearest would be [2^1024] and [float(n)] raises
    [OverflowError].  A number of that size is an integer: every float
    is smaller. *)
Definition float_limit : Z := 2 ^ 1024 - 2 ^ 970.

Definition too_large (q : Q) : bool :=
  Qleb (inject_Z float_limit) (Qabs q).

(** What [float(x)] does. *)
Inductive float_result : Type :=
| Converted (q : Q)  (* the float *)
| Rejected           (* ValueError, TypeError *)
| Overflow.          (* OverflowError *)

(** ** fetch_local_weather.py: parse_to_standard_format *)

Section LocalReader.
Context `{Library}.

(** [float(x)]: a number converts unless it is an integer beyond
    the range of the floats ([OverflowError]), a boolean converts, a
    string is parsed ([ValueError] when it is no number), anything
    else is a [TypeError].  The strings that [float] reads as [nan]
    or as an infinity have no number to convert to and are outside
    the model. *)
Definition float_of (v : value) : float_result :=
  match v with
  | VNum q => if too_large q then Overflow else Converted q
  | VBool b => Converted (if b then 1%Q else 0%Q)
  | VStr s =>
      match float_of_string s with
      | Some q => Converted q
      | None => Rejected
      end
  | _ => Rejected
  end.

(** [float(x)] where no exception is caught: the float, or [None]
    when it raises. *)
Definition py_float (v : value) : option Q :=
  match float_of v with
  | Converted q => Some q
  | _ => None
  end.

(** [[
      for field in fields:
          if field in sensor_data:
              current[target] = float(sensor_data[field])
              break
    ]] *)
Fixpoint extract_first (fields : list string) (target : string)
  (sensor_data : value) (current : dict) : option dict :=
  match fields with
  | [] => Some current
  | field :: fields' =>
      let* present := py_in field sensor_data in
      if present then
        let* v := py_getitem sensor_data field in
        let* q := py_float v in
        Some (dict_set current target (VNum q))
      else extract_first fields' target sensor_data current
  end.

(** The dewpoint branch: the reading of the station if it has one,
    the Magnus block otherwise. *)
Definition local_dewpoint_step (sensor_data : value) (current : dict)
  : option dict :=
  let* has_dewpoint := py_in "dewpoint" sensor_data in
  let* has_any :=
    (if has_dewpoint then Some true else py_in "dewpoint_c" sensor_data) in
  if has_any then
    let* first := py_get sensor_data "dewpoint" VNone in
    let* v := (if truthy first then Some first
               else py_get sensor_data "dewpoint_c" VNone) in
    let* q := py_float v in
    Some (dict_set current "dewpoint_c" (VNum q))
  else if dict_has current "temperature_c" && dict_has current "humidity_pct"
  then
    let* tcv := dict_get current "temperature_c" in
    let* rhv := dict_get current "humidity_pct" in
    let* tc := as_num tcv in
    let* rh := as_num rhv in
    let* d := local_dewpoint_c tc rh in
    Some (dict_set current "dewpoint_c" (VNum d))
  else Some current.

Definition parse_to_standard_format (raw_data : dict) (now : Z)
  : option dict :=
  if negb (get_ok raw_data) then Some raw_data
  else
    let sensor_data := dict_get_default raw_data "data" (VDict []) in
    let* current :=
      extract_first
        ["temperature"; "temp"; "temperature_c"; "temp_c"; "outdoor_temp"]
        "temperature_c" sensor_data [] in
    let* current :=
      extract_first ["humidity"; "rh"; "humidity_pct"; "relative_humidity"]
        "humidity_pct" sensor_data current in
    let* current :=
      extract_first ["pressure"; "pressure_hpa"; "barometric_pressure"; "baro"]
        "pressure_hpa" sensor_data current in
    let* current :=
      extract_first ["wind_speed"; "wind"; "wind_speed_kmh"; "wind_kmh"]
        "wind_speed_kmh" sensor_data current in
    let* current :=
      extract_first ["wind_direction"; "wind_dir"; "wind_direction_deg"]
        "wind_direction_deg" sensor_data current in
    let* current := local_dewpoint_step sensor_data current in
    let* current :=
      extract_first ["cloud_cover"; "clouds"; "cloud_cover_pct"]
        "cloud_cover_pct" sensor_data current in
    let* current :=
      extract_first ["visibility"; "visibility_km"]
        "visibility_km" sensor_data current in
    Some
      [ ("ok", VBool true);
        ("source",
          dict_get_default raw_data "source" (VStr "Local Weather Station"));
        ("timestamp",
          dict_get_default raw_data "read_at" (VStr (isoformat now)));
        ("current", VDict current);
        ("raw", sensor_data);
        ("note",
          VStr "Local sensor - cloud cover and visibility may not be available") ].

End LocalReader.

(** ** update_simulated_weather.py: generate_realistic_weather *)

(** The five draws of [random.uniform]. *)
Record draws := {
  d_temp : Q;        (* uniform(-0.3, 0.3) *)
  d_humidity : Q;    (* uniform(-2.0, 2.0) *)
  d_pressure : Q;    (* uniform(-0.2, 0.2) *)
  d_wind_speed : Q;  (* uniform(-1.0, 1.0) *)
  d_wind_dir : Q;    (* uniform(-15, 15) *)
}.

(** [max(lo, min(hi, x))]. *)
Definition clamp (lo hi x : Q) : Q := Qmax lo (Qmin hi x).

Section Simulated.
Context `{Library}.

(** [previous]: the decoded weather file, or [{}] when the file is
    missing or does not decode.  The record is one of numbers: [NaN]
    and the two infinities, which [json.loads] also reads, are no
    [VNum]; [Binary64.generate_realistic_weather] below is the
    generator on records that hold them. *)
Definition previous_weather (file : option string) : value :=
  match file with
  | None => VDict []
  | Some text =>
      match json_loads text with
      | Some v => v
      | None => VDict []
      end
  end.

(** [previous.get(key, default)] followed by [x += draw]; the sum
    with a float raises [TypeError] on a reading that is no number
    and [OverflowError] on an integer beyond the range of the
    floats. *)
Definition drift (previous : value) (key : string) (dflt draw : Q) : option Q :=
  let* v := py_get previous key (VNum dflt) in
  let* q := as_num v in
  if too_large q then None else Some (q + draw)%Q.

Definition generate_realistic_weather (file : option string) (r : draws)
  (now : Z) : option dict :=
  let previous := previous_weather file in
  let* temp := drift previous "temperature_c" 18.0 (d_temp r) in
  let* humidity := drift previous "humidity_pct" 60.0 (d_humidity r) in
  let* pressure := drift previous "pressure_hpa" 1013.0 (d_pressure r) in
  let* wind_speed := drift previous "wind_speed_kmh" 5.0 (d_wind_speed r) in
  let* wind_dir := drift previous "wind_direction_deg" 180.0 (d_wind_dir r) in
  let temp := clamp 5.0 35.0 temp in
  let humidity := clamp 20.0 95.0 humidity in
  let pressure := clamp 980.0 1040.0 pressure in
  let wind_speed := clamp 0.0 50.0 wind_speed in
  let wind_dir := py_fmod wind_dir 360 in
  let* dewpoint := simulated_dewpoint temp humidity in
  Some
    [ ("timestamp", VStr (isoformat now));
      ("temperature_c", VNum (py_round temp 1));
      ("humidity_pct", VNum (py_round humidity 1));
      ("pressure_hpa", VNum (py_round pressure 1));
      ("wind_speed_kmh", VNum (py_round wind_speed 1));
      ("wind_direction_deg", VNum (py_round wind_dir 1));
      ("dewpoint_c", VNum (py_round dewpoint 1));
      ("station_name", VStr "DORO Lab Simulated Sensors");
      ("note", VStr "Simulated data - replace with real sensor readings") ].

End Simulated.

(** ** weather_station_receiver.py *)

(** The alias table of [parse_json_weather], in the order of the
    source. *)
Definition field_map : list (string * string) :=
  [ ("temp", "temperature_c"); ("temperature", "temperature_c");
    ("temp_c", "temperature_c"); ("t", "temperature_c");
    ("humidity", "humidity_pct"); ("rh", "humidity_pct");
    ("relative_humidity", "humidity_pct");
    ("pressure", "pressure_hpa"); ("press", "pressure_hpa");
    ("p", "pressure_hpa");
    ("wind_speed", "wind_speed_kmh"); ("wind_speed_kmh", "wind_speed_kmh");
    ("wind", "wind_speed_kmh");
    ("wind_dir", "wind_direction_deg"); ("wind_direction", "wind_direction_deg");
    ("dewpoint", "dewpoint_c"); ("dew_point", "dewpoint_c");
    ("dp", "dewpoint_c") ].

(** [field_map.get(k, dflt)]. *)
Fixpoint field_map_get (m : list (string * string)) (k dflt : string) : string :=
  match m with
  | [] => dflt
  | (k', target) :: m' =>
      if String.eqb k' k then target else field_map_get m' k dflt
  end.

(** [target_key in field_map.values()]. *)
Definition is_canonical (target_key : string) : bool :=
  existsb (String.eqb target_key) (map snd field_map).

(** The stored current-weather record: the file is absent, or holds
    the JSON object that [write_weather] or the simulated generator
    dumped ([read_current_weather() -> Dict]). *)
Definition store := option dict.

(** [read_current_weather()]. *)
Definition read_current_weather (st : store) : dict :=
  match st with
  | Some d => d
  | None => []
  end.

Section Receiver.
Context `{Library}.

(** [target_key = field_map.get(key.lower(), key)]. *)
Definition target_of (key : string) : string :=
  field_map_get field_map (str_lower key) key.

(** One turn of the loop over [data.items()]:
    [[
      target_key = field_map.get(key.lower(), key)
      if target_key in field_map.values():
          try:
              normalized[target_key] = float(value)
          except (ValueError, TypeError):
              pass
    ]]
    A value that [float] rejects is passed over; [OverflowError] is
    not in the list and leaves the loop ([None]). *)
Definition normalize_step (normalized : dict) (kv : string * value)
  : option dict :=
  let target_key := target_of (fst kv) in
  if is_canonical target_key then
    match float_of (snd kv) with
    | Converted q => Some (dict_set normalized target_key (VNum q))
    | Rejected => Some normalized
    | Overflow => None
    end
  else Some normalized.

(** [parse_json_weather(data)]; the function catches every exception,
    so [None] here is the Python [None] it returns: for a value that
    is not an object ([data.items()] raises), for an object with a
    recognised key whose value makes [float] overflow (the exception
    leaves the loop and the fields extracted so far are dropped), and
    for an object in which nothing was recognised. *)
Definition parse_json_weather (data : value) : option dict :=
  match data with
  | VDict d =>
      match for_each normalize_step d [] with
      | Some (e :: normalized) => Some (e :: normalized)
      | _ => None
      end
  | _ => None
  end.

(** [write_weather(data)]: stamp the record if it has no timestamp
    and replace the file. *)
Definition write_weather (data : dict) (now : Z) : store :=
  Some (if dict_has data "timestamp" then data
        else dict_set data "timestamp" (VStr (isoformat now))).

(** [update_from_json(json_data)]: the returned flag and the store
    afterwards. *)
Definition update_from_json (json_data : string) (now : Z) (st : store)
  : bool * store :=
  match json_loads json_data with
  | None => (false, st)
  | Some data =>
      match parse_json_weather data with
      | Some normalized =>
          let current := read_current_weather st in
          let current := dict_update current normalized in
          (true, write_weather current now)
      | None => (false, st)
      end
  end.

(** An entry of the object that the loop takes: a recognised key with
    a value that converts. *)
Definition recognized_entry (kv : string * value) : Prop :=
  is_canonical (target_of (fst kv)) = true /\ is_Some (py_float (snd kv)).

(** An entry of the object at which the loop stops: a recognised key
    with an integer that [float] does not take. *)
Definition oversized_entry (kv : string * value) : Prop :=
  is_canonical (target_of (fst kv)) = true /\ float_of (snd kv) = Overflow.

(** A JSON value is recognised when it is an object with a key that
    the alias table maps to a canonical field and whose value
    converts to a number, and the loop gets through the object: no
    recognised key holds an integer beyond the range of the floats. *)
Definition recognized_numeric (data : value) : Prop :=
  exists d key v q,
    data = VDict d /\ In (key, v) d /\
    is_canonical (target_of key) = true /\ py_float v = Some q /\
    Forall (fun kv => ~ oversized_entry kv) d.

End Receiver.

(** The record on disk before the examples. *)
Definition ex_store : store :=
  Some [ ("timestamp", VStr "2024-11-04T11:55:00+00:00");
         ("temperature_c", VNum 11); ("humidity_pct", VNum 60);
         ("station_name", VStr "roof") ].




(** ** The image store

    The part of the file system under the skycam directory that the
    two ingest scripts touch.  [shutil.copy2] copies content and
    modification time, so a copy is the same [file]. *)
Record file := {
  content : string;   (* the bytes *)
  mtime : Z;          (* st_mtime *)
}.

(** [st_size]. *)
Definition st_size (f : file) : Z := Z.of_nat (String.length (content f)).

Record skycam := {
  inbox : list (string * file);          (* inbox/, in listing order *)
  latest : option file;                  (* sky_latest_web.jpg *)
  images : gmap string file;             (* images/<name> *)
  archive : gmap (string * string) file; (* archive/<YYYY/MM/DD>/<name> *)
  status : option dict;                  (* skywatch_status.json *)
}.

(** [name.endswith(suffix)]. *)
Definition ends_with (suffix name : string) : bool :=
  let n := String.length name in
  let k := String.length suffix in
  (k <=? n)%nat && String.eqb (String.substring (n - k) k name) suffix.

(** [path.glob("*" + suffix)]. *)
Definition glob_suffix (suffix : string) (dir : list (string * file))
  : list (string * file) :=
  List.filter (fun entry => ends_with suffix (fst entry)) dir.

(** [max(files, key=lambda p: p.stat().st_mtime)]: the first file
    with the largest modification time. *)
Fixpoint max_by_mtime (best : string * file) (files : list (string * file))
  : string * file :=
  match files with
  | [] => best
  | f :: files' =>
      max_by_mtime (if mtime (snd best) <? mtime (snd f) then f else best) files'
  end.

(** skywatch_inbox_ingest.py: _newest_jpg(path). *)
Definition _newest_jpg (dir : list (string * file)) : option (string * file) :=
  match glob_suffix ".jpg" dir ++ glob_suffix ".jpeg" dir with
  | [] => None
  | f :: files => Some (max_by_mtime f files)
  end.

Section Ingest.
Context `{Library}.

(** The status record of the inbox drain. *)
Definition inbox_status (newest : string * file) (now : Z) : dict :=
  [ ("last_event", VStr "image_received");
    ("timestamp", VStr (isoformat now));
    ("last_filename", VStr (fst newest));
    ("last_size_bytes", VNum (inject_Z (st_size (snd newest))));
    ("connection", VStr "active") ].

(** skywatch_inbox_ingest.py: ingest_latest(), with the two readings
    of the clock (archive directory, status timestamp): the returned
    flag and the store afterwards. *)
Definition ingest_latest (now_archive now_status : Z) (fs : skycam)
  : bool * skycam :=
  match _newest_jpg (inbox fs) with
  | None => (false, fs)
  | Some newest =>
      (true,
       {| inbox := inbox fs;
          latest := Some (snd newest);
          images := <[fst newest := snd newest]> (images fs);
          archive :=
            <[(strftime_ymd now_archive, fst newest) := snd newest]>
              (archive fs);
          status := Some (inbox_status newest now_status) |})
  end.

(** skywatch_ftp_receiver.py: _update_status(event_type, size,
    filename); [peer] is [self.socket.getpeername()], and [None]
    when that call raises: the record is then left as it is. *)
Definition _update_status (event_type : string) (size : Z) (filename : string)
  (peer : option (string * Z)) (now : Z) (st : option dict) : option dict :=
  match peer with
  | None => st
  | Some (host, port) =>
      Some
        [ ("last_event", VStr event_type);
          ("timestamp", VStr (isoformat now));
          ("last_filename", VStr filename);
          ("last_size_bytes", VNum (inject_Z size));
          ("connection", VStr "active");
          ("receiver_address", VStr (host ++ ":" ++ pretty port)) ]
  end.

(** skywatch_ftp_receiver.py: _process_image_complete(source_path);
    [source] is the uploaded file, [None] when it does not exist. *)
Definition _process_image_complete (filename : string) (source : option file)
  (peer : option (string * Z)) (now_archive now_status : Z) (fs : skycam)
  : skycam :=
  match source with
  | None => fs
  | Some f =>
      if st_size f =? 0 then fs
      else
        {| inbox := inbox fs;
           latest := latest fs;
           images := <[filename := f]> (images fs);
           archive := <[(strftime_ymd now_archive, filename) := f]> (archive fs);
           status :=
             _update_status "image_received" (st_size f) filename peer
               now_status (status fs) |}
  end.

(** A field of the status record. *)
Definition status_field (fs : skycam) (k : string) : option value :=
  match status fs with
  | Some d => dict_get d k
  | None => None
  end.

End Ingest.

(** A drop directory with two pictures and a note, and an empty
    store. *)
Definition ex_picture_old : file := {| content := "JFIF-old"; mtime := 1730720000 |}.
Definition ex_picture_new : file := {| content := "JFIF-new"; mtime := 1730721000 |}.

Definition ex_skycam : skycam :=
  {| inbox := [ ("sky_0001.jpg", ex_picture_old);
                ("notes.txt", {| content := "hello"; mtime := 1730722000 |});
                ("sky_0002.jpeg", ex_picture_new) ];
     latest := None;
     images := ∅;
     archive := ∅;
     status := None |}.

(** ** Tactics *)

(** Division by a constant, for [lra]: [x / c] becomes [x * (1/c)]. *)
Ltac qdiv :=
  unfold Qdiv in *;
  repeat match goal with
    | H : context [Qinv ?c] |- _ =>
        let v := eval compute in (Qinv c) in change (Qinv c) with v in H
    | |- context [Qinv ?c] =>
        let v := eval compute in (Qinv c) in change (Qinv c) with v
    end.

(** * Further examples *)

(** A local station that also reports cloud cover and visibility. *)
Definition ex_local_cloudy : dict :=
  [ ("ok", VBool true);
    ("current",
      VDict [ ("temperature_c", VNum 10); ("cloud_cover_pct", VNum 25);
              ("visibility_km", VNum 20); ("conditions", VStr "clear") ]) ].


(** The rating of a window lies between the two bounds. *)
Definition rated_between (lo hi : Q) (w : value) : Prop :=
  exists d r,
    w = VDict d /\ dict_get d "rating" = Some (VNum r) /\
    (lo <= r)%Q /\ (r <= hi)%Q.

(** The five readings that the simulated generator carries over from
    the previous record. *)
Definition simulated_keys : list string :=
  [ "temperature_c"; "humidity_pct"; "pressure_hpa"; "wind_speed_kmh";
    "wind_direction_deg" ].

(** Draws in the middle of their ranges. *)
Definition ex_draws : draws :=
  {| d_temp := 0.1; d_humidity := -1; d_pressure := 0.1;
     d_wind_speed := 0.5; d_wind_dir := -5 |}.

(** * update_simulated_weather.py on a record with floats that are no numbers

    [json.loads] reads [NaN], [Infinity] and [-Infinity], and
    [json.dumps] writes them: the receiver stores the [float] of a
    request value, [float("nan")] included, in the file that the
    generator reads back.  No [VNum] stands for one of the three;
    this part is the generator on records that may hold them.  On a
    record of numbers it is [generate_realistic_weather] above. *)
Module Binary64.

(** The floats of Python; the finite ones are taken as exact. *)
Inductive float : Type :=
| Finite (q : Q)
| PosInf
| NegInf
| NaN.

(** [x < y]: false when a side is [NaN]. *)
Definition lt (x y : float) : bool :=
  match x, y with
  | Finite a, Finite b => Qltb a b
  | Finite _, PosInf => true
  | NegInf, Finite _ => true
  | NegInf, PosInf => true
  | _, _ => false
  end.

(** [min(a, b)] and [max(a, b)]: the first argument, unless the second
    is smaller, respectively larger. *)
Definition min (a b : float) : float := if lt b a then b else a.
Definition max (a b : float) : float := if lt a b then b else a.

Definition neg (x : float) : float :=
  match x with
  | Finite a => Finite (- a)
  | PosInf => NegInf
  | NegInf => PosInf
  | NaN => NaN
  end.

Definition add (x y : float) : float :=
  match x, y with
  | Finite a, Finite b => Finite (a + b)
  | NaN, _ | _, NaN => NaN
  | PosInf, NegInf | NegInf, PosInf => NaN
  | PosInf, _ | _, PosInf => PosInf
  | NegInf, _ | _, NegInf => NegInf
  end.

Definition sub (x y : float) : float := add x (neg y).

Definition infinity (positive : bool) : float :=
  if positive then PosInf else NegInf.

Definition mul (x y : float) : float :=
  match x, y with
  | Finite a, Finite b => Finite (a * b)
  | NaN, _ | _, NaN => NaN
  | Finite a, PosInf | PosInf, Finite a =>
      if Qeq_bool a 0 then NaN else infinity (Qltb 0 a)
  | Finite a, NegInf | NegInf, Finite a =>
      if Qeq_bool a 0 then NaN else infinity (Qltb a 0)
  | PosInf, PosInf | NegInf, NegInf => PosInf
  | PosInf, NegInf | NegInf, PosInf => NegInf
  end.

(** [x / y]: [ZeroDivisionError] on the divisor 0. *)
Definition div (x y : float) : option float :=
  match y with
  | Finite b =>
      if Qeq_bool b 0 then None
      else
        Some match x with
             | Finite a => Finite (a / b)
             | PosInf => infinity (Qltb 0 b)
             | NegInf => infinity (Qltb b 0)
             | NaN => NaN
             end
  | NaN => Some NaN
  | _ => Some match x with Finite _ => Finite 0 | _ => NaN end
  end.

(** [x % m] for a number [m] other than 0: [NaN] unless [x] is
    finite. *)
Definition rem (x : float) (m : Q) : float :=
  match x with
  | Finite a => Finite (py_fmod a m)
  | _ => NaN
  end.

(** [round(x, ndigits)]: a float that is no number stays as it is. *)
Definition round (x : float) (ndigits : nat) : float :=
  match x with
  | Finite a => Finite (py_round a ndigits)
  | _ => x
  end.

(** A value of a decoded record: a value as in the rest of the model,
    or a float. *)
Inductive entry : Type :=
| Plain (v : value)
| Float (x : float).

Definition record : Type := list (string * entry).

Fixpoint get (d : record) (k : string) : option entry :=
  match d with
  | [] => None
  | (k', e) :: d' => if String.eqb k' k then Some e else get d' k
  end.

(** What [json.loads] returns: an object or something else. *)
Inductive document : Type :=
| Object (d : record)
| NotObject.

(** [json.loads] with the three constants; [None] when it raises. *)
Class Decoder := {
  loads : string -> option document;
}.

(** The float that [x + <float>] adds to: a float is taken as it is,
    a number and a boolean are converted, an integer beyond the
    range of the floats raises [OverflowError], anything else
    [TypeError]. *)
Definition to_float (e : entry) : option float :=
  match e with
  | Float x => Some x
  | Plain v =>
      let* q := as_num v in
      if too_large q then None else Some (Finite q)
  end.

Section Generator.
Context `{Library} `{Decoder}.

(** [previous]: the decoded weather file, or [{}] when the file is
    missing or does not decode. *)
Definition previous_weather (file : option string) : document :=
  match file with
  | None => Object []
  | Some text =>
      match loads text with
      | Some v => v
      | None => Object []
      end
  end.

(** [previous.get(key, default)] followed by [x += draw]. *)
Definition drift (previous : document) (key : string) (dflt draw : Q)
  : option float :=
  match previous with
  | Object d =>
      let e := match get d key with
               | Some e => e
               | None => Float (Finite dflt)
               end in
      let* x := to_float e in
      Some (add x (Finite draw))
  | NotObject => None
  end.

(** [[
      a, b = 17.27, 237.7
      alpha = ((a * temp) / (b + temp)) + (humidity / 100.0)
      dewpoint = (b * alpha) / (a - alpha)
    ]] *)
Definition dewpoint (temp humidity : float) : option float :=
  let a := Finite 17.27 in
  let b := Finite 237.7 in
  let* t := div (mul a temp) (add b temp) in
  let* h := div humidity (Finite 100.0) in
  let alpha := add t h in
  div (mul b alpha) (sub a alpha).

Definition generate_realistic_weather (file : option string) (r : draws)
  (now : Z) : option record :=
  let previous := previous_weather file in
  let* temp := drift previous "temperature_c" 18.0 (d_temp r) in
  let* humidity := drift previous "humidity_pct" 60.0 (d_humidity r) in
  let* pressure := drift previous "pressure_hpa" 1013.0 (d_pressure r) in
  let* wind_speed := drift previous "wind_speed_kmh" 5.0 (d_wind_speed r) in
  let* wind_dir := drift previous "wind_direction_deg" 180.0 (d_wind_dir r) in
  let temp := max (Finite 5.0) (min (Finite 35.0) temp) in
  let humidity := max (Finite 20.0) (min (Finite 95.0) humidity) in
  let pressure := max (Finite 980.0) (min (Finite 1040.0) pressure) in
  let wind_speed := max (Finite 0.0) (min (Finite 50.0) wind_speed) in
  let wind_dir := rem wind_dir 360 in
  let* dewpoint := dewpoint temp humidity in
  Some
    [ ("timestamp", Plain (VStr (isoformat now)));
      ("temperature_c", Float (round temp 1));
      ("humidity_pct", Float (round humidity 1));
      ("pressure_hpa", Float (round pressure 1));
      ("wind_speed_kmh", Float (round wind_speed 1));
      ("wind_direction_deg", Float (round wind_dir 1));
      ("dewpoint_c", Float (round dewpoint 1));
      ("station_name", Plain (VStr "DORO Lab Simulated Sensors"));
      ("note", Plain (VStr "Simulated data - replace with real sensor readings")) ].

End Generator.

(** A reading of the previous record can be carried over when it is
    absent or something that [+=] adds a float to. *)
Definition usable (previous : record) (key : string) : Prop :=
  match get previous key with
  | Some e => is_Some (to_float e)
  | None => True
  end.

(** A reading that is absent or a number. *)
Definition finite_reading (previous : record) (key : string) : Prop :=
  match get previous key with
  | Some e => exists q, to_float e = Some (Finite q)
  | None => True
  end.

(** A field of a record that is a number within two bounds. *)
Definition field_between (m : record) (key : string) (lo hi : Q) : Prop :=
  exists q, get m key = Some (Float (Finite q)) /\ (lo <= q)%Q /\ (q <= hi)%Q.

(** A record of the values of the rest of the model, and a record of
    the generator with its numbers as floats. *)
Definition plain (d : dict) : record :=
  map (fun kv => (fst kv, Plain (snd kv))) d.

Definition as_entry (v : value) : entry :=
  match v with
  | VNum q => Float (Finite q)
  | _ => Plain v
  end.

Definition written (d : dict) : record :=
  map (fun kv => (fst kv, as_entry (snd kv))) d.

(** A record that the receiver left behind after a request with
    [Infinity] as temperature and [NaN] as wind direction. *)
Definition ex_text : string :=
  "{" ++ Sample.quote ++ "temperature_c" ++ Sample.quote ++ ": Infinity, "
  ++ Sample.quote ++ "humidity_pct" ++ Sample.quote ++ ": 55, "
  ++ Sample.quote ++ "wind_direction_deg" ++ Sample.quote ++ ": NaN}".

Definition ex_previous : record :=
  [ ("temperature_c", Float PosInf); ("humidity_pct", Plain (VNum 55));
    ("wind_direction_deg", Float NaN) ].

Definition ex_decoder : Decoder := {|
  loads := fun s => if String.eqb s ex_text then Some (Object ex_previous) else None;
|}.

End Binary64.

(** A station record with a dewpoint of zero degrees under the key
    [dewpoint], as the reader receives it. *)
Definition ex_raw_zero_dewpoint : dict :=
  [ ("ok", VBool true);
    ("source", VStr "Local Weather Station (file)");
    ("data", VDict [ ("temperature", VNum 3); ("humidity", VNum 80);
                     ("dewpoint", VNum 0) ]) ].

(** * fetch_local_weather.py: read_file_based_sensors *)

(** What [datetime.fromisoformat] gives: an aware instant when the
    text carries an offset, a naive one otherwise. *)
Inductive parsed_time : Type :=
| Aware (t : Z)
| Naive (t : Z).

(** The exceptions that the reader catches under [except Exception]. *)
Inductive read_failure : Type :=
| NotIterable        (* ["timestamp" in x] on a number, a boolean or null *)
| NotSubscriptable   (* [x["timestamp"]] on a list or a string *)
| NoReplace          (* [.replace] on a value that is not a string *)
| BadIsoFormat       (* [fromisoformat] rejects the text *)
| NaiveMinusAware.   (* the aware [now] minus a naive time *)

(** The date parser of the standard library and the texts of its
    exceptions. *)
Class Calendar := {
  (** [datetime.fromisoformat(s)]; [None] is [ValueError]. *)
  parse_iso : string -> option parsed_time;
  (** [str(e)] of the exception raised on a value. *)
  failure_text : read_failure -> value -> string;
}.

(** [s.replace("Z", "+00:00")]. *)
Fixpoint replace_Z (s : string) : string :=
  match s with
  | EmptyString => EmptyString
  | String c s' =>
      if Ascii.eqb c "Z"%char then "+00:00" ++ replace_Z s'
      else String c (replace_Z s')
  end.

(** The sensor file [DATA_PATH / "current.json"] as [json.load] sees
    it: missing, not JSON (with the decoder's message), or decoded. *)
Inductive weather_file : Type :=
| NoFile
| Undecodable (msg : string)
| Decoded (v : value).

(** The file that the receiver and the simulated generator write is
    the file that the reader reads. *)
Definition file_of_store (st : store) : weather_file :=
  match st with
  | None => NoFile
  | Some d => Decoded (VDict d)
  end.

Definition DATA_FILE : string :=
  "/srv/doro_lab_projects/data/weather/current.json".

Section FileReader.
Context `{Library} `{Calendar}.

(** [{"ok": False, "error": f"Read error: {e}"}]. *)
Definition read_error (f : read_failure) (sensor_data : value) : dict :=
  [ ("ok", VBool false);
    ("error", VStr ("Read error: " ++ failure_text f sensor_data)) ].

(** [(now - data_time).total_seconds()]. *)
Definition age_seconds (now data_time : Z) : Q :=
  (inject_Z (now - data_time) / inject_Z second_us)%Q.

(** read_file_based_sensors(), with the two readings of the clock
    (age of the data, [read_at]). *)
Definition read_file_based_sensors (f : weather_file) (now_age now_read : Z)
  : dict :=
  match f with
  | NoFile =>
      [ ("ok", VBool false);
        ("error", VStr "Sensor data file not found");
        ("path", VStr DATA_FILE);
        ("instructions",
          VStr "Configure local weather station to write JSON to this path") ]
  | Undecodable msg =>
      [ ("ok", VBool false); ("error", VStr ("Invalid JSON: " ++ msg)) ]
  | Decoded sensor_data =>
      let read :=
        [ ("ok", VBool true);
          ("source", VStr "Local Weather Station (file)");
          ("data", sensor_data);
          ("read_at", VStr (isoformat now_read)) ] in
      match py_in "timestamp" sensor_data with
      | None => read_error NotIterable sensor_data
      | Some false => read
      | Some true =>
          match py_getitem sensor_data "timestamp" with
          | None => read_error NotSubscriptable sensor_data
          | Some (VStr s) =>
              match parse_iso (replace_Z s) with
              | None => read_error BadIsoFormat (VStr s)
              | Some (Naive _) => read_error NaiveMinusAware (VStr s)
              | Some (Aware data_time) =>
                  let age := age_seconds now_age data_time in
                  if Qltb 600 age then
                    [ ("ok", VBool false);
                      ("error", VStr "Sensor data is stale");
                      ("age_seconds", VNum age);
                      ("last_update", VStr s) ]
                  else read
              end
          | Some ts => read_error NoReplace ts
          end
      end
  end.

End FileReader.

(** A sample calendar: the text of [isoformat] for an aware UTC
    instant, and the same without offset as a naive time. *)
Module SampleCalendar.

Definition parse_iso (s : string) : option parsed_time :=
  if (String.length s =? 19)%nat then
    let* t := Sample.fromisoformat s in Some (Naive t)
  else if (String.length s =? 25)%nat
          && String.eqb (String.substring 19 6 s) "+00:00" then
    let* t := Sample.fromisoformat (String.substring 0 19 s) in Some (Aware t)
  else None.

Definition failure_text (f : read_failure) (v : value) : string :=
  match f with
  | NotIterable => "argument is not iterable"
  | NotSubscriptable => "indices must be integers"
  | NoReplace => "object has no attribute 'replace'"
  | BadIsoFormat => "Invalid isoformat string"
  | NaiveMinusAware => "can't subtract offset-naive and offset-aware datetimes"
  end.

End SampleCalendar.

#[export] Instance sample_calendar : Calendar := {
  parse_iso := SampleCalendar.parse_iso;
  failure_text := SampleCalendar.failure_text;
}.

(** A record stamped five minutes before noon without offset. *)
Definition ex_store_naive : store :=
  Some [ ("timestamp", VStr "2024-11-04T11:55:00"); ("temperature_c", VNum 11) ].

(** The alias list of the temperature in the local reader. *)
Definition temperature_aliases : list string :=
  [ "temperature"; "temp"; "temperature_c"; "temp_c"; "outdoor_temp" ].

(** A station record with two spellings of the temperature. *)
Definition ex_two_spellings : dict :=
  [ ("temp", VNum 9); ("temperature", VStr "n/a") ].

(** * The drop directory *)

(** A picture of the drop directory: a name that [*.jpg] or [*.jpeg]
    matches. *)
Definition is_picture (name : string) : bool :=
  ends_with ".jpg" name || ends_with ".jpeg" name.

(** * skywatch_ftp_receiver.py: uploads

    The receiver's [forecast.json] is the file that the composer
    writes; as [json.loads] sees it, it is missing, not JSON, or
    decoded, like the sensor file. *)


Section Uploads.
Context `{Library}.







End Uploads.




(** * weather_station_receiver.py: station files *)

(** String and path functions of the standard library. *)
Class Texts := {
  (** [s.strip()]. *)
  str_strip : string -> string;
  (** [int(s)]; [None] is [ValueError]. *)
  int_of_string : string -> option Z;
  (** [Path(p).suffix]. *)
  path_suffix : string -> string;
}.

(** [s.split(sep)] for a separator of one character. *)
Fixpoint split_on (sep : Ascii.ascii) (s : string) : list string :=
  match s with
  | EmptyString => [EmptyString]
  | String c s' =>
      if Ascii.eqb c sep then EmptyString :: split_on sep s'
      else
        match split_on sep s' with
        | [] => [String c EmptyString]
        | p :: ps => String c p :: ps
        end
  end.

(** [s.split(sep, 1)] when [sep in s]: the text before the first
    separator and the text after it; [None] when [sep not in s]. *)
Fixpoint split_first (sep : Ascii.ascii) (s : string) : option (string * string) :=
  match s with
  | EmptyString => None
  | String c s' =>
      if Ascii.eqb c sep then Some (EmptyString, s')
      else
        let* r := split_first sep s' in
        Some (String c (fst r), snd r)
  end.

Definition comma : Ascii.ascii := ","%char.
Definition equals_sign : Ascii.ascii := "="%char.
Definition newline : Ascii.ascii := Ascii.ascii_of_nat 10.

Section StationFiles.
Context `{Library} `{Texts}.

(** parse_boltwood_file(filepath), on the text of the file; [None]
    is the Python [None] that the function returns, also after an
    exception. *)
Definition parse_boltwood_file (filepath text : string) : option dict :=
  let content := str_strip text in
  let parts := map str_strip (split_on comma content) in
  if (7 <=? length parts)%nat then
    let* temperature := float_of_string (nth 0 parts "") in
    let* wind_direction := int_of_string (nth 1 parts "") in
    let* pressure := float_of_string (nth 2 parts "") in
    let* humidity := float_of_string (nth 3 parts "") in
    let* dewpoint := float_of_string (nth 4 parts "") in
    let* wind_speed := float_of_string (nth 5 parts "") in
    Some
      [ ("temperature_c", VNum temperature);
        ("wind_direction_deg", VNum (inject_Z wind_direction));
        ("pressure_hpa", VNum pressure);
        ("humidity_pct", VNum humidity);
        ("dewpoint_c", VNum dewpoint);
        ("wind_speed_kmh", VNum (wind_speed * 3.6));
        ("station_status", VStr (nth 6 parts ""));
        ("station_name", VStr "Boltwood CloudSensor");
        ("source_file", VStr filepath) ]
  else None.

(** One line of a CloudSensor file: [key=value] is stored, stripped;
    a line without [=] is passed over. *)
Definition cloudsensor_line (data : dict) (line : string) : dict :=
  match split_first equals_sign line with
  | None => data
  | Some (key, value) => dict_set data (str_strip key) (VStr (str_strip value))
  end.

(** [if field in data: weather[target] = float(data[field])]. *)
Definition cloudsensor_field (data : dict) (field target : string)
  (weather : dict) : option dict :=
  match dict_get data field with
  | Some v => let* q := py_float v in Some (dict_set weather target (VNum q))
  | None => Some weather
  end.

(** parse_cloudsensor_file(filepath), on the text of the file. *)
Definition parse_cloudsensor_file (filepath text : string) : option dict :=
  let data := fold_left cloudsensor_line (split_on newline (str_strip text)) [] in
  let* weather := cloudsensor_field data "temperature" "temperature_c" [] in
  let* weather := cloudsensor_field data "humidity" "humidity_pct" weather in
  let* weather := cloudsensor_field data "pressure" "pressure_hpa" weather in
  let* weather := cloudsensor_field data "wind_speed" "wind_speed_kmh" weather in
  let* weather :=
    cloudsensor_field data "wind_direction" "wind_direction_deg" weather in
  let* weather :=
    (if dict_has data "dewpoint" || dict_has data "dew_point" then
       let key := if dict_has data "dewpoint" then "dewpoint" else "dew_point" in
       cloudsensor_field data key "dewpoint_c" weather
     else Some weather) in
  match weather with
  | [] => None
  | _ :: _ =>
      Some (dict_set (dict_set weather "station_name" (VStr "AAG CloudSensor"))
              "source_file" (VStr filepath))
  end.

(** [current = read_current_weather(); current.update(weather);
    write_weather(current); return True]. *)
Definition store_update (weather : dict) (now : Z) (st : store) : bool * store :=
  (true, write_weather (dict_update (read_current_weather st) weather) now).

(** update_from_file(filepath); [file] is the text of the file,
    [None] when the path does not exist. *)
Definition update_from_file (filepath : string) (file : option string)
  (now : Z) (st : store) : bool * store :=
  match file with
  | None => (false, st)
  | Some text =>
      let suffix := path_suffix filepath in
      if String.eqb suffix ".dat" then
        match parse_boltwood_file filepath text with
        | Some weather => store_update weather now st
        | None => (false, st)
        end
      else if String.eqb suffix ".txt" then
        match parse_cloudsensor_file filepath text with
        | Some weather => store_update weather now st
        | None => (false, st)
        end
      else if String.eqb suffix ".json" then
        match json_loads text with
        | Some data =>
            match parse_json_weather data with
            | Some normalized => store_update normalized now st
            | None => (false, st)
            end
        | None => (false, st)
        end
      else (false, st)
  end.

End StationFiles.

(** Sample string functions: blanks are spaces, tabs and line ends;
    integers are decimal digits with an optional minus sign; the
    suffix starts at the last dot of the path. *)
Module SampleTexts.

Definition is_blank (c : Ascii.ascii) : bool :=
  let n := Ascii.nat_of_ascii c in
  (n =? 32)%nat || (n =? 9)%nat || (n =? 10)%nat || (n =? 13)%nat.

Fixpoint lstrip (s : string) : string :=
  match s with
  | String c s' => if is_blank c then lstrip s' else s
  | EmptyString => EmptyString
  end.

Fixpoint rstrip (s : string) : string :=
  match s with
  | EmptyString => EmptyString
  | String c s' =>
      match rstrip s' with
      | EmptyString => if is_blank c then EmptyString else String c EmptyString
      | r => String c r
      end
  end.

Definition str_strip (s : string) : string := rstrip (lstrip s).

Definition int_of_string (s : string) : option Z :=
  match s with
  | String "-"%char s' => let* n := Sample.number s' in Some (- n)
  | _ => Sample.number s
  end.

Fixpoint suffix_from (s : string) : option string :=
  match s with
  | EmptyString => None
  | String c s' =>
      match suffix_from s' with
      | Some r => Some r
      | None => if Ascii.eqb c "."%char then Some s else None
      end
  end.

Definition path_suffix (p : string) : string :=
  match suffix_from p with Some r => r | None => EmptyString end.

End SampleTexts.

#[export] Instance sample_texts : Texts := {
  str_strip := SampleTexts.str_strip;
  int_of_string := SampleTexts.int_of_string;
  path_suffix := SampleTexts.path_suffix;
}.

(** The line of the Boltwood format description. *)
Definition ex_boltwood : string := "-10.5, 023, 998, 56, 45, 0.2, OK".

(** * From the simulated generator to the merge *)

(** The record that the simulated generator writes, and the six
    readings of it as the local reader delivers them. *)
Definition station_record (stamp : string) (t h p w wd dp : Q) : dict :=
  [ ("timestamp", VStr stamp);
    ("temperature_c", VNum t); ("humidity_pct", VNum h);
    ("pressure_hpa", VNum p); ("wind_speed_kmh", VNum w);
    ("wind_direction_deg", VNum wd); ("dewpoint_c", VNum dp);
    ("station_name", VStr "DORO Lab Simulated Sensors");
    ("note", VStr "Simulated data - replace with real sensor readings") ].

Definition standard_current (t h p w wd dp : Q) : dict :=
  [ ("temperature_c", VNum t); ("humidity_pct", VNum h);
    ("pressure_hpa", VNum p); ("wind_speed_kmh", VNum w);
    ("wind_direction_deg", VNum wd); ("dewpoint_c", VNum dp) ].

(** The order in which the local reader stores the six readings. *)
Definition local_keys_in_order : list string :=
  [ "temperature_c"; "humidity_pct"; "pressure_hpa"; "wind_speed_kmh";
    "wind_direction_deg"; "dewpoint_c" ].

(** The online channel is down, or its current conditions are an
    object. *)
Definition online_usable (online_data : dict) : Prop :=
  get_ok online_data && dict_has online_data "current" = false
  \/ exists oc, dict_get online_data "current" = Some (VDict oc).

(** * From the online reader to the window scorer *)




(** * The fetcher scripts as processes

    The composer runs the two fetcher scripts with [subprocess.run]
    and reads what they print. *)

(** The JSON printer of the standard library and the message of its
    decoder. *)
Class Printer := {
  (** [json.dumps(v, indent=2)]. *)
  json_dumps : value -> string;
  (** [str(e)] of the [JSONDecodeError] raised on a text. *)
  json_error : string -> string;
}.

(** [print(s)]: the text and a line end. *)
Definition print_line (s : string) : string := s ++ String newline EmptyString.

(** A finished process: exit code and the two captured streams. *)
Record completed := {
  returncode : Z;
  stdout : string;
  stderr : string;
}.

(** What [subprocess.run] does with a script: it finishes, runs into
    the timeout, or raises something else. *)
Inductive run_outcome : Type :=
| Completed (r : completed)
| TimedOut
| RunFailed (msg : string).

(** What the two requests to the provider do: both answer with JSON,
    or one raises a [URLError], or one raises anything else. *)
Inductive fetch_outcome : Type :=
| Fetched (current forecast : value)
| NetworkError (e : string)
| ApiError (e : string).

(** What the request to the station's endpoint does. *)
Inductive http_outcome : Type :=
| HttpAnswer (sensor_data : value)
| HttpUrlError (e : string)
| HttpFailure (e : string).

(** The environment of fetch_local_weather.py. *)
Record station_env := {
  SENSOR_TYPE : string;
  MQTT_BROKER : string;
  MQTT_TOPIC : string;
  HTTP_ENDPOINT : string;
  paho_installed : bool;   (* [import paho.mqtt.client] succeeds *)
}.

(** The document that fetch_online_weather.py prints without an API
    key. *)
Definition demo_data : dict :=
  [ ("ok", VBool false);
    ("source", VStr "OpenWeatherMap API (not configured)");
    ("error", VStr "API key required");
    ("instructions", VStr "Set OPENWEATHER_API_KEY environment variable");
    ("demo", VBool true) ].

Section Processes.
Context `{Library} `{Calendar} `{Printer}.

(** generate_forecast.py: run_fetcher(script_name); [script] is
    [None] when the script file does not exist. *)
Definition run_fetcher (script_name : string) (script : option run_outcome)
  : value :=
  match script with
  | None =>
      VDict [ ("ok", VBool false);
              ("error", VStr ("Script not found: " ++ script_name)) ]
  | Some (Completed r) =>
      if (returncode r =? 0) && negb (String.eqb (stdout r) "") then
        match json_loads (stdout r) with
        | Some v => v
        | None =>
            VDict [ ("ok", VBool false);
                    ("error",
                      VStr ("Invalid JSON output: " ++ json_error (stdout r)));
                    ("script", VStr script_name) ]
        end
      else
        VDict [ ("ok", VBool false);
                ("error",
                  VStr (if String.eqb (stderr r) "" then "Script execution failed"
                        else stderr r));
                ("script", VStr script_name) ]
  | Some TimedOut =>
      VDict [ ("ok", VBool false); ("error", VStr "Timeout");
              ("script", VStr script_name) ]
  | Some (RunFailed msg) =>
      VDict [ ("ok", VBool false); ("error", VStr msg);
              ("script", VStr script_name) ]
  end.

(** fetch_online_weather.py: fetch_weather_data(). *)
Definition fetch_weather_data (api_key : string) (net : fetch_outcome) (now : Z)
  : dict :=
  if String.eqb api_key "" then
    [ ("error", VStr "API key not configured");
      ("message", VStr "Set OPENWEATHER_API_KEY environment variable");
      ("demo_mode", VBool true) ]
  else
    match net with
    | Fetched current forecast =>
        [ ("ok", VBool true); ("current", current); ("forecast", forecast);
          ("fetched_at", VStr (isoformat now)) ]
    | NetworkError e =>
        [ ("error", VStr ("Network error: " ++ e)); ("ok", VBool false) ]
    | ApiError e =>
        [ ("error", VStr ("API error: " ++ e)); ("ok", VBool false) ]
    end.

(** fetch_online_weather.py run as a script; [traceback] is what the
    interpreter prints when the parser raises. *)
Definition online_main (api_key : string) (net : fetch_outcome) (now : Z)
  (traceback : string) : completed :=
  let result := fetch_weather_data api_key net now in
  if get_ok result then
    match parse_to_forecast_format result with
    | Some formatted =>
        {| returncode := 0;
           stdout := print_line (json_dumps (VDict formatted));
           stderr := "" |}
    | None => {| returncode := 1; stdout := ""; stderr := traceback |}
    end
  else if truthy (dict_get_default result "demo_mode" VNone) then
    {| returncode := 0;
       stdout := print_line (json_dumps (VDict demo_data));
       stderr := "" |}
  else
    {| returncode := 1; stdout := "";
       stderr := print_line (json_dumps (VDict result)) |}.

(** fetch_local_weather.py: read_mqtt_sensors(). *)
Definition read_mqtt_sensors (env : station_env) : dict :=
  if paho_installed env then
    [ ("ok", VBool false);
      ("error", VStr "MQTT reader not implemented yet");
      ("broker", VStr (MQTT_BROKER env));
      ("topic", VStr (MQTT_TOPIC env)) ]
  else
    [ ("ok", VBool false);
      ("error", VStr "paho-mqtt not installed");
      ("instructions", VStr "pip install paho-mqtt") ].

(** fetch_local_weather.py: read_http_endpoint(). *)
Definition read_http_endpoint (env : station_env) (http : http_outcome)
  (now : Z) : dict :=
  match http with
  | HttpAnswer sensor_data =>
      [ ("ok", VBool true);
        ("source", VStr "Local Weather Station (HTTP)");
        ("data", sensor_data);
        ("endpoint", VStr (HTTP_ENDPOINT env));
        ("read_at", VStr (isoformat now)) ]
  | HttpUrlError e =>
      [ ("ok", VBool false); ("error", VStr ("HTTP error: " ++ e));
        ("endpoint", VStr (HTTP_ENDPOINT env)) ]
  | HttpFailure e =>
      [ ("ok", VBool false); ("error", VStr ("Read error: " ++ e)) ]
  end.

(** fetch_local_weather.py: read_local_weather(). *)
Definition read_local_weather (env : station_env) (f : weather_file)
  (http : http_outcome) (now_age now_read : Z) : dict :=
  if String.eqb (SENSOR_TYPE env) "file" then
    read_file_based_sensors f now_age now_read
  else if String.eqb (SENSOR_TYPE env) "mqtt" then read_mqtt_sensors env
  else if String.eqb (SENSOR_TYPE env) "http" then
    read_http_endpoint env http now_read
  else
    [ ("ok", VBool false);
      ("error", VStr ("Unknown sensor type: " ++ SENSOR_TYPE env));
      ("valid_types", VList [VStr "file"; VStr "mqtt"; VStr "http"]) ].

(** fetch_local_weather.py run as a script. *)
Definition local_main (env : station_env) (f : weather_file)
  (http : http_outcome) (now_age now_read now_parse : Z) (traceback : string)
  : completed :=
  let raw_result := read_local_weather env f http now_age now_read in
  if get_ok raw_result then
    match parse_to_standard_format raw_result now_parse with
    | Some formatted =>
        {| returncode := 0;
           stdout := print_line (json_dumps (VDict formatted));
           stderr := "" |}
    | None => {| returncode := 1; stdout := ""; stderr := traceback |}
    end
  else
    {| returncode := 1; stdout := "";
       stderr := print_line (json_dumps (VDict raw_result)) |}.

End Processes.

(** The default environment of the station script. *)
Definition ex_env : station_env :=
  {| SENSOR_TYPE := "file"; MQTT_BROKER := "localhost";
     MQTT_TOPIC := "weather/station";
     HTTP_ENDPOINT := "http://localhost:8080/weather";
     paho_installed := false |}.

(** A printer that writes the demo document as one fixed text, and a
    library whose decoder reads that text back. *)
Definition ex_demo_text : string := "{demo document}".

Definition demo_printer : Printer := {|
  json_dumps := fun _ => ex_demo_text;
  json_error := fun _ => "Expecting value";
|}.

Definition demo_library : Library := {|
  isoformat := Sample.isoformat;
  fromisoformat := Sample.fromisoformat;
  strftime_ymd := Sample.strftime_ymd;
  json_loads := fun s =>
    if String.eqb s (print_line ex_demo_text) then Some (VDict demo_data)
    else None;
  float_of_string := Sample.float_of_string;
  str_lower := Sample.str_lower;
  format_0f := Sample.format_0f;
|}.
(** * Properties *)

(** ** Dictionaries and loops *)

Section DictFacts.

Lemma dict_get_set_eq (d : dict) k v : dict_get (dict_set d k v) k = Some v.
Proof.
  induction d as [|[k' v'] d IH]; simpl.
  - by rewrite String.eqb_refl.
  - destruct (String.eqb k' k) eqn:E; simpl; rewrite E; auto.
Qed.

Lemma dict_get_set_ne (d : dict) k k' v :
  k <> k' -> dict_get (dict_set d k v) k' = dict_get d k'.
Proof.
  intros Hne. induction d as [|[k0 v0] d IH]; simpl.
  - destruct (String.eqb k k') eqn:E; [apply String.eqb_eq in E; done | done].
  - destruct (String.eqb k0 k) eqn:E; simpl.
    + apply String.eqb_eq in E; subst k0.
      destruct (String.eqb k k') eqn:E'; [apply String.eqb_eq in E'; done | done].
    + by rewrite IH.
Qed.

Lemma dict_get_In (d : dict) k : In k (map fst d) -> exists v, dict_get d k = Some v.
Proof.
  induction d as [|[k0 v0] d IH]; simpl; [done|].
  intros [->|Hin].
  - rewrite String.eqb_refl; eauto.
  - destruct (String.eqb k0 k); eauto.
Qed.

Lemma dict_get_value (d : dict) k v :
  dict_get d k = Some v -> In v (map snd d).
Proof.
  induction d as [|[k0 v0] d IH]; simpl; [done|].
  destruct (String.eqb k0 k); [intros [= ->]; by left | auto].
Qed.

Lemma dict_keys_set (d : dict) k v :
  In k (map fst d) -> map fst (dict_set d k v) = map fst d.
Proof.
  induction d as [|[k0 v0] d IH]; simpl; [done|].
  intros Hin. destruct (String.eqb k0 k) eqn:E; simpl; [done|].
  f_equal. apply IH. destruct Hin as [->|Hin]; [|done].
  by rewrite String.eqb_refl in E.
Qed.

End DictFacts.

Section Loops.
Context {A S : Type} (body : S -> A -> option S).

(** A property every iteration keeps holds after the loop. *)
Lemma for_each_inv (P : S -> Prop) l :
  (forall s x s', In x l -> P s -> body s x = Some s' -> P s') ->
  forall s s', P s -> for_each body l s = Some s' -> P s'.
Proof.
  induction l as [|x l IH]; simpl; intros Hstep s s' Hs Hrun.
  - by inversion Hrun; subst.
  - destruct (body s x) as [s1|] eqn:E; [|done].
    eapply IH; [| |exact Hrun]; eauto.
Qed.

(** No iteration raises as long as an invariant that rules the
    exception out is kept. *)
Lemma for_each_total (I : S -> Prop) l :
  (forall s x, In x l -> I s -> exists s', body s x = Some s' /\ I s') ->
  forall s, I s -> exists s', for_each body l s = Some s' /\ I s'.
Proof.
  induction l as [|x l IH]; simpl; intros Hstep s Hs; [eauto|].
  destruct (Hstep s x) as (s1 & -> & Hs1); [by left|done|].
  apply IH; [|done]. intros s2 y Hy. apply Hstep. by right.
Qed.

(** [Q] holds until the iteration for [key], which turns it into
    [P]; every later iteration keeps [P]. *)
Lemma for_each_hit `{EqDecision A} (Q P : S -> Prop) (key : A) l :
  (forall s x s', In x l -> x <> key -> Q s -> body s x = Some s' -> Q s') ->
  (forall s s', Q s -> body s key = Some s' -> P s') ->
  (forall s x s', In x l -> P s -> body s x = Some s' -> P s') ->
  In key l ->
  forall s s', Q s -> for_each body l s = Some s' -> P s'.
Proof.
  intros HQ HQP HP.
  induction l as [|x l IH]; simpl; [done|].
  intros Hin s s' Hs Hrun.
  destruct (body s x) as [s1|] eqn:E; [|done].
  destruct (decide (x = key)) as [->|Hne].
  - eapply (for_each_inv P); [| |exact Hrun].
    + intros s2 y s2' Hy Hs2. apply HP; [by right|done].
    + exact (HQP s s1 Hs E).
  - destruct Hin as [?|Hin]; [done|].
    apply (IH (fun s x s' Hx => HQ s x s' (or_intror Hx))
              (fun s x s' Hx => HP s x s' (or_intror Hx)) Hin s1 s');
      [|exact Hrun].
    apply (HQ s x s1); auto. by left.
Qed.

End Loops.

(** ** Fusion: merge_weather_sources *)

Section Merge.

Lemma local_keys_merged k : In k local_keys -> In k merged_keys.
Proof. simpl. intuition. Qed.

Lemma online_keys_merged k : In k online_keys -> In k merged_keys.
Proof. simpl. intuition. Qed.

Lemma local_not_online k : In k local_keys -> ~ In k online_keys.
Proof. simpl. intros H1 H2. intuition (subst; discriminate). Qed.

Lemma local_init_none k : In k local_keys -> dict_get merged_init k = Some VNone.
Proof. simpl. intuition (subst; reflexivity). Qed.

Variables lc oc : dict.

(** The three loop bodies on dictionaries, in closed form. *)
Lemma merge_local_step_dict m key :
  merge_local_step (VDict lc) m key =
  Some (match dict_get lc key with
        | Some v => if is_none v then m else dict_set m key v
        | None => m
        end).
Proof.
  unfold merge_local_step, py_in, py_getitem, dict_has.
  destruct (dict_get lc key) as [v|]; [|done]. by destruct (is_none v).
Qed.

Lemma merge_online_step_dict m key :
  In key online_keys -> In key (map fst m) ->
  merge_online_step (VDict oc) m key =
  Some (match dict_get oc key with
        | Some v => dict_set m key v
        | None => m
        end).
Proof.
  intros Hk Hm. unfold merge_online_step, py_in, py_getitem, dict_has.
  destruct (dict_get oc key) as [v|]; [|done].
  destruct (dict_get_In m key Hm) as [cur ->].
  replace (existsb (String.eqb key) online_keys) with true.
  - by rewrite orb_true_r.
  - simpl in Hk. destruct Hk as [<-|[<-|[<-|[]]]]; reflexivity.
Qed.

Lemma merge_fill_step_dict m key :
  In key (map fst m) ->
  exists cur, dict_get m key = Some cur /\
  merge_fill_step (VDict oc) m key =
  Some (if is_none cur then
          match dict_get oc key with
          | Some v => dict_set m key v
          | None => m
          end
        else m).
Proof.
  intros Hm. destruct (dict_get_In m key Hm) as [cur Hcur].
  exists cur. split; [done|].
  unfold merge_fill_step, py_in, py_getitem, dict_has. rewrite Hcur.
  destruct (is_none cur); [|done]. by destruct (dict_get oc key).
Qed.

(** *** The local pass *)

Lemma local_pass_keys m m' :
  map fst m = merged_keys ->
  for_each (merge_local_step (VDict lc)) local_keys m = Some m' ->
  map fst m' = merged_keys.
Proof.
  apply (for_each_inv _ (fun m => map fst m = merged_keys)).
  intros s x s' Hx Hs. rewrite merge_local_step_dict. intros [= <-].
  destruct (dict_get lc x) as [v|]; [|done].
  destruct (is_none v); [done|].
  rewrite dict_keys_set; [done|]. rewrite Hs. by apply local_keys_merged.
Qed.

Lemma local_pass_total m :
  exists m', for_each (merge_local_step (VDict lc)) local_keys m = Some m'.
Proof.
  destruct (for_each_total (merge_local_step (VDict lc)) (fun _ => True)
              local_keys) with (s := m) as (m' & Hm' & _); eauto.
  intros s x _ _. rewrite merge_local_step_dict. eauto.
Qed.

Lemma local_pass_takes key v m m' :
  In key local_keys -> dict_get lc key = Some v -> v <> VNone ->
  for_each (merge_local_step (VDict lc)) local_keys m = Some m' ->
  dict_get m' key = Some v.
Proof.
  intros Hk Hv Hnn.
  apply (for_each_hit _ (fun _ => True) (fun m => dict_get m key = Some v) key);
    auto.
  - intros s s' _. rewrite merge_local_step_dict, Hv. intros [= <-].
    destruct v; try done; simpl; apply dict_get_set_eq.
  - intros s x s' _ Hs. rewrite merge_local_step_dict. intros [= <-].
    destruct (dict_get lc x) as [w|] eqn:Hw; [|done].
    destruct (is_none w); [done|].
    destruct (decide (x = key)) as [->|Hne].
    + rewrite Hv in Hw. injection Hw as <-. apply dict_get_set_eq.
    + by rewrite dict_get_set_ne.
Qed.

Lemma local_pass_skips key m m' :
  dict_get lc key = None \/ dict_get lc key = Some VNone ->
  for_each (merge_local_step (VDict lc)) local_keys m = Some m' ->
  dict_get m' key = dict_get m key.
Proof.
  intros Hv.
  apply (for_each_inv _ (fun s => dict_get s key = dict_get m key)); [|done].
  intros s x s' _ Hs. rewrite merge_local_step_dict. intros [= <-].
  destruct (dict_get lc x) as [w|] eqn:Hw; [|done].
  destruct (is_none w) eqn:Hnone; [done|].
  rewrite dict_get_set_ne; [done|]. intros ->.
  destruct Hv as [Hv|Hv]; rewrite Hv in Hw; [done|].
  injection Hw as <-. done.
Qed.

(** *** The online pass *)

Lemma online_step_spec s x s' :
  map fst s = merged_keys -> In x online_keys ->
  merge_online_step (VDict oc) s x = Some s' ->
  map fst s' = merged_keys /\
  s' = match dict_get oc x with Some v => dict_set s x v | None => s end.
Proof.
  intros Hs Hx.
  assert (Hin : In x (map fst s)) by (rewrite Hs; by apply online_keys_merged).
  rewrite merge_online_step_dict by done. intros [= <-]. split; [|done].
  destruct (dict_get oc x) as [v|]; [|done]. by rewrite dict_keys_set.
Qed.

Lemma online_pass_keys m m' :
  map fst m = merged_keys ->
  for_each (merge_online_step (VDict oc)) online_keys m = Some m' ->
  map fst m' = merged_keys.
Proof.
  apply (for_each_inv _ (fun m => map fst m = merged_keys)).
  intros s x s' Hx Hs Hstep. by apply (online_step_spec s x s').
Qed.

Lemma online_pass_total m :
  map fst m = merged_keys ->
  exists m', for_each (merge_online_step (VDict oc)) online_keys m = Some m'.
Proof.
  intros Hm.
  destruct (for_each_total (merge_online_step (VDict oc))
              (fun m => map fst m = merged_keys) online_keys)
    with (s := m) as (m' & Hm' & _); eauto.
  intros s x Hx Hs.
  assert (Hin : In x (map fst s)) by (rewrite Hs; by apply online_keys_merged).
  rewrite merge_online_step_dict by done.
  eexists; split; [done|].
  destruct (dict_get oc x) as [v|]; [|done]. by rewrite dict_keys_set.
Qed.

Lemma online_pass_takes key v m m' :
  map fst m = merged_keys ->
  In key online_keys -> dict_get oc key = Some v ->
  for_each (merge_online_step (VDict oc)) online_keys m = Some m' ->
  dict_get m' key = Some v.
Proof.
  intros Hm Hk Hv Hrun.
  assert (Hgoal : map fst m' = merged_keys /\ dict_get m' key = Some v);
    [|by destruct Hgoal].
  revert m m' Hm Hrun.
  apply (for_each_hit _ (fun m => map fst m = merged_keys)
           (fun m => map fst m = merged_keys /\ dict_get m key = Some v) key);
    auto.
  - intros s x s' Hx _ Hs Hstep. by apply (online_step_spec s x s').
  - intros s s' Hs Hstep.
    destruct (online_step_spec s key s' Hs Hk Hstep) as [Hs' ->].
    split; [done|]. rewrite Hv. apply dict_get_set_eq.
  - intros s x s' Hx [Hs Hget] Hstep.
    destruct (online_step_spec s x s' Hs Hx Hstep) as [Hs' ->].
    split; [done|].
    destruct (dict_get oc x) as [w|] eqn:Hw; [|done].
    destruct (decide (x = key)) as [->|Hne].
    + rewrite Hv in Hw. injection Hw as <-. apply dict_get_set_eq.
    + by rewrite dict_get_set_ne.
Qed.

Lemma online_pass_other key m m' :
  map fst m = merged_keys -> ~ In key online_keys ->
  for_each (merge_online_step (VDict oc)) online_keys m = Some m' ->
  dict_get m' key = dict_get m key.
Proof.
  intros Hm Hk Hrun.
  assert (Hgoal : map fst m' = merged_keys /\ dict_get m' key = dict_get m key);
    [|by destruct Hgoal].
  revert Hrun.
  apply (for_each_inv _
           (fun s => map fst s = merged_keys /\ dict_get s key = dict_get m key));
    [|done].
  intros s x s' Hx [Hs Hget] Hstep.
  destruct (online_step_spec s x s' Hs Hx Hstep) as [Hs' ->].
  split; [done|].
  destruct (dict_get oc x) as [w|]; [|done].
  rewrite dict_get_set_ne; [done|]. by intros ->.
Qed.

(** *** The fill pass *)

Lemma fill_step_spec s x s' :
  map fst s = merged_keys -> In x merged_keys ->
  merge_fill_step (VDict oc) s x = Some s' ->
  map fst s' = merged_keys /\
  exists cur, dict_get s x = Some cur /\
    s' = if is_none cur then
           match dict_get oc x with Some v => dict_set s x v | None => s end
         else s.
Proof.
  intros Hs Hx.
  assert (Hin : In x (map fst s)) by by rewrite Hs.
  destruct (merge_fill_step_dict s x Hin) as (cur & Hcur & ->).
  intros [= <-]. split; [|by exists cur].
  destruct (is_none cur); [|done].
  destruct (dict_get oc x) as [v|]; [|done]. by rewrite dict_keys_set.
Qed.

Lemma fill_pass_total m :
  map fst m = merged_keys ->
  exists m', for_each (merge_fill_step (VDict oc)) merged_keys m = Some m' /\
             map fst m' = merged_keys.
Proof.
  intros Hm.
  apply (for_each_total (merge_fill_step (VDict oc))
           (fun m => map fst m = merged_keys) merged_keys); [|done].
  intros s x Hx Hs.
  assert (Hin : In x (map fst s)) by by rewrite Hs.
  destruct (merge_fill_step_dict s x Hin) as (cur & Hcur & Hstep).
  eexists; split; [exact Hstep|].
  destruct (is_none cur); [|done].
  destruct (dict_get oc x) as [v|]; [|done]. by rewrite dict_keys_set.
Qed.

Lemma fill_pass_keeps key v m m' :
  map fst m = merged_keys -> dict_get m key = Some v -> v <> VNone ->
  for_each (merge_fill_step (VDict oc)) merged_keys m = Some m' ->
  dict_get m' key = Some v.
Proof.
  intros Hm Hv Hnn Hrun.
  assert (Hgoal : map fst m' = merged_keys /\ dict_get m' key = Some v);
    [|by destruct Hgoal].
  revert Hrun.
  apply (for_each_inv _
           (fun s => map fst s = merged_keys /\ dict_get s key = Some v));
    [|done].
  intros s x s' Hx [Hs Hget] Hstep.
  destruct (fill_step_spec s x s' Hs Hx Hstep) as (Hs' & cur & Hcur & ->).
  split; [done|].
  destruct (is_none cur) eqn:Hnone; [|done].
  destruct (dict_get oc x) as [w|]; [|done].
  rewrite dict_get_set_ne; [done|]. intros ->.
  rewrite Hget in Hcur. injection Hcur as <-. by destruct v.
Qed.

Lemma fill_pass_fills key v m m' :
  map fst m = merged_keys -> In key merged_keys ->
  dict_get m key = Some VNone -> dict_get oc key = Some v ->
  for_each (merge_fill_step (VDict oc)) merged_keys m = Some m' ->
  dict_get m' key = Some v.
Proof.
  intros Hm Hk Hnone Hv Hrun.
  assert (Hgoal : map fst m' = merged_keys /\ dict_get m' key = Some v);
    [|by destruct Hgoal].
  revert Hrun.
  apply (for_each_hit _
           (fun s => map fst s = merged_keys /\ dict_get s key = Some VNone)
           (fun s => map fst s = merged_keys /\ dict_get s key = Some v) key);
    auto.
  - intros s x s' Hx Hne [Hs Hget] Hstep.
    destruct (fill_step_spec s x s' Hs Hx Hstep) as (Hs' & cur & Hcur & ->).
    split; [done|].
    destruct (is_none cur); [|done].
    destruct (dict_get oc x) as [w|]; [|done]. by rewrite dict_get_set_ne.
  - intros s s' [Hs Hget] Hstep.
    destruct (fill_step_spec s key s' Hs Hk Hstep) as (Hs' & cur & Hcur & ->).
    split; [done|].
    rewrite Hget in Hcur. injection Hcur as <-. simpl. rewrite Hv.
    apply dict_get_set_eq.
  - intros s x s' Hx [Hs Hget] Hstep.
    destruct (fill_step_spec s x s' Hs Hx Hstep) as (Hs' & cur & Hcur & ->).
    split; [done|].
    destruct (is_none cur); [|done].
    destruct (dict_get oc x) as [w|] eqn:Hw; [|done].
    destruct (decide (x = key)) as [->|Hne].
    + rewrite Hv in Hw. injection Hw as <-. apply dict_get_set_eq.
    + by rewrite dict_get_set_ne.
Qed.

(** *** The whole merge, both channels fresh *)

Variables online_data local_data : dict.
Hypothesis local_fresh : get_ok local_data = true.
Hypothesis local_current : dict_get local_data "current" = Some (VDict lc).
Hypothesis online_fresh : get_ok online_data = true.
Hypothesis online_current : dict_get online_data "current" = Some (VDict oc).

Lemma merge_fresh_unfold :
  exists m1 m2 m3,
    for_each (merge_local_step (VDict lc)) local_keys merged_init = Some m1 /\
    for_each (merge_online_step (VDict oc)) online_keys m1 = Some m2 /\
    for_each (merge_fill_step (VDict oc)) merged_keys m2 = Some m3 /\
    map fst m1 = merged_keys /\ map fst m2 = merged_keys /\
    map fst m3 = merged_keys /\
    merge_weather_sources online_data local_data = Some m3.
Proof.
  destruct (local_pass_total merged_init) as [m1 H1].
  assert (K1 : map fst m1 = merged_keys) by by apply (local_pass_keys merged_init).
  destruct (online_pass_total m1 K1) as [m2 H2].
  assert (K2 : map fst m2 = merged_keys) by by apply (online_pass_keys m1).
  destruct (fill_pass_total m2 K2) as (m3 & H3 & K3).
  exists m1, m2, m3. repeat split; try done.
  unfold merge_weather_sources, dict_has.
  rewrite local_fresh, local_current, online_fresh, online_current.
  cbn [andb]. rewrite H1, H2, K2. exact H3.
Qed.

End Merge.

(** C1, as the code has it.  With both channels fresh the merge
    returns a record with exactly the nine weather fields and no
    provenance entry.  A direct measurement (temperature, humidity,
    pressure, dewpoint, wind speed, wind direction) is the local
    value when the local channel has a non-null one and the online
    value otherwise; cloud cover, visibility and conditions are the
    online value whenever the online channel has the field. *)
Theorem merge_precedence (online_data local_data lc oc : dict) :
  get_ok local_data = true ->
  dict_get local_data "current" = Some (VDict lc) ->
  get_ok online_data = true ->
  dict_get online_data "current" = Some (VDict oc) ->
  exists m,
    merge_weather_sources online_data local_data = Some m /\
    map fst m =
      [ "temperature_c"; "humidity_pct"; "pressure_hpa"; "dewpoint_c";
        "wind_speed_kmh"; "wind_direction_deg"; "cloud_cover_pct";
        "visibility_km"; "conditions" ] /\
    (forall key v, In key local_keys ->
       dict_get lc key = Some v -> v <> VNone -> dict_get m key = Some v) /\
    (forall key v, In key local_keys ->
       dict_get lc key = None \/ dict_get lc key = Some VNone ->
       dict_get oc key = Some v -> dict_get m key = Some v) /\
    (forall key v, In key online_keys ->
       dict_get oc key = Some v -> dict_get m key = Some v).
Proof.
  intros Hlf Hlc Hof Hoc.
  destruct (merge_fresh_unfold lc oc online_data local_data Hlf Hlc Hof Hoc)
    as (m1 & m2 & m3 & H1 & H2 & H3 & K1 & K2 & K3 & Hm).
  exists m3. split; [done|]. split; [exact K3|].
  split; [|split].
  - intros key v Hk Hv Hnn.
    eapply fill_pass_keeps; [exact K2| |exact Hnn|exact H3].
    rewrite (online_pass_other oc key m1 m2 K1 (local_not_online key Hk) H2).
    by eapply local_pass_takes.
  - intros key v Hk Hv Ho.
    eapply fill_pass_fills;
      [exact K2|by apply local_keys_merged| |exact Ho|exact H3].
    rewrite (online_pass_other oc key m1 m2 K1 (local_not_online key Hk) H2).
    rewrite (local_pass_skips lc key merged_init m1 Hv H1).
    by apply local_init_none.
  - intros key v Hk Ho.
    assert (H2k : dict_get m2 key = Some v)
      by exact (online_pass_takes oc key v m1 m2 K1 Hk Ho H2).
    destruct (is_none v) eqn:Hnone.
    + destruct v; try discriminate.
      eapply fill_pass_fills;
        [exact K2|by apply online_keys_merged|exact H2k|exact Ho|exact H3].
    + eapply fill_pass_keeps; [exact K2|exact H2k| |exact H3].
      by intros ->.
Qed.

(** The fusion example of the specification, through [merge_precedence]:
    local 10 beats online 20 for the temperature, and the online cloud
    cover is taken. *)
Lemma merge_precedence_witness :
  exists m,
    merge_weather_sources ex_online ex_local = Some m /\
    dict_get m "temperature_c" = Some (VNum 10) /\
    dict_get m "cloud_cover_pct" = Some (VNum 30).
Proof.
  destruct (merge_precedence ex_online ex_local
              [("temperature_c", VNum 10)]
              [("temperature_c", VNum 20); ("cloud_cover_pct", VNum 30)])
    as (m & Hm & _ & Hlocal & _ & Honline); try reflexivity.
  exists m. split; [exact Hm|]. split.
  - apply Hlocal; [simpl; auto|reflexivity|discriminate].
  - apply Honline; [simpl; auto|reflexivity].
Defined.

(** C1 as stated fails: on the specification's own example the fused
    temperature is 10, but no entry of the fused record is a
    provenance mapping that says where it came from. *)
Lemma merge_no_provenance :
  exists m,
    merge_weather_sources ex_online ex_local = Some m /\
    dict_get m "temperature_c" = Some (VNum 10) /\
    ~ carries_provenance m "temperature_c" "local".
Proof.
  eexists. split; [vm_compute; reflexivity|]. split; [reflexivity|].
  intros (pk & prov & Hpk & _). apply dict_get_value in Hpk.
  simpl in Hpk. intuition discriminate.
Qed.

(** ** Window scoring: calculate_observation_windows *)

Section Scoring.
Context `{Library}.







Lemma scored_mono forecast moon windows windows' p :
  (forall w, In w windows -> In w windows') ->
  scored forecast moon windows p -> scored forecast moon windows' p.
Proof.
  intros Hsub (w & r & Hin & Hrest). exists w, r. split; [by apply Hsub|done].
Qed.


End Scoring.



(** ** Moon phase and illumination *)

Section Comparisons.

Lemma Qltb_lt x y : Qltb x y = true <-> (x < y)%Q.
Proof.
  unfold Qltb. rewrite Qlt_alt. destruct (x ?= y)%Q; split; congruence.
Qed.

Lemma Qltb_ge x y : Qltb x y = false <-> (y <= x)%Q.
Proof.
  unfold Qltb. rewrite Qle_alt.
  rewrite <- (Qcompare_antisym x y). destruct (x ?= y)%Q; simpl; split; congruence.
Qed.

Lemma Qleb_le x y : Qleb x y = true <-> (x <= y)%Q.
Proof.
  unfold Qleb. rewrite Qle_alt. destruct (x ?= y)%Q; split; congruence.
Qed.

Lemma Qfloor_unique (q : Q) (k : Z) :
  (inject_Z k <= q)%Q -> (q < inject_Z k + 1)%Q -> Qfloor q = k.
Proof.
  intros Hlo Hhi.
  assert (H1 : (k <= Qfloor q)%Z).
  { rewrite <- (Qfloor_Z k). by apply Qfloor_resp_le. }
  assert (H2 : (Qfloor q < k + 1)%Z).
  { rewrite Zlt_Qlt. eapply Qle_lt_trans; [apply Qfloor_le|].
    rewrite inject_Z_plus. exact Hhi. }
  lia.
Qed.

End Comparisons.

(** [calculate_basic_astronomy]: the [k]-th eighth of the cycle gets
    the [k]-th name. *)
Lemma phase_idx_bucket (p : Q) (k : Z) :
  0 <= k < 8 ->
  (inject_Z k / 8 <= p)%Q -> (p < (inject_Z k + 1) / 8)%Q ->
  phase_idx p = k.
Proof.
  intros Hk Hlo Hhi. unfold phase_idx, py_int.
  assert (Hk0 : (inject_Z 0 <= inject_Z k)%Q) by (rewrite <- Zle_Qle; lia).
  change (inject_Z 0) with 0%Q in Hk0. qdiv.
  assert (H8 : (inject_Z k <= p * 8)%Q) by lra.
  assert (H9 : (p * 8 < inject_Z k + 1)%Q) by lra.
  replace (Qltb (p * 8) 0) with false
    by (symmetry; apply Qltb_ge; lra).
  rewrite (Qfloor_unique (p * 8) k H8 H9). apply Z.mod_small. lia.
Qed.

(** [calculate_astronomy_data]: the names are centred on the
    multiples of 1/8, up to 15/16. *)
Lemma phase_name_online_bucket (p : Q) (k : Z) :
  0 <= k < 8 ->
  ((2 * inject_Z k - 1) / 16 <= p)%Q -> (p < (2 * inject_Z k + 1) / 16)%Q ->
  phase_name_online p = nth (Z.to_nat k) phase_names "".
Proof.
  intros Hk Hlo Hhi.
  assert (Hcases : k = 0 \/ k = 1 \/ k = 2 \/ k = 3 \/ k = 4 \/ k = 5
                   \/ k = 6 \/ k = 7) by lia.
  qdiv. unfold phase_name_online.
  repeat match goal with
    | |- context [Qltb p ?c] =>
        let E := fresh "E" in
        destruct (Qltb p c) eqn:E;
        [apply Qltb_lt in E | apply Qltb_ge in E]
    end;
    repeat (destruct Hcases as [->|Hcases]); try subst k;
    unfold inject_Z in *; first [reflexivity | exfalso; lra].
Qed.

Lemma phase_names_distinct (i j : Z) :
  0 <= i < 8 -> 0 <= j < 8 ->
  nth (Z.to_nat i) phase_names "" = nth (Z.to_nat j) phase_names "" -> i = j.
Proof.
  intros Hi Hj.
  assert (Hic : i = 0 \/ i = 1 \/ i = 2 \/ i = 3 \/ i = 4 \/ i = 5
                \/ i = 6 \/ i = 7) by lia.
  assert (Hjc : j = 0 \/ j = 1 \/ j = 2 \/ j = 3 \/ j = 4 \/ j = 5
                \/ j = 6 \/ j = 7) by lia.
  repeat (destruct Hic as [->|Hic]); try subst i;
    repeat (destruct Hjc as [->|Hjc]); try subst j;
    first [reflexivity | discriminate].
Qed.

(** C8, as the code has it.  For a phase fraction in the [k]-th
    eighth of the cycle, [calculate_basic_astronomy] gives the [k]-th
    of the eight names, starting at New Moon;
    [calculate_astronomy_data] gives the [k]-th name on the interval
    of width 1/8 centred on [k/8]; so below 15/16 the two agree
    exactly on the first half of each eighth. *)
Theorem phase_name_buckets (p : Q) (k : Z) :
  0 <= k < 8 ->
  ((inject_Z k / 8 <= p)%Q -> (p < (inject_Z k + 1) / 8)%Q ->
   phase_name_basic p = nth (Z.to_nat k) phase_names "") /\
  (((2 * inject_Z k - 1) / 16 <= p)%Q -> (p < (2 * inject_Z k + 1) / 16)%Q ->
   phase_name_online p = nth (Z.to_nat k) phase_names "") /\
  ((inject_Z k / 8 <= p)%Q -> (p < (inject_Z k + 1) / 8)%Q -> (p < 15 / 16)%Q ->
   (phase_name_basic p = phase_name_online p
    <-> (p < inject_Z k / 8 + 1 / 16)%Q)).
Proof.
  intros Hk.
  assert (Hbasic : (inject_Z k / 8 <= p)%Q -> (p < (inject_Z k + 1) / 8)%Q ->
                   phase_name_basic p = nth (Z.to_nat k) phase_names "").
  { intros Hlo Hhi. unfold phase_name_basic.
    by rewrite (phase_idx_bucket p k Hk Hlo Hhi). }
  split; [exact Hbasic|]. split; [by apply phase_name_online_bucket|].
  intros Hlo Hhi Hcap. rewrite (Hbasic Hlo Hhi).
  destruct (Qlt_le_dec p (inject_Z k / 8 + 1 / 16)) as [Hfirst|Hsecond].
  - split; [done|]. intros _. symmetry.
    apply phase_name_online_bucket; [done| |]; qdiv; lra.
  - split; [|intros Hlt; exfalso; apply (Qlt_irrefl p); eapply Qlt_le_trans; eauto].
    intros Heq. exfalso.
    assert (Hk7 : k < 7).
    { destruct (Z.eq_dec k 7) as [->|]; [|lia].
      qdiv. unfold inject_Z in *. lra. }
    rewrite (phase_name_online_bucket p (k + 1)) in Heq; [|lia| |].
    + apply phase_names_distinct in Heq; lia.
    + rewrite inject_Z_plus. qdiv. unfold inject_Z at 2. lra.
    + rewrite inject_Z_plus. qdiv. unfold inject_Z at 2. lra.
Qed.

(** [phase_name_buckets] at p = 3/16, the middle of the second eighth:
    the basic name is Waxing Crescent, the online one First Quarter. *)
Lemma phase_name_buckets_witness :
  phase_name_basic (3 # 16) = "Waxing Crescent" /\
  ~ phase_name_basic (3 # 16) = phase_name_online (3 # 16).
Proof.
  destruct (phase_name_buckets (3 # 16) 1) as (Hbasic & _ & Hagree); [lia|].
  split.
  - apply Hbasic; [apply Qle_bool_iff; reflexivity|reflexivity].
  - intros Heq. apply Hagree in Heq;
      [|apply Qle_bool_iff; reflexivity|reflexivity|reflexivity].
    revert Heq. apply Qle_not_lt. apply Qle_bool_iff. reflexivity.
Defined.

(** C8 as stated fails: at noon of 2024-11-04 the phase fraction is in
    [0, 1), [calculate_basic_astronomy] names the phase New Moon and
    [calculate_astronomy_data] names it Waxing Crescent. *)
Lemma phase_names_disagree :
  (0 <= moon_phase_float ex_now)%Q /\ (moon_phase_float ex_now < 1)%Q /\
  dict_get (calculate_basic_astronomy ex_now) "moon_phase"
  = Some (VStr "New Moon") /\
  dict_get (calculate_astronomy_data ex_now) "moon_phase"
  = Some (VStr "Waxing Crescent").
Proof.
  split; [apply Qle_bool_iff; vm_compute; reflexivity|].
  split; [vm_compute; reflexivity|].
  split; vm_compute; reflexivity.
Qed.

(** On the first half of the cycle the illumination falls from 100 at
    New Moon to 0 at Full Moon, instead of rising. *)
Lemma illumination_first_half (p : Q) :
  (0 <= p)%Q -> (p <= 1 # 2)%Q -> (illumination p == 100 - 200 * p)%Q.
Proof.
  intros H0 Hhalf. unfold illumination.
  replace (Qleb p 0.5) with true by (symmetry; apply Qleb_le; lra).
  rewrite Qabs_pos by lra.
  rewrite Q.min_r by lra. rewrite Q.max_r by lra. lra.
Qed.

(** C3 fails on the code.  The formula gives 100 at phase 0 (New Moon)
    and 0 at phase 1/2 (Full Moon); on the evening of the new moon of
    2024-11-01 both implementations name the phase New Moon and report
    the moon 99.3% illuminated. *)
Theorem new_moon_reported_full :
  (illumination 0 == 100)%Q /\ (illumination (1 # 2) == 0)%Q /\
  dict_get (calculate_basic_astronomy new_moon_2024) "moon_phase"
  = Some (VStr "New Moon") /\
  dict_get (calculate_basic_astronomy new_moon_2024) "moon_illumination_pct"
  = Some (VNum 99.3) /\
  dict_get (calculate_astronomy_data new_moon_2024) "moon_phase"
  = Some (VStr "New Moon") /\
  dict_get (calculate_astronomy_data new_moon_2024) "moon_illumination_pct"
  = Some (VNum 99.3).
Proof.
  repeat split; vm_compute; reflexivity.
Qed.

(** ** The composer: generate_combined_forecast *)

Section ComposeFacts.
Context `{Library}.

(** The local pass never writes the cloud cover, whatever the local
    fetcher returned. *)
Lemma local_pass_leaves_cloud_cover (local_current : value) m m' :
  for_each (merge_local_step local_current) local_keys m = Some m' ->
  dict_get m "cloud_cover_pct" = Some VNone ->
  dict_get m' "cloud_cover_pct" = Some VNone.
Proof.
  intros Hrun Hm. revert Hrun.
  apply (for_each_inv _ (fun s => dict_get s "cloud_cover_pct" = Some VNone));
    [|done].
  intros s x s' Hx Hs. unfold merge_local_step.
  destruct (py_in x local_current) as [[]|]; try congruence.
  destruct (py_getitem local_current x) as [v|]; [|done].
  destruct (is_none v); intros [= <-]; [done|].
  rewrite dict_get_set_ne; [done|].
  intros ->. simpl in Hx. intuition discriminate.
Qed.

(** Without the online channel the merged cloud cover stays [None]. *)
Lemma merge_without_online online_data local_data m :
  get_ok online_data = false ->
  merge_weather_sources online_data local_data = Some m ->
  dict_get m "cloud_cover_pct" = Some VNone.
Proof.
  intros Hok. unfold merge_weather_sources. rewrite Hok. cbn [andb].
  destruct (get_ok local_data && dict_has local_data "current").
  - destruct (dict_get local_data "current") as [lc|]; [|done].
    destruct (for_each (merge_local_step lc) local_keys merged_init)
      as [m1|] eqn:Hrun; [|done].
    intros [= <-]. by eapply local_pass_leaves_cloud_cover.
  - by intros [= <-].
Qed.

(** [None < 20] raises: the sky quality estimate does not survive a
    missing cloud cover. *)
Lemma sky_quality_none m :
  dict_get m "cloud_cover_pct" = Some VNone -> sky_quality m = None.
Proof. intros Hm. unfold sky_quality, dict_get_default. by rewrite Hm. Qed.

(** Whenever the online channel is not ok, the composer raises. *)
Lemma compose_raises_without_online online_data local_data t1 t2 t3 :
  get_ok online_data = false ->
  generate_combined_forecast online_data local_data t1 t2 t3 = None.
Proof.
  intros Hok. unfold generate_combined_forecast.
  destruct (merge_weather_sources online_data local_data) as [m|] eqn:Hm;
    [|done].
  rewrite (sky_quality_none m (merge_without_online _ _ _ Hok Hm)).
  by destruct (calculate_observation_windows _ _ _ _).
Qed.

End ComposeFacts.

(** C7 fails on the code.  The online fetch timed out and the local
    station answered: the merge keeps the local temperature but leaves
    [cloud_cover_pct] at [None], the sky-quality comparison
    [cloud_cover < 20] raises, and no forecast document is produced. *)
Theorem compose_aborts_on_online_failure :
  get_ok ex_online_failed = false /\ get_ok ex_local_ok = true /\
  (exists m,
     merge_weather_sources ex_online_failed ex_local_ok = Some m /\
     dict_get m "temperature_c" = Some (VNum 10) /\
     dict_get m "cloud_cover_pct" = Some VNone /\
     sky_quality m = None) /\
  generate_combined_forecast ex_online_failed ex_local_ok ex_now ex_now ex_now
  = None.
Proof.
  split; [reflexivity|]. split; [reflexivity|]. split.
  - eexists. split; [vm_compute; reflexivity|]. repeat split.
  - by apply compose_raises_without_online.
Qed.

(** ** The dewpoint derivation *)

Lemma py_div_defined x y : ~ (y == 0)%Q -> py_div x y = Some (x / y)%Q.
Proof.
  intros Hy. unfold py_div. destruct (Qeq_bool y 0) eqn:E; [|done].
  by apply Qeq_bool_iff in E.
Qed.




(** ** The online reader: parse_to_forecast_format *)


(** The dewpoint of the online reader is its copy of the Magnus
    block on the provider's temperature and humidity. *)
Lemma online_current_dewpoint current cd :
  online_current_data current = Some cd ->
  exists tv hv tc rh d,
    py_getitem2 current "main" "temp" = Some tv /\ as_num tv = Some tc /\
    py_getitem2 current "main" "humidity" = Some hv /\ as_num hv = Some rh /\
    online_dewpoint_c tc rh = Some d /\
    dict_get cd "dewpoint_c" = Some (VNum d).
Proof.
  unfold online_current_data. intros Hcd.
  repeat match type of Hcd with
         | match ?x with Some _ => _ | None => _ end = Some _ =>
             let E := fresh "E" in destruct x eqn:E; [|discriminate]
         end.
  injection Hcd as <-. do 5 eexists. repeat split; try eassumption.
Qed.



(** ** The local reader and the simulated generator *)

Section DewpointSites.
Context `{Library}.

(** When the station reports no dewpoint and the reader has found a
    temperature and a humidity, the dewpoint it stores is its copy
    of the Magnus block. *)
Lemma local_reader_dewpoint sensor_data current tc rh :
  py_in "dewpoint" sensor_data = Some false ->
  py_in "dewpoint_c" sensor_data = Some false ->
  dict_get current "temperature_c" = Some (VNum tc) ->
  dict_get current "humidity_pct" = Some (VNum rh) ->
  local_dewpoint_step sensor_data current
  = (let* d := local_dewpoint_c tc rh in
     Some (dict_set current "dewpoint_c" (VNum d))).
Proof.
  intros H1 H2 Ht Hh. unfold local_dewpoint_step, dict_has.
  by rewrite H1, H2, Ht, Hh.
Qed.

(** The dewpoint of the simulated record is the Magnus block on the
    clamped temperature and humidity. *)
Lemma simulated_generator_dewpoint file r now out :
  generate_realistic_weather file r now = Some out ->
  exists temp humidity d,
    drift (previous_weather file) "temperature_c" 18.0 (d_temp r) = Some temp /\
    drift (previous_weather file) "humidity_pct" 60.0 (d_humidity r)
    = Some humidity /\
    simulated_dewpoint_c (clamp 5.0 35.0 temp) (clamp 20.0 95.0 humidity)
    = Some d /\
    dict_get out "dewpoint_c" = Some (VNum d).
Proof.
  unfold generate_realistic_weather, simulated_dewpoint_c. intros Hout.
  repeat match type of Hout with
         | match ?x with Some _ => _ | None => _ end = Some _ =>
             let E := fresh "E" in destruct x eqn:E; [|discriminate]
         end.
  injection Hout as <-. do 3 eexists.
  repeat split; try reflexivity.
  match goal with E : simulated_dewpoint _ _ = Some _ |- _ => by rewrite E end.
Qed.

End DewpointSites.

(** ** The station receiver: update_from_json *)

Lemma dict_get_key (d : dict) k v : dict_get d k = Some v -> In k (map fst d).
Proof.
  induction d as [|[k0 v0] d IH]; simpl; [done|].
  destruct (String.eqb k0 k) eqn:E; [|auto].
  apply String.eqb_eq in E. by left.
Qed.

Section ReceiverFacts.
Context `{Library}.

Lemma dict_set_nonempty (d : dict) k v : dict_set d k v <> [].
Proof. destruct d as [|[k' v'] d]; simpl; [done|]. by destruct (String.eqb k' k). Qed.

(** The keys after [d[k] = v]. *)
Lemma dict_set_keys_in (d : dict) k v x :
  In x (map fst (dict_set d k v)) -> x = k \/ In x (map fst d).
Proof.
  induction d as [|[k' v'] d IH]; simpl.
  - intros [?|[]]. by left.
  - destruct (String.eqb k' k); simpl; [tauto|].
    intros [?|Hin]; [tauto|]. destruct (IH Hin); tauto.
Qed.

Lemma dict_set_nodup (d : dict) k v :
  NoDup (map fst d) -> NoDup (map fst (dict_set d k v)).
Proof.
  induction d as [|[k' v'] d IH]; simpl; intros Hd.
  - apply NoDup_cons_2; [apply not_elem_of_nil|apply NoDup_nil_2].
  - destruct (String.eqb k' k) eqn:E; simpl; [done|].
    apply NoDup_cons in Hd as [Hk' Hd]. apply NoDup_cons_2; [|by apply IH].
    intros Hin. apply list_elem_of_In in Hin.
    destruct (dict_set_keys_in d k v k' Hin) as [->|Hold].
    + by rewrite String.eqb_refl in E.
    + apply Hk'. by apply list_elem_of_In.
Qed.

Lemma dict_get_absent (d : dict) k : ~ In k (map fst d) -> dict_get d k = None.
Proof.
  intros Hk. destruct (dict_get d k) as [v|] eqn:Hv; [|done].
  exfalso. apply Hk. clear Hk. induction d as [|[k0 v0] d IH]; simpl in *; [done|].
  destruct (String.eqb k0 k) eqn:E; [|auto].
  apply String.eqb_eq in E. by left.
Qed.

(** [d.update(e)] leaves every key that [e] does not have. *)
Lemma dict_update_other (cur e : dict) k :
  dict_get e k = None -> dict_get (dict_update cur e) k = dict_get cur k.
Proof.
  unfold dict_update. revert cur.
  induction e as [|[k' v'] e IH]; intros cur; simpl; [done|].
  destruct (String.eqb k' k) eqn:E; [done|]. intros He.
  rewrite IH by done. apply dict_get_set_ne.
  intros ->. by rewrite String.eqb_refl in E.
Qed.

(** [d.update(e)] holds every entry of [e]. *)
Lemma dict_update_in (cur e : dict) k v :
  NoDup (map fst e) -> dict_get e k = Some v ->
  dict_get (dict_update cur e) k = Some v.
Proof.
  revert cur. induction e as [|[k' v'] e IH]; intros cur Hnd; simpl; [done|].
  apply NoDup_cons in Hnd as [Hk' Hnd].
  destruct (String.eqb k' k) eqn:E.
  - intros [= ->]. apply String.eqb_eq in E as ->.
    change (dict_update cur ((k, v) :: e))
      with (dict_update (dict_set cur k v) e).
    rewrite dict_update_other.
    + apply dict_get_set_eq.
    + apply dict_get_absent. intros Hin. apply Hk'. by apply list_elem_of_In.
  - intros Hv.
    change (dict_update cur ((k', v') :: e))
      with (dict_update (dict_set cur k' v') e).
    by apply IH.
Qed.

Lemma float_of_converted v q : float_of v = Converted q <-> py_float v = Some q.
Proof.
  unfold py_float. destruct (float_of v); split; congruence.
Qed.

(** The three ways of a turn of the loop. *)
Lemma normalize_step_take acc kv q :
  is_canonical (target_of (fst kv)) = true -> py_float (snd kv) = Some q ->
  normalize_step acc kv = Some (dict_set acc (target_of (fst kv)) (VNum q)).
Proof.
  intros Hc Hq. apply float_of_converted in Hq.
  unfold normalize_step. by rewrite Hc, Hq.
Qed.

Lemma normalize_step_skip acc kv :
  ~ recognized_entry kv -> ~ oversized_entry kv ->
  normalize_step acc kv = Some acc.
Proof.
  intros Hn Ho. unfold normalize_step.
  destruct (is_canonical (target_of (fst kv))) eqn:Hc; [|done].
  destruct (float_of (snd kv)) as [q| |] eqn:Hq; [|done|].
  - exfalso. apply Hn. split; [done|]. exists q. by apply float_of_converted.
  - exfalso. by apply Ho.
Qed.

Lemma normalize_step_stop acc kv :
  oversized_entry kv -> normalize_step acc kv = None.
Proof. intros [Hc Ho]. unfold normalize_step. by rewrite Hc, Ho. Qed.

Lemma normalize_step_inv acc kv acc' :
  normalize_step acc kv = Some acc' ->
  ~ oversized_entry kv /\
  ((~ recognized_entry kv /\ acc' = acc) \/
   (exists q, is_canonical (target_of (fst kv)) = true /\
              py_float (snd kv) = Some q /\
              acc' = dict_set acc (target_of (fst kv)) (VNum q))).
Proof.
  unfold normalize_step, oversized_entry, recognized_entry, py_float.
  destruct (is_canonical (target_of (fst kv))) eqn:Hc.
  - destruct (float_of (snd kv)) as [q| |] eqn:Hq; [| |done].
    + intros [= <-]. split; [by intros [_ ?]|]. right. by exists q.
    + intros [= <-]. split; [by intros [_ ?]|]. left.
      split; [|done]. by intros [_ [? ?]].
  - intros [= <-]. split; [by intros [? _]|]. left. split; [|done].
    by intros [? _].
Qed.

(** The loop gets through the object exactly when no recognised key
    holds an integer that [float] does not take. *)
Lemma normalize_loop_total d acc :
  Forall (fun kv => ~ oversized_entry kv) d ->
  is_Some (for_each normalize_step d acc).
Proof.
  revert acc. induction d as [|kv d IH]; intros acc Hd; simpl; [by eexists|].
  apply Forall_cons_1 in Hd as [Hkv Hd].
  destruct (normalize_step acc kv) as [acc'|] eqn:Hstep; [by apply IH|].
  exfalso. unfold normalize_step in Hstep.
  destruct (is_canonical (target_of (fst kv))) eqn:Hc; [|done].
  destruct (float_of (snd kv)) eqn:Hq; try done. by apply Hkv.
Qed.

Lemma normalize_loop_stops d acc :
  Exists oversized_entry d -> for_each normalize_step d acc = None.
Proof.
  revert acc. induction d as [|kv d IH]; intros acc Hd; simpl.
  - by apply Exists_nil in Hd.
  - destruct (normalize_step acc kv) as [acc'|] eqn:Hstep; [|done].
    apply Exists_cons in Hd as [Hkv|Hd]; [|by apply IH].
    by rewrite (normalize_step_stop acc kv Hkv) in Hstep.
Qed.

Lemma normalize_loop_through d acc acc' :
  for_each normalize_step d acc = Some acc' ->
  Forall (fun kv => ~ oversized_entry kv) d.
Proof.
  revert acc. induction d as [|kv d IH]; intros acc; simpl; [by constructor|].
  destruct (normalize_step acc kv) as [acc1|] eqn:Hstep; [|done].
  intros Hloop. constructor; [|by eapply IH].
  by destruct (normalize_step_inv acc kv acc1 Hstep).
Qed.

Lemma normalize_loop_keeps d acc acc' :
  acc <> [] -> for_each normalize_step d acc = Some acc' -> acc' <> [].
Proof.
  revert acc. induction d as [|kv d IH]; intros acc Hacc; simpl.
  - by intros [= <-].
  - destruct (normalize_step acc kv) as [acc1|] eqn:Hstep; [|done].
    apply IH.
    destruct (normalize_step_inv acc kv acc1 Hstep) as [_ [[_ ->]|(q & _ & _ & ->)]];
      [done|apply dict_set_nonempty].
Qed.

(** Nothing is extracted exactly when no entry is recognised. *)
Lemma normalize_loop_empty d :
  for_each normalize_step d [] = Some [] <->
  Forall (fun kv => ~ recognized_entry kv /\ ~ oversized_entry kv) d.
Proof.
  induction d as [|kv d IH]; simpl; [by split|].
  split.
  - destruct (normalize_step [] kv) as [acc1|] eqn:Hstep; [|done].
    intros Hloop.
    destruct (normalize_step_inv [] kv acc1 Hstep) as [Ho [[Hn ->]|(q & _ & _ & ->)]].
    + constructor; [done|]. by apply IH.
    + exfalso.
      by apply (normalize_loop_keeps d _ []
                  (dict_set_nonempty [] (target_of (fst kv)) (VNum q)) Hloop).
  - intros Hall. apply Forall_cons_1 in Hall as [[Hn Ho] Hd].
    rewrite (normalize_step_skip [] kv Hn Ho). by apply IH.
Qed.

(** The keys of the extracted fields are pairwise distinct. *)
Lemma normalize_loop_nodup d acc acc' :
  NoDup (map fst acc) -> for_each normalize_step d acc = Some acc' ->
  NoDup (map fst acc').
Proof.
  revert acc. induction d as [|kv d IH]; intros acc Hacc; simpl.
  - by intros [= <-].
  - destruct (normalize_step acc kv) as [acc1|] eqn:Hstep; [|done].
    apply IH.
    destruct (normalize_step_inv acc kv acc1 Hstep) as [_ [[_ ->]|(q & _ & _ & ->)]];
      [done|by apply dict_set_nodup].
Qed.

(** Every extracted field has a canonical name; in particular the
    timestamp is never one of them. *)
Lemma normalized_keys_canonical d acc acc' k :
  for_each normalize_step d acc = Some acc' ->
  In k (map fst acc') ->
  In k (map fst acc) \/ is_canonical k = true.
Proof.
  revert acc. induction d as [|kv d IH]; intros acc; simpl.
  - intros [= <-]. by left.
  - destruct (normalize_step acc kv) as [acc1|] eqn:Hstep; [|done].
    intros Hloop Hin. destruct (IH _ Hloop Hin) as [Hacc|Hc]; [|by right].
    destruct (normalize_step_inv acc kv acc1 Hstep)
      as [_ [[_ ->]|(q & Hc & _ & ->)]]; [by left|].
    destruct (dict_set_keys_in acc _ _ k Hacc) as [->|Hold]; [by right|by left].
Qed.

(** Every extracted field is the number of an entry of the object,
    under the canonical name of its key. *)
Lemma normalized_from_entries d acc acc' k x :
  for_each normalize_step d acc = Some acc' ->
  dict_get acc' k = Some x ->
  dict_get acc k = Some x \/
  exists key v q, In (key, v) d /\ target_of key = k /\
                  is_canonical k = true /\ py_float v = Some q /\ x = VNum q.
Proof.
  revert acc. induction d as [|kv d IH]; intros acc; simpl.
  - intros [= <-]. by left.
  - destruct (normalize_step acc kv) as [acc1|] eqn:Hstep; [|done].
    intros Hloop Hx.
    destruct (IH _ Hloop Hx) as [Hacc|(key & v & q & Hin & ? & ? & ? & ?)].
    + destruct (normalize_step_inv acc kv acc1 Hstep)
        as [_ [[_ ->]|(q & Hc & Hq & ->)]]; [by left|].
      destruct (decide (target_of (fst kv) = k)) as [Hk|Hk].
      * right. rewrite Hk, dict_get_set_eq in Hacc. injection Hacc as <-.
        exists (fst kv), (snd kv), q. rewrite <- Hk.
        split; [left; by destruct kv|done].
      * left. by rewrite dict_get_set_ne in Hacc.
    + right. exists key, v, q. split; [by right|done].
Qed.

(** Every recognised entry leaves its field among the extracted
    ones. *)
Lemma normalized_has_entries d acc acc' :
  for_each normalize_step d acc = Some acc' ->
  (forall k, In k (map fst acc) -> In k (map fst acc')) /\
  (forall kv, In kv d -> recognized_entry kv ->
     In (target_of (fst kv)) (map fst acc')).
Proof.
  revert acc. induction d as [|kv d IH]; intros acc; simpl.
  - intros [= <-]. split; [done|]. by intros kv [].
  - destruct (normalize_step acc kv) as [acc1|] eqn:Hstep; [|done].
    intros Hloop. destruct (IH _ Hloop) as [Hkeep Htake].
    assert (Hacc : forall k, In k (map fst acc) -> In k (map fst acc1)).
    { intros k Hk.
      destruct (normalize_step_inv acc kv acc1 Hstep)
        as [_ [[_ ->]|(q & _ & _ & ->)]]; [done|].
      destruct (decide (target_of (fst kv) = k)) as [<-|Hne].
      - apply (dict_get_key _ _ (VNum q)). apply dict_get_set_eq.
      - destruct (dict_get_In acc k Hk) as [x Hx].
        apply (dict_get_key _ _ x). by rewrite dict_get_set_ne. }
    split; [intros k Hk; by apply Hkeep, Hacc|].
    intros kv' [<-|Hin] Hr; [|by apply Htake].
    apply Hkeep.
    destruct (normalize_step_inv acc kv acc1 Hstep)
      as [_ [[Hn _]|(q & _ & _ & ->)]]; [done|].
    apply (dict_get_key _ _ (VNum q)). apply dict_get_set_eq.
Qed.

(** What [parse_json_weather] returns is what the loop ends with. *)
Lemma parse_json_weather_loop data normalized :
  parse_json_weather data = Some normalized ->
  exists d, data = VDict d /\
            for_each normalize_step d [] = Some normalized /\
            normalized <> [].
Proof.
  destruct data as [| | | | |d]; try done. simpl.
  destruct (for_each normalize_step d []) as [[|e acc]|] eqn:Hloop; try done.
  intros [= <-]. exists d. by repeat split.
Qed.

Lemma parse_json_weather_none data :
  ~ recognized_numeric data -> parse_json_weather data = None.
Proof.
  intros Hn. destruct (parse_json_weather data) as [normalized|] eqn:Hparse;
    [exfalso|done].
  destruct (parse_json_weather_loop data normalized Hparse)
    as (d & -> & Hloop & Hne).
  destruct normalized as [|[k x] normalized]; [done|].
  destruct (normalized_from_entries d [] _ k x Hloop)
    as [?|(key & v & q & Hin & <- & Hc & Hq & _)];
    [simpl; by rewrite String.eqb_refl|done|].
  apply Hn. exists d, key, v, q. repeat split; try done.
  by apply (normalize_loop_through d [] _ Hloop).
Qed.

Lemma parse_json_weather_some data :
  recognized_numeric data ->
  exists normalized, parse_json_weather data = Some normalized /\ normalized <> [].
Proof.
  intros (d & key & v & q & -> & Hin & Hc & Hq & Hd). simpl.
  destruct (normalize_loop_total d [] Hd) as [acc Hloop]. rewrite Hloop.
  destruct acc as [|e normalized]; [exfalso|by eexists].
  apply normalize_loop_empty in Hloop.
  rewrite List.Forall_forall in Hloop.
  destruct (Hloop _ Hin) as [Hn _]. apply Hn. split; [done|]. by exists q.
Qed.

(** A recognised key with an integer that [float] does not take makes
    the whole request void, whatever else it holds. *)
Lemma parse_json_weather_oversized d :
  Exists oversized_entry d -> parse_json_weather (VDict d) = None.
Proof.
  intros Hd. simpl. by rewrite (normalize_loop_stops d [] Hd).
Qed.

Lemma normalized_no_timestamp data normalized :
  parse_json_weather data = Some normalized ->
  dict_get normalized "timestamp" = None.
Proof.
  intros Hparse.
  destruct (parse_json_weather_loop data normalized Hparse)
    as (d & -> & Hloop & _).
  apply dict_get_absent. intros Hin.
  by destruct (normalized_keys_canonical d [] normalized "timestamp" Hloop Hin).
Qed.

End ReceiverFacts.

(** X24.  [update_from_json] is all or nothing.  It answers [False]
    and leaves the stored record as it was when the text is not JSON,
    when nothing in it is recognised as a numeric field, and when a
    recognised key holds an integer beyond the range of the floats,
    whatever else the request holds.  Otherwise it answers [True] and
    writes the stored record updated with the extracted fields: each
    of them is in the written record and is the number of an entry of
    the request under the canonical name of its key, every recognised
    entry has its field written, every stored field that the update
    does not carry is kept, the timestamp included, and a record
    without timestamp is stamped with the time of the update. *)
Theorem update_from_json_all_or_nothing `{Library}
  (json_data : string) (now : Z) (st : store) :
  (json_loads json_data = None ->
   update_from_json json_data now st = (false, st)) /\
  (forall data, json_loads json_data = Some data ->
     ~ recognized_numeric data ->
     update_from_json json_data now st = (false, st)) /\
  (forall d, json_loads json_data = Some (VDict d) ->
     Exists oversized_entry d ->
     update_from_json json_data now st = (false, st)) /\
  (forall data, json_loads json_data = Some data ->
     recognized_numeric data ->
     exists d normalized new,
       data = VDict d /\
       parse_json_weather data = Some normalized /\ normalized <> [] /\
       update_from_json json_data now st = (true, Some new) /\
       (forall k x, dict_get normalized k = Some x -> dict_get new k = Some x) /\
       (forall k x, dict_get normalized k = Some x ->
          exists key v q, In (key, v) d /\ target_of key = k /\
                          py_float v = Some q /\ x = VNum q) /\
       (forall key v, In (key, v) d -> recognized_entry (key, v) ->
          is_Some (dict_get normalized (target_of key))) /\
       (forall k, dict_get normalized k = None -> k <> "timestamp" ->
          dict_get new k = dict_get (read_current_weather st) k) /\
       (forall ts, dict_get (read_current_weather st) "timestamp" = Some ts ->
          dict_get new "timestamp" = Some ts) /\
       (dict_get (read_current_weather st) "timestamp" = None ->
          dict_get new "timestamp" = Some (VStr (isoformat now)))).
Proof.
  split; [|split; [|split]].
  - intros Hbad. unfold update_from_json. by rewrite Hbad.
  - intros data Hdata Hn. unfold update_from_json.
    by rewrite Hdata, (parse_json_weather_none data Hn).
  - intros d Hdata Hd. unfold update_from_json.
    by rewrite Hdata, (parse_json_weather_oversized d Hd).
  - intros data Hdata Hr.
    destruct (parse_json_weather_some data Hr) as (normalized & Hparse & Hne).
    destruct (parse_json_weather_loop data normalized Hparse)
      as (d & -> & Hloop & _).
    pose proof (normalized_no_timestamp _ _ Hparse) as Hnorm.
    assert (Hnd : NoDup (map fst normalized))
      by (apply (normalize_loop_nodup d [] normalized); [apply NoDup_nil_2|done]).
    set (current := dict_update (read_current_weather st) normalized).
    exists d, normalized,
      (if dict_has current "timestamp" then current
       else dict_set current "timestamp" (VStr (isoformat now))).
    split; [reflexivity|]. split; [exact Hparse|]. split; [exact Hne|].
    split; [unfold update_from_json; by rewrite Hdata, Hparse|].
    split; [|split; [|split; [|split; [|split]]]].
    + intros k x Hk.
      assert (Hcur : dict_get current k = Some x) by (by apply dict_update_in).
      destruct (dict_has current "timestamp"); [done|].
      rewrite dict_get_set_ne; [done|]. intros <-. congruence.
    + intros k x Hk.
      destruct (normalized_from_entries d [] normalized k x Hloop Hk)
        as [?|(key & v & q & ? & ? & ? & ? & ?)]; [done|].
      by exists key, v, q.
    + intros key v Hin Hrec.
      destruct (normalized_has_entries d [] normalized Hloop) as [_ Htake].
      apply dict_get_In. by apply (Htake (key, v)).
    + intros k Hk Hts.
      destruct (dict_has current "timestamp").
      * by apply dict_update_other.
      * rewrite dict_get_set_ne by done. by apply dict_update_other.
    + intros ts Hts.
      assert (Hcur : dict_get current "timestamp" = Some ts).
      { unfold current. by rewrite dict_update_other. }
      unfold dict_has. by rewrite Hcur.
    + intros Hts.
      assert (Hcur : dict_get current "timestamp" = None).
      { unfold current. by rewrite dict_update_other. }
      unfold dict_has. rewrite Hcur. apply dict_get_set_eq.
Qed.

(** [update_from_json_all_or_nothing] on three request bodies: a text
    that is not JSON and an object without a weather field are refused
    and leave the record alone; [{"temp": 12.5}] is accepted, the
    record then holds a temperature of 12.5 and still its humidity and
    its timestamp. *)
Lemma update_from_json_all_or_nothing_witness :
  update_from_json Sample.body_garbage ex_now ex_store = (false, ex_store) /\
  update_from_json Sample.body_station ex_now ex_store = (false, ex_store) /\
  exists new,
    update_from_json Sample.body_temp ex_now ex_store = (true, Some new) /\
    dict_get new "temperature_c" = Some (VNum 12.5) /\
    dict_get new "humidity_pct" = Some (VNum 60) /\
    dict_get new "timestamp" = Some (VStr "2024-11-04T11:55:00+00:00").
Proof.
  split; [|split].
  - destruct (update_from_json_all_or_nothing Sample.body_garbage ex_now ex_store)
      as (Hbad & _ & _ & _).
    apply Hbad. reflexivity.
  - destruct (update_from_json_all_or_nothing Sample.body_station ex_now ex_store)
      as (_ & Hnone & _ & _).
    apply (Hnone (VDict [("station", VStr "roof")])); [reflexivity|].
    intros (d & key & v & q & Hd & Hin & Hc & Hq & _).
    injection Hd as <-. destruct Hin as [Hin|[]].
    injection Hin as <- <-. discriminate Hq.
  - destruct (update_from_json_all_or_nothing Sample.body_temp ex_now ex_store)
      as (_ & _ & _ & Hsome).
    destruct (Hsome (VDict [("temp", VNum 12.5)]))
      as (d & normalized & new & _ & Hparse & _ & Hupdate & Hin & _ & _
          & Hkeep & Hts & _); [reflexivity| |].
    + exists [("temp", VNum 12.5)], "temp", (VNum 12.5), 12.5%Q.
      split; [reflexivity|]. split; [by left|]. split; [reflexivity|].
      split; [reflexivity|]. constructor; [|constructor].
      intros [_ Ho]. discriminate Ho.
    + vm_compute in Hparse. injection Hparse as <-.
      exists new. split; [exact Hupdate|]. split; [|split].
      * apply Hin. reflexivity.
      * apply Hkeep; [reflexivity|discriminate].
      * apply Hts. reflexivity.
Defined.


(** ** The inbox drain: ingest_latest *)

Section IngestFacts.
Context `{Library}.

(** The drain never touches the drop directory. *)
Lemma ingest_latest_inbox t t' fs : inbox (snd (ingest_latest t t' fs)) = inbox fs.
Proof. unfold ingest_latest. by destruct (_newest_jpg (inbox fs)). Qed.

(** With nothing to ingest the drain changes nothing. *)
Lemma ingest_latest_nothing t t' fs :
  _newest_jpg (inbox fs) = None -> ingest_latest t t' fs = (false, fs).
Proof. intros Hn. unfold ingest_latest. by rewrite Hn. Qed.

End IngestFacts.

(** C5, as the code has it.  Replaying the drain on an unchanged drop
    directory returns the same flag and leaves the drop directory, the
    latest file and the gallery as the first run left them; the
    archive is the same when both runs fall on the same date
    directory; the status record is the same but for its timestamp. *)
Theorem ingest_replay_stable `{Library} (fs : skycam) (t1 t1' t2 t2' : Z) :
  let r1 := ingest_latest t1 t1' fs in
  let r2 := ingest_latest t2 t2' (snd r1) in
  fst r2 = fst r1 /\
  inbox (snd r2) = inbox fs /\
  latest (snd r2) = latest (snd r1) /\
  images (snd r2) = images (snd r1) /\
  (strftime_ymd t2 = strftime_ymd t1 -> archive (snd r2) = archive (snd r1)) /\
  (forall k, k <> "timestamp" ->
     status_field (snd r2) k = status_field (snd r1) k).
Proof.
  cbv zeta.
  destruct (_newest_jpg (inbox fs)) as [newest|] eqn:Hnewest.
  - assert (H1 : ingest_latest t1 t1' fs
                 = (true,
                    {| inbox := inbox fs;
                       latest := Some (snd newest);
                       images := <[fst newest := snd newest]> (images fs);
                       archive :=
                         <[(strftime_ymd t1, fst newest) := snd newest]>
                           (archive fs);
                       status := Some (inbox_status newest t1') |}))
      by (unfold ingest_latest; by rewrite Hnewest).
    rewrite H1. unfold ingest_latest.
    cbn [fst snd inbox latest images archive status]. rewrite Hnewest.
    cbn [fst snd inbox latest images archive status].
    split; [done|]. split; [done|]. split; [done|].
    split; [by rewrite insert_insert_eq|].
    split; [intros ->; by rewrite insert_insert_eq|].
    intros k Hk. unfold status_field, inbox_status.
    cbn [status dict_get].
    destruct (String.eqb "last_event" k); [done|].
    destruct (String.eqb "timestamp" k) eqn:E; [|done].
    apply String.eqb_eq in E. by subst.
  - rewrite (ingest_latest_nothing t1 t1' fs Hnewest). cbn [fst snd].
    rewrite (ingest_latest_nothing t2 t2' fs Hnewest). by repeat split.
Qed.

(** [ingest_replay_stable] on the sample drop directory, five minutes
    apart on 2024-11-04: the newest picture is the latest file after
    both runs, and gallery and archive are the same. *)
Lemma ingest_replay_stable_witness :
  let r1 := ingest_latest ex_now ex_now ex_skycam in
  let r2 := ingest_latest (ex_now + 5 * minute_us) (ex_now + 5 * minute_us)
              (snd r1) in
  latest (snd r1) = Some ex_picture_new /\
  latest (snd r2) = Some ex_picture_new /\
  images (snd r2) = images (snd r1) /\
  archive (snd r2) = archive (snd r1) /\
  status_field (snd r2) "last_filename" = Some (VStr "sky_0002.jpeg").
Proof.
  intros r1 r2.
  destruct (ingest_replay_stable ex_skycam ex_now ex_now
              (ex_now + 5 * minute_us) (ex_now + 5 * minute_us))
    as (_ & _ & Hlatest & Himages & Harchive & Hstatus).
  fold r1 in Hlatest, Himages, Harchive, Hstatus.
  fold r2 in Hlatest, Himages, Harchive, Hstatus.
  split; [reflexivity|]. split; [by rewrite Hlatest|].
  split; [exact Himages|]. split; [apply Harchive; reflexivity|].
  rewrite Hstatus by discriminate. reflexivity.
Defined.

(** C5 as stated fails: the drop directory is unchanged, and the
    replay five minutes later rewrites the status record with a new
    timestamp; a replay one day later also adds a copy to the
    archive. *)
Lemma ingest_replay_not_noop :
  let fs1 := snd (ingest_latest ex_now ex_now ex_skycam) in
  let fs2 := snd (ingest_latest (ex_now + 5 * minute_us)
                    (ex_now + 5 * minute_us) fs1) in
  let fs3 := snd (ingest_latest (ex_now + day_us) (ex_now + day_us) fs1) in
  inbox fs1 = inbox ex_skycam /\
  status fs2 <> status fs1 /\
  status_field fs1 "timestamp" = Some (VStr "2024-11-04T12:00:00+00:00") /\
  status_field fs2 "timestamp" = Some (VStr "2024-11-04T12:05:00+00:00") /\
  archive fs1 !! ("2024/11/05", "sky_0002.jpeg") = None /\
  archive fs3 !! ("2024/11/05", "sky_0002.jpeg") = Some ex_picture_new.
Proof.
  intros fs1 fs2 fs3.
  assert (H1 : status_field fs1 "timestamp"
               = Some (VStr "2024-11-04T12:00:00+00:00")) by reflexivity.
  assert (H2 : status_field fs2 "timestamp"
               = Some (VStr "2024-11-04T12:05:00+00:00")) by reflexivity.
  split; [reflexivity|]. split; [|split; [exact H1|split; [exact H2|]]].
  - intros Heq. unfold status_field in H1, H2. rewrite Heq, H1 in H2.
    discriminate H2.
  - split; reflexivity.
Qed.

(** ** The FTP receiver: _process_image_complete *)

Section ReceiverImage.
Context `{Library}.

(** A missing or empty upload is dropped without a trace. *)
Lemma process_image_rejects filename source peer t t' fs :
  source = None \/ (exists f, source = Some f /\ st_size f = 0) ->
  _process_image_complete filename source peer t t' fs = fs.
Proof.
  intros [->|(f & -> & Hsize)]; [done|].
  unfold _process_image_complete. by rewrite Hsize.
Qed.

(** An accepted upload is copied to the gallery and to the archive
    of the day, and the status record is rewritten. *)
Lemma process_image_accepts filename f host port t t' fs :
  st_size f <> 0 ->
  let fs' := _process_image_complete filename (Some f) (Some (host, port))
               t t' fs in
  images fs' !! filename = Some f /\
  archive fs' !! (strftime_ymd t, filename) = Some f /\
  status_field fs' "last_filename" = Some (VStr filename) /\
  status_field fs' "last_event" = Some (VStr "image_received").
Proof.
  intros Hsize. unfold _process_image_complete.
  destruct (st_size f =? 0) eqn:E; [apply Z.eqb_eq in E; done|].
  cbn [images archive]. rewrite !lookup_insert_eq. by repeat split.
Qed.

(** The receiver never writes the latest file. *)
Lemma process_image_keeps_latest filename source peer t t' fs :
  latest (_process_image_complete filename source peer t t' fs) = latest fs.
Proof.
  unfold _process_image_complete. destruct source as [f|]; [|done].
  by destruct (st_size f =? 0).
Qed.

End ReceiverImage.

(** C6 fails on the code.  A non-empty picture uploaded through the
    FTP receiver is copied to the gallery and to the archive of the
    day and the status record is rewritten, but the latest file is
    left as it was; the inbox drain, on the same picture, does
    overwrite it. *)
Theorem ftp_upload_leaves_latest :
  let fs' := _process_image_complete "sky_0003.jpg" (Some ex_picture_new)
               (Some ("192.0.2.10", 50000)) ex_now ex_now ex_skycam in
  st_size ex_picture_new = 8 /\
  images fs' !! "sky_0003.jpg" = Some ex_picture_new /\
  archive fs' !! ("2024/11/04", "sky_0003.jpg") = Some ex_picture_new /\
  status_field fs' "last_filename" = Some (VStr "sky_0003.jpg") /\
  latest fs' = None /\
  latest (snd (ingest_latest ex_now ex_now ex_skycam)) = Some ex_picture_new.
Proof.
  intros fs'. repeat split; reflexivity.
Qed.

(** * Further properties

    Properties of the scripts beyond the specification.  Numeric
    bounds (the ranges of the moon fields, of the simulated readings
    and of the dewpoint) are those of exact arithmetic on the
    rationals. *)

(** ** Fusion: what the merge keeps and what it never uses *)

(** Each of the three loop bodies either leaves the record or
    overwrites the field it was called for, whatever the channel
    holds. *)
Lemma merge_local_step_shape c m key m' :
  merge_local_step c m key = Some m' ->
  m' = m \/ exists v, m' = dict_set m key v.
Proof.
  unfold merge_local_step.
  destruct (py_in key c) as [[]|]; try congruence; [|intros [= <-]; by left].
  destruct (py_getitem c key) as [v|]; [|done].
  destruct (is_none v); intros [= <-]; [by left|right; by exists v].
Qed.

Lemma merge_online_step_shape c m key m' :
  merge_online_step c m key = Some m' ->
  m' = m \/ exists v, m' = dict_set m key v.
Proof.
  unfold merge_online_step.
  destruct (py_in key c) as [[]|]; try congruence; [|intros [= <-]; by left].
  destruct (dict_get m key) as [cur|]; [|done].
  destruct (is_none cur || existsb (String.eqb key) online_keys);
    [|intros [= <-]; by left].
  destruct (py_getitem c key) as [v|]; [|done].
  intros [= <-]. right. by exists v.
Qed.

Lemma merge_fill_step_shape c m key m' :
  merge_fill_step c m key = Some m' ->
  m' = m \/ exists v, m' = dict_set m key v.
Proof.
  unfold merge_fill_step.
  destruct (dict_get m key) as [cur|]; [|done].
  destruct (is_none cur); [|intros [= <-]; by left].
  destruct (py_in key c) as [[]|]; try congruence; [|intros [= <-]; by left].
  destruct (py_getitem c key) as [v|]; [|done].
  intros [= <-]. right. by exists v.
Qed.

Lemma merge_pass_keys (step : dict -> string -> option dict) keys m m' :
  (forall s x s', step s x = Some s' -> s' = s \/ exists v, s' = dict_set s x v) ->
  (forall x, In x keys -> In x merged_keys) ->
  map fst m = merged_keys ->
  for_each step keys m = Some m' ->
  map fst m' = merged_keys.
Proof.
  intros Hshape Hkeys.
  apply (for_each_inv _ (fun s => map fst s = merged_keys)).
  intros s x s' Hx Hs Hstep.
  destruct (Hshape s x s' Hstep) as [->|[v ->]]; [done|].
  rewrite dict_keys_set; [done|]. rewrite Hs. by apply Hkeys.
Qed.

(** X1.  Whatever the two fetchers returned, a merge that returns
    gives a record with exactly the nine weather fields, in the order
    of the source: the merge never adds, drops or reorders a field. *)
Theorem merge_fields_fixed (online_data local_data m : dict) :
  merge_weather_sources online_data local_data = Some m ->
  map fst m =
    [ "temperature_c"; "humidity_pct"; "pressure_hpa"; "dewpoint_c";
      "wind_speed_kmh"; "wind_direction_deg"; "cloud_cover_pct";
      "visibility_km"; "conditions" ].
Proof.
  unfold merge_weather_sources.
  set (local_part :=
         if get_ok local_data && dict_has local_data "current" then
           let* local_current := dict_get local_data "current" in
           for_each (merge_local_step local_current) local_keys merged_init
         else Some merged_init).
  assert (Hlocal : forall m1, local_part = Some m1 -> map fst m1 = merged_keys).
  { unfold local_part. intros m1.
    destruct (get_ok local_data && dict_has local_data "current");
      [|by intros [= <-]].
    destruct (dict_get local_data "current") as [lc|]; [|done].
    apply merge_pass_keys; [apply merge_local_step_shape| |done].
    apply local_keys_merged. }
  destruct local_part as [m1|]; [|done].
  specialize (Hlocal m1 eq_refl).
  destruct (get_ok online_data && dict_has online_data "current");
    [|by intros [= <-]].
  destruct (dict_get online_data "current") as [oc|]; [|done].
  destruct (for_each (merge_online_step oc) online_keys m1) as [m2|] eqn:H2;
    [|done].
  assert (K2 : map fst m2 = merged_keys).
  { revert H2. apply merge_pass_keys;
      [apply merge_online_step_shape|apply online_keys_merged|done]. }
  rewrite K2. apply merge_pass_keys; [apply merge_fill_step_shape|done|done].
Qed.

(** [merge_fields_fixed] on a local record with extra fields and a
    failed online channel. *)
Lemma merge_fields_fixed_witness :
  exists m,
    merge_weather_sources ex_online_failed ex_local_cloudy = Some m /\
    length m = 9%nat /\ dict_get m "feels_like_c" = None.
Proof.
  destruct (merge_weather_sources ex_online_failed ex_local_cloudy) as [m|] eqn:Hm;
    [|vm_compute in Hm; discriminate].
  pose proof (merge_fields_fixed _ _ _ Hm) as Hkeys.
  exists m. split; [done|]. split.
  - by rewrite <- (length_map fst), Hkeys.
  - destruct (dict_get m "feels_like_c") as [v|] eqn:Hv; [|done].
    apply dict_get_key in Hv. rewrite Hkeys in Hv.
    simpl in Hv. intuition discriminate.
Defined.

(** The local pass writes none of the three fields that belong to the
    online channel. *)
Lemma local_pass_leaves_online_keys (local_current : value) key m m' :
  In key online_keys ->
  for_each (merge_local_step local_current) local_keys m = Some m' ->
  dict_get m' key = dict_get m key.
Proof.
  intros Hkey.
  apply (for_each_inv _ (fun s => dict_get s key = dict_get m key)); [|done].
  intros s x s' Hx Hs Hstep.
  destruct (merge_local_step_shape _ _ _ _ Hstep) as [->|[v ->]]; [done|].
  rewrite dict_get_set_ne; [done|].
  intros ->. by apply (local_not_online key).
Qed.

(** X2.  Cloud cover, visibility and conditions come from the online
    channel only: when it is not ok they stay at their initial values
    ([None], [None], ["Unknown"]) even if the local station reports
    them. *)
Theorem online_fields_never_local (online_data local_data m : dict) :
  get_ok online_data = false ->
  merge_weather_sources online_data local_data = Some m ->
  dict_get m "cloud_cover_pct" = Some VNone /\
  dict_get m "visibility_km" = Some VNone /\
  dict_get m "conditions" = Some (VStr "Unknown").
Proof.
  intros Hok. unfold merge_weather_sources. rewrite Hok. cbn [andb].
  assert (Hinit : forall key, In key online_keys ->
            forall m1,
              (if get_ok local_data && dict_has local_data "current" then
                 let* local_current := dict_get local_data "current" in
                 for_each (merge_local_step local_current) local_keys merged_init
               else Some merged_init) = Some m1 ->
              dict_get m1 key = dict_get merged_init key).
  { intros key Hkey m1.
    destruct (get_ok local_data && dict_has local_data "current");
      [|by intros [= <-]].
    destruct (dict_get local_data "current") as [lc|]; [|done].
    by apply local_pass_leaves_online_keys. }
  destruct (if get_ok local_data && dict_has local_data "current" then _
            else _) as [m1|] eqn:H1; [|done].
  intros [= <-].
  rewrite !(fun key Hkey => Hinit key Hkey m1 eq_refl) by (simpl; auto).
  by repeat split.
Qed.

(** [online_fields_never_local]: the station reports 25% cloud cover
    and 20 km visibility, the online fetch failed, and the fused
    record has neither. *)
Lemma online_fields_never_local_witness :
  dict_get_default ex_local_cloudy "current" VNone
  = VDict [ ("temperature_c", VNum 10); ("cloud_cover_pct", VNum 25);
            ("visibility_km", VNum 20); ("conditions", VStr "clear") ] /\
  exists m,
    merge_weather_sources ex_online_failed ex_local_cloudy = Some m /\
    dict_get m "temperature_c" = Some (VNum 10) /\
    dict_get m "cloud_cover_pct" = Some VNone /\
    dict_get m "visibility_km" = Some VNone.
Proof.
  split; [reflexivity|].
  destruct (merge_weather_sources ex_online_failed ex_local_cloudy) as [m|] eqn:Hm;
    [|vm_compute in Hm; discriminate].
  destruct (online_fields_never_local ex_online_failed ex_local_cloudy m)
    as (Hc & Hv & _); [reflexivity|exact Hm|].
  exists m. repeat split; [|exact Hc|exact Hv].
  vm_compute in Hm. injection Hm as <-. reflexivity.
Defined.

(** ** Windows: which periods are scored, and how high *)

Lemma midnight_next_day now : midnight (now + day_us) = midnight now + day_us.
Proof.
  unfold midnight.
  replace ((now + day_us) mod day_us) with (now mod day_us); [lia|].
  rewrite <- (Z.mul_1_l day_us) at 2. by rewrite Z.mod_add.
Qed.

(** X3.  The three candidate windows never overlap: an instant lies in
    at most one of them, whatever the time of the run; and the half
    hour after 23:00 lies in none, so a forecast point at 23:15 is not
    counted at all. *)
Theorem periods_disjoint (now ts : Z) (p q : period) :
  In p (periods now) -> In q (periods now) ->
  (in_period p ts = true -> in_period q ts = true -> p = q) /\
  in_period p (at_time now 23 15) = false.
Proof.
  intros Hp Hq. unfold periods in Hp, Hq. simpl in Hp, Hq.
  assert (Hday : 0 < day_us) by reflexivity.
  pose proof (Z.mod_pos_bound now day_us Hday) as Hmod.
  split.
  - intros Hin_p Hin_q.
    destruct Hp as [<-|[<-|[<-|[]]]]; destruct Hq as [<-|[<-|[<-|[]]]];
      try reflexivity; exfalso;
      unfold in_period in Hin_p, Hin_q; cbn [start end_] in Hin_p, Hin_q;
      apply andb_prop in Hin_p as [Hp1 Hp2];
      apply andb_prop in Hin_q as [Hq1 Hq2];
      apply Z.leb_le in Hp1, Hp2, Hq1, Hq2;
      unfold at_time in *; rewrite ?midnight_next_day in *;
      unfold day_us, hour_us, minute_us, second_us in *; lia.
  - destruct Hp as [<-|[<-|[<-|[]]]];
      unfold in_period; cbn [start end_];
      apply andb_false_iff; unfold at_time; rewrite ?midnight_next_day;
      [right|left|left]; apply Z.leb_gt;
      unfold day_us, hour_us, minute_us, second_us in *; lia.
Qed.

(** [periods_disjoint] at noon of 2024-11-04: 23:15 is neither in
    tonight's window nor in the late-night one. *)
Lemma periods_disjoint_witness :
  in_period {| name := "Tonight"; start := at_time ex_now 18 0;
               end_ := at_time ex_now 23 0 |} (at_time ex_now 23 15) = false /\
  in_period {| name := "Late Night"; start := at_time ex_now 23 30;
               end_ := at_time (ex_now + day_us) 5 0 |} (at_time ex_now 23 15)
  = false.
Proof.
  split.
  - apply (periods_disjoint ex_now 0 _
             {| name := "Tonight"; start := at_time ex_now 18 0;
                end_ := at_time ex_now 23 0 |}); simpl; auto.
  - apply (periods_disjoint ex_now 0 _
             {| name := "Tonight"; start := at_time ex_now 18 0;
                end_ := at_time ex_now 23 0 |}); simpl; auto.
Defined.

Section WindowFacts.
Context `{Library}.

(** A scored window is rated between 1.5 and 9.5: the clamp to
    [0, 10] never acts. *)
Lemma score_window_bounds p pf astronomy_data w :
  score_window p pf astronomy_data = Some w ->
  rated_between 1.5 9.5 w.
Proof.
  unfold score_window, moon_adjust, py_gt, base_quality.
  destruct (sum_cloud_cover pf) as [total|]; [|done].
  set (avg := (total / inject_Z (Z.of_nat (length pf)))%Q).
  destruct (as_num (dict_get_default astronomy_data "moon_illumination_pct"
                      (VNum 50))) as [moon|]; [|done].
  destruct (Qltb 80 moon); [|destruct (Qltb 40 moon)];
    (destruct (Qltb avg 20); [|destruct (Qltb avg 40); [|destruct (Qltb avg 60)]]);
    cbn [fst snd]; intros [= <-]; do 2 eexists;
    (split; [reflexivity|]); (split; [reflexivity|]);
    split; apply Qle_bool_iff; vm_compute; reflexivity.
Qed.

Lemma windows_loop_bounds forecast astronomy_data ps acc windows :
  Forall (rated_between 1.5 9.5) acc ->
  for_each (windows_step forecast astronomy_data) ps acc = Some windows ->
  Forall (rated_between 1.5 9.5) windows.
Proof.
  apply (for_each_inv _ (Forall (rated_between 1.5 9.5))).
  intros s p s' _ Hs. unfold windows_step.
  destruct (period_forecasts p forecast) as [[|f pf]|]; [by intros [= <-]| |done].
  destruct (score_window p (f :: pf) astronomy_data) as [w|] eqn:Hw; [|done].
  intros [= <-]. apply Forall_app. split; [done|].
  constructor; [|constructor]. by eapply score_window_bounds.
Qed.


End WindowFacts.

(** X4.  Every window the scorer emits is rated between 1.5 and 9.5,
    whatever the forecast and the moon: the clamp to [0, 10] never
    changes a rating. *)
Theorem window_ratings_bounded `{Library}
  (online_data local_data astronomy_data : dict) (now : Z)
  (windows : list value) :
  calculate_observation_windows online_data local_data astronomy_data now
  = Some windows ->
  Forall (rated_between 1.5 9.5) windows.
Proof.
  unfold calculate_observation_windows.
  destruct (get_ok online_data && dict_has online_data "forecast_48h");
    [|intros [= <-]; constructor].
  destruct (dict_get online_data "forecast_48h") as [forecast|]; [|done].
  destruct (py_iter forecast) as [items|]; [|done].
  apply windows_loop_bounds. constructor.
Qed.

(** [window_ratings_bounded] on the scoring example. *)
Lemma window_ratings_bounded_witness :
  exists windows,
    calculate_observation_windows ex_forecast_online [] ex_astronomy ex_now
    = Some windows /\
    length windows = 1%nat /\ Forall (rated_between 1.5 9.5) windows.
Proof.
  destruct (calculate_observation_windows ex_forecast_online [] ex_astronomy
              ex_now) as [windows|] eqn:Hw;
    [|vm_compute in Hw; discriminate].
  exists windows. split; [done|]. split.
  - vm_compute in Hw. injection Hw as <-. reflexivity.
  - by apply (window_ratings_bounded ex_forecast_online [] ex_astronomy ex_now).
Defined.



(** ** Remainders and rounding *)

Section Rounding.

(** [x % m] for a positive modulus lies in [[0, m)]. *)
Lemma py_fmod_bounds (x m : Q) :
  (0 < m)%Q -> (0 <= py_fmod x m)%Q /\ (py_fmod x m < m)%Q.
Proof.
  intros Hm. unfold py_fmod.
  set (f := Qfloor (x / m)).
  assert (Hlo : (inject_Z f <= x / m)%Q) by apply Qfloor_le.
  assert (Hhi : (x / m < inject_Z f + 1)%Q).
  { pose proof (Qlt_floor (x / m)) as Hlt.
    rewrite inject_Z_plus in Hlt. exact Hlt. }
  assert (Hx : (m * (x / m) == x)%Q) by (apply Qmult_div_r; lra).
  assert (H1 : (m * inject_Z f <= m * (x / m))%Q) by (by apply Qmult_le_l).
  assert (H2 : (m * (x / m) < m * (inject_Z f + 1))%Q) by (by apply Qmult_lt_l).
  split; lra.
Qed.

Lemma round_half_even_lower (q : Q) (k : Z) :
  (inject_Z k <= q)%Q -> k <= round_half_even q.
Proof.
  intros Hk.
  assert (k <= Qfloor q) by (rewrite <- (Qfloor_Z k); by apply Qfloor_resp_le).
  unfold round_half_even.
  destruct (_ ?= _)%Q; [destruct (Z.even _)|..]; lia.
Qed.

Lemma round_half_even_upper (q : Q) (k : Z) :
  (q < inject_Z k + (1 # 2))%Q -> round_half_even q <= k.
Proof.
  intros Hk. unfold round_half_even.
  set (f := Qfloor q).
  assert (Hf : (inject_Z f <= q)%Q) by apply Qfloor_le.
  assert (Hfk : f <= k).
  { destruct (Z_le_gt_dec f k) as [|Hgt]; [done|exfalso].
    assert (Hq : (inject_Z (k + 1) <= inject_Z f)%Q) by (rewrite <- Zle_Qle; lia).
    rewrite inject_Z_plus in Hq. change (inject_Z 1) with 1%Q in Hq. lra. }
  assert (Hstrict : ((1 # 2) <= q - inject_Z f)%Q -> f < k).
  { intros Hhalf. destruct (Z_lt_ge_dec f k) as [|Hge]; [done|exfalso].
    assert (Hq : (inject_Z k <= inject_Z f)%Q) by (rewrite <- Zle_Qle; lia).
    lra. }
  destruct (Qcompare_spec (q - inject_Z f) (1 # 2)) as [Heq|Hlt|Hgt].
  - assert (f < k) by (apply Hstrict; lra). destruct (Z.even f); lia.
  - done.
  - assert (f < k) by (apply Hstrict; lra). lia.
Qed.

(** [round(x, 1)] between two multiples of one tenth. *)
Lemma py_round1_bounds (q : Q) (a b : Z) :
  (inject_Z a <= q * 10)%Q -> (q * 10 < inject_Z b + (1 # 2))%Q ->
  (inject_Z a / 10 <= py_round q 1)%Q /\ (py_round q 1 <= inject_Z b / 10)%Q.
Proof.
  intros Ha Hb. unfold py_round.
  change (inject_Z (10 ^ Z.of_nat 1)) with 10%Q.
  pose proof (round_half_even_lower (q * 10) a Ha) as Hlo.
  pose proof (round_half_even_upper (q * 10) b Hb) as Hhi.
  rewrite Zle_Qle in Hlo, Hhi. qdiv. split; lra.
Qed.

(** Rounding is monotone. *)
Lemma round_half_even_mono (x y : Q) :
  (x <= y)%Q -> round_half_even x <= round_half_even y.
Proof.
  intros Hxy.
  assert (Hfl : Qfloor x <= Qfloor y) by (by apply Qfloor_resp_le).
  destruct (Z.eq_dec (Qfloor x) (Qfloor y)) as [Heq|Hne].
  - unfold round_half_even. rewrite <- Heq.
    destruct (Qcompare_spec (x - inject_Z (Qfloor x)) (1 # 2)) as [Hx|Hx|Hx];
      destruct (Qcompare_spec (y - inject_Z (Qfloor x)) (1 # 2)) as [Hy|Hy|Hy];
      try (destruct (Z.even (Qfloor x)); lia); try lia; exfalso; lra.
  - transitivity (Qfloor y).
    + apply round_half_even_upper.
      assert (Hq : (inject_Z (Qfloor x + 1) <= inject_Z (Qfloor y))%Q)
        by (rewrite <- Zle_Qle; lia).
      pose proof (Qlt_floor x) as Hlt.
      eapply Qlt_le_trans; [exact Hlt|]. lra.
    + apply round_half_even_lower, Qfloor_le.
Qed.

Lemma py_round1_mono (x y : Q) :
  (x <= y)%Q -> (py_round x 1 <= py_round y 1)%Q.
Proof.
  intros Hxy. unfold py_round.
  change (inject_Z (10 ^ Z.of_nat 1)) with 10%Q.
  assert (H10 : (x * 10 <= y * 10)%Q) by lra.
  pose proof (round_half_even_mono _ _ H10) as Hr.
  rewrite Zle_Qle in Hr. qdiv. lra.
Qed.

End Rounding.

(** ** Moon fields *)

Section MoonFacts.

Lemma moon_phase_float_bounds (dt : Z) :
  (0 <= moon_phase_float dt)%Q /\ (moon_phase_float dt < 1)%Q.
Proof.
  unfold moon_phase_float.
  destruct (py_fmod_bounds (inject_Z (days_since_new_moon dt)) lunar_month)
    as [Hlo Hhi]; [reflexivity|].
  set (r := py_fmod _ _) in *. unfold lunar_month in *. qdiv. split; lra.
Qed.

Lemma illumination_bounds (p : Q) :
  (0 <= illumination p)%Q /\ (illumination p <= 100)%Q.
Proof.
  unfold illumination. split.
  - apply Q.le_max_l.
  - apply Q.max_lub; [done|apply Q.le_min_l].
Qed.

Lemma phase_idx_range (p : Q) : 0 <= phase_idx p < 8.
Proof. unfold phase_idx. apply Z.mod_pos_bound. lia. Qed.

Lemma phase_name_basic_listed (p : Q) : In (phase_name_basic p) phase_names.
Proof.
  unfold phase_name_basic. apply nth_In.
  pose proof (phase_idx_range p). simpl. lia.
Qed.

Lemma phase_name_online_listed (p : Q) : In (phase_name_online p) phase_names.
Proof.
  unfold phase_name_online, phase_names.
  repeat match goal with |- context [Qltb p ?c] => destruct (Qltb p c) end;
    simpl; tauto.
Qed.

(** The offset of moon rise and moon set, in minutes. *)
Lemma moon_offset_range (dt : Z) : 0 <= py_int (moon_phase_float dt * 720) < 720.
Proof.
  destruct (moon_phase_float_bounds dt) as [Hlo Hhi].
  set (p := moon_phase_float dt) in *. unfold py_int.
  replace (Qltb (p * 720) 0) with false by (symmetry; apply Qltb_ge; lra).
  split.
  - assert (H0 : Qfloor 0 <= Qfloor (p * 720)) by (apply Qfloor_resp_le; lra).
    exact H0.
  - rewrite Zlt_Qlt. eapply Qle_lt_trans; [apply Qfloor_le|].
    unfold inject_Z. lra.
Qed.

End MoonFacts.

(** X6.  At every instant, also before the reference new moon, the
    phase fraction lies in [[0, 1)]; both astronomy functions report a
    phase name out of the eight of the list and the same illumination,
    between 0 and 100 after rounding; the moon age is between 0 and
    29.5 days. *)
Theorem moon_fields_in_range `{Library} (dt : Z) :
  (0 <= moon_phase_float dt)%Q /\ (moon_phase_float dt < 1)%Q /\
  (exists n m,
     dict_get (calculate_basic_astronomy dt) "moon_phase" = Some (VStr n) /\
     dict_get (calculate_astronomy_data dt) "moon_phase" = Some (VStr m) /\
     In n phase_names /\ In m phase_names) /\
  (exists i a,
     dict_get (calculate_basic_astronomy dt) "moon_illumination_pct"
     = Some (VNum i) /\
     dict_get (calculate_astronomy_data dt) "moon_illumination_pct"
     = Some (VNum i) /\
     (0 <= i)%Q /\ (i <= 100)%Q /\
     dict_get (calculate_astronomy_data dt) "moon_age_days" = Some (VNum a) /\
     (0 <= a)%Q /\ (a <= 29.5)%Q).
Proof.
  destruct (moon_phase_float_bounds dt) as [Hlo Hhi].
  split; [exact Hlo|]. split; [exact Hhi|]. split.
  - do 2 eexists. split; [reflexivity|]. split; [reflexivity|].
    split; [apply phase_name_basic_listed|apply phase_name_online_listed].
  - do 2 eexists. split; [reflexivity|]. split; [reflexivity|].
    destruct (illumination_bounds (moon_phase_float dt)) as [Hi0 Hi100].
    destruct (py_round1_bounds (illumination (moon_phase_float dt)) 0 1000)
      as [Hr0 Hr100]; [unfold inject_Z; lra|unfold inject_Z; lra|].
    destruct (py_fmod_bounds (inject_Z (days_since_new_moon dt)) lunar_month)
      as [Ha0 Ha1]; [reflexivity|].
    split; [qdiv; unfold inject_Z in *; lra|].
    split; [qdiv; unfold inject_Z in *; lra|].
    split; [reflexivity|].
    set (age := py_fmod _ _) in *. unfold lunar_month in Ha1.
    destruct (py_round1_bounds age 0 295) as [Hb0 Hb1];
      [unfold inject_Z; lra|unfold inject_Z; lra|].
    qdiv. unfold inject_Z in *. split; lra.
Qed.

(** X7.  On every day [calculate_basic_astronomy] puts the moon rise
    between 07:15 and 19:15 of the current UTC day and the moon set
    exactly ten and a half hours after the moon rise, and it reports
    a darkness of 12.2 hours: the time from the morning twilight back
    to the evening twilight of the same day. *)
Theorem basic_astronomy_fixed_day `{Library} (now : Z) :
  exists rise set_ d,
    dict_get (calculate_basic_astronomy now) "moon_rise"
    = Some (VStr (isoformat rise)) /\
    dict_get (calculate_basic_astronomy now) "moon_set"
    = Some (VStr (isoformat set_)) /\
    at_time now 7 15 <= rise < at_time now 19 15 /\
    set_ - rise = 10 * hour_us + 30 * minute_us /\
    dict_get (calculate_basic_astronomy now) "darkness_duration_hours"
    = Some (VNum d) /\
    (d == 12.2)%Q.
Proof.
  do 3 eexists. split; [reflexivity|]. split; [reflexivity|].
  pose proof (moon_offset_range now) as Hoff.
  split; [|split; [|split; [reflexivity|]]].
  - unfold at_time, hour_us, minute_us, second_us in *. lia.
  - unfold at_time, hour_us, minute_us, second_us. lia.
  - replace (at_time now 7 15 - 50 * minute_us
             - (at_time now 17 45 + 50 * minute_us))
      with (- (43800 * second_us))
      by (unfold at_time, hour_us, minute_us, second_us; lia).
    vm_compute. reflexivity.
Qed.

(** ** The Magnus block and the temperature *)

(** For a temperature between -100 and 100 and a humidity in (0, 100]
    the block divides by no zero, and its result exceeds the
    temperature: the humidity enters as [rh / 100.0], a positive
    term. *)
Lemma simulated_dewpoint_above (T RH : Q) :
  (-100 <= T)%Q -> (T <= 100)%Q -> (0 < RH)%Q -> (RH <= 100)%Q ->
  exists d, simulated_dewpoint T RH = Some d /\ (T < d)%Q.
Proof.
  intros HT0 HT1 HR0 HR1. unfold simulated_dewpoint.
  assert (Hb : (0 < 237.7 + T)%Q) by lra.
  rewrite (py_div_defined (17.27 * T) (237.7 + T)) by lra.
  cbn [option_bind]. 
  set (x := (17.27 * T / (237.7 + T))%Q).
  assert (Hx : ((237.7 + T) * x == 17.27 * T)%Q)
    by (unfold x; apply Qmult_div_r; lra).
  assert (Hx10 : (x <= 10)%Q).
  { apply (Qmult_le_l x 10 (237.7 + T) Hb). lra. }
  set (alpha := (x + RH / 100.0)%Q).
  assert (Hal : (alpha == x + RH * (1 # 100))%Q).
  { unfold alpha. qdiv. lra. }
  assert (Hpos : (0 < 17.27 - alpha)%Q) by lra.
  rewrite (py_div_defined (237.7 * alpha) (17.27 - alpha)) by lra.
  eexists. split; [reflexivity|].
  set (d := (237.7 * alpha / (17.27 - alpha))%Q).
  assert (Hd : ((17.27 - alpha) * d == 237.7 * alpha)%Q)
    by (unfold d; apply Qmult_div_r; lra).
  apply (Qmult_lt_l T d (17.27 - alpha) Hpos).
  assert (Hprod : (0 < (237.7 + T) * (RH * (1 # 100)))%Q).
  { apply Qmult_lt_0_compat; lra. }
  assert (Hexp : ((17.27 - alpha) * T
                  == 17.27 * T - (x * T + RH * (1 # 100) * T))%Q).
  { rewrite Hal. ring. }
  assert (Hexp2 : (237.7 * alpha == 237.7 * x + 237.7 * (RH * (1 # 100)))%Q).
  { rewrite Hal. ring. }
  assert (Hx' : (237.7 * x + T * x == 17.27 * T)%Q).
  { rewrite <- Hx. ring. }
  assert (Hprod' : (0 < 237.7 * (RH * (1 # 100)) + T * (RH * (1 # 100)))%Q).
  { eapply Qlt_le_trans; [exact Hprod|]. apply Qle_lteq. right. ring. }
  rewrite Hd, Hexp, Hexp2.
  assert (Hc1 : (x * T == T * x)%Q) by ring.
  assert (Hc2 : (RH * (1 # 100) * T == T * (RH * (1 # 100)))%Q) by ring.
  rewrite Hc1, Hc2.
  set (u := (T * x)%Q) in *. set (v := (T * (RH * (1 # 100)))%Q) in *.
  lra.
Qed.

(** X8.  Between -100 and 100 degrees and for a humidity in (0, 100]
    the Magnus block of each of the three files divides by no zero and
    gives a dewpoint above the temperature it was computed from; after
    the rounding to one decimal the dewpoint is still not below the
    rounded temperature. *)
Theorem dewpoint_above_temperature (T RH : Q) :
  (-100 <= T)%Q -> (T <= 100)%Q -> (0 < RH)%Q -> (RH <= 100)%Q ->
  exists d,
    simulated_dewpoint T RH = Some d /\ (T < d)%Q /\
    simulated_dewpoint_c T RH = Some (py_round d 1) /\
    local_dewpoint_c T RH = Some (py_round d 1) /\
    online_dewpoint_c T RH = Some (py_round d 1) /\
    (py_round T 1 <= py_round d 1)%Q.
Proof.
  intros HT0 HT1 HR0 HR1.
  destruct (simulated_dewpoint_above T RH HT0 HT1 HR0 HR1) as (d & Hd & Habove).
  exists d. split; [exact Hd|]. split; [exact Habove|].
  assert (Hc : simulated_dewpoint_c T RH = Some (py_round d 1))
    by (unfold simulated_dewpoint_c; by rewrite Hd).
  assert (Hsites : local_dewpoint_c T RH = simulated_dewpoint_c T RH /\
                   online_dewpoint_c T RH = simulated_dewpoint_c T RH).
  { unfold local_dewpoint_c, online_dewpoint_c, simulated_dewpoint_c,
      simulated_dewpoint.
    by destruct (py_div (17.27 * T) (237.7 + T)). }
  destruct Hsites as [Hl Ho]. rewrite Hl, Ho.
  split; [exact Hc|]. split; [exact Hc|]. split; [exact Hc|].
  apply py_round1_mono. lra.
Qed.

(** [dewpoint_above_temperature] at 10 degrees and 60% humidity: the
    three files report a dewpoint of 19.3 degrees. *)
Lemma dewpoint_above_temperature_witness :
  exists d,
    local_dewpoint_c 10 60 = Some d /\ online_dewpoint_c 10 60 = Some d /\
    simulated_dewpoint_c 10 60 = Some d /\ (10 < d)%Q /\ (d == 19.3)%Q.
Proof.
  destruct (dewpoint_above_temperature 10 60)
    as (d & Hd & Habove & Hs & Hl & Ho & Hr);
    [apply Qle_bool_iff; reflexivity|apply Qle_bool_iff; reflexivity
    |reflexivity|apply Qle_bool_iff; reflexivity|].
  exists (py_round d 1).
  split; [exact Hl|]. split; [exact Ho|]. split; [exact Hs|].
  vm_compute in Hd. injection Hd as <-.
  split; vm_compute; reflexivity.
Defined.

(** ** The simulated generator *)

Section SimulatedFacts.
Context `{Library}.

Lemma clamp_bounds (lo hi x : Q) :
  (lo <= hi)%Q -> (lo <= clamp lo hi x)%Q /\ (clamp lo hi x <= hi)%Q.
Proof.
  intros Hle. unfold clamp. split.
  - apply Q.le_max_l.
  - apply Q.max_lub; [done|apply Q.le_min_l].
Qed.

Lemma rounded_between (x : Q) (a b : Z) :
  (inject_Z a / 10 <= x)%Q -> (x <= inject_Z b / 10)%Q ->
  (inject_Z a / 10 <= py_round x 1)%Q /\ (py_round x 1 <= inject_Z b / 10)%Q.
Proof.
  intros Ha Hb. apply py_round1_bounds; qdiv; lra.
Qed.

(** A number of everyday size is within the range of the floats. *)
Lemma small_not_too_large (q : Q) :
  (-1000000 <= q)%Q -> (q <= 1000000)%Q -> too_large q = false.
Proof.
  intros Hlo Hhi. unfold too_large.
  destruct (Qleb (inject_Z float_limit) (Qabs q)) eqn:E; [exfalso|done].
  apply Qleb_le in E.
  assert (Habs : (Qabs q <= 1000000)%Q) by (apply Qabs_Qle_condition; split; lra).
  assert (Hlim : (1000000 < inject_Z float_limit)%Q)
    by (change 1000000%Q with (inject_Z 1000000); rewrite <- Zlt_Qlt; reflexivity).
  lra.
Qed.

(** The Magnus block below 1000 degrees. *)
Lemma simulated_dewpoint_below (T RH d : Q) :
  (-100 <= T)%Q -> (T <= 100)%Q -> (0 < RH)%Q -> (RH <= 100)%Q ->
  simulated_dewpoint T RH = Some d -> (d <= 1000)%Q.
Proof.
  intros HT0 HT1 HR0 HR1. unfold simulated_dewpoint.
  assert (Hb : (0 < 237.7 + T)%Q) by lra.
  rewrite (py_div_defined (17.27 * T) (237.7 + T)) by lra.
  cbn [option_bind].
  set (x := (17.27 * T / (237.7 + T))%Q).
  assert (Hx : ((237.7 + T) * x == 17.27 * T)%Q)
    by (unfold x; apply Qmult_div_r; lra).
  assert (Hx10 : (x <= 10)%Q).
  { apply (Qmult_le_l x 10 (237.7 + T) Hb). lra. }
  set (alpha := (x + RH / 100.0)%Q).
  assert (Hal : (alpha == x + RH * (1 # 100))%Q).
  { unfold alpha. qdiv. lra. }
  assert (Hpos : (0 < 17.27 - alpha)%Q) by lra.
  rewrite (py_div_defined (237.7 * alpha) (17.27 - alpha)) by lra.
  intros [= <-].
  set (d := (237.7 * alpha / (17.27 - alpha))%Q).
  assert (Hd : ((17.27 - alpha) * d == 237.7 * alpha)%Q)
    by (unfold d; apply Qmult_div_r; lra).
  apply (Qmult_le_l d 1000 (17.27 - alpha) Hpos). lra.
Qed.

(** The six readings of a record of the generator are numbers of
    everyday size. *)
Lemma generator_readings file r now out :
  generate_realistic_weather file r now = Some out ->
  exists t h p w wd dp,
    out = station_record (isoformat now) t h p w wd dp /\
    Forall (fun q => too_large q = false) [t; h; p; w; wd; dp].
Proof.
  unfold generate_realistic_weather. intros Hout.
  repeat match type of Hout with
         | match ?x with Some _ => _ | None => _ end = Some _ =>
             let E := fresh "E" in destruct x eqn:E; [|discriminate]
         end.
  injection Hout as <-.
  match goal with
  | E : simulated_dewpoint (clamp 5.0 35.0 ?t) (clamp 20.0 95.0 ?h) = Some ?d,
    Ep : drift _ "pressure_hpa" _ _ = Some ?p,
    Ew : drift _ "wind_speed_kmh" _ _ = Some ?w,
    Ed : drift _ "wind_direction_deg" _ _ = Some ?wd |- _ =>
      destruct (clamp_bounds 5.0 35.0 t) as [Ht0 Ht1]; [lra|];
      destruct (clamp_bounds 20.0 95.0 h) as [Hh0 Hh1]; [lra|];
      destruct (clamp_bounds 980.0 1040.0 p) as [Hp0 Hp1]; [lra|];
      destruct (clamp_bounds 0.0 50.0 w) as [Hw0 Hw1]; [lra|];
      destruct (py_fmod_bounds wd 360) as [Hd0 Hd1]; [reflexivity|];
      destruct (simulated_dewpoint_above (clamp 5.0 35.0 t) (clamp 20.0 95.0 h))
        as (d' & Hd' & Habove); [lra|lra|lra|lra|];
      pose proof (simulated_dewpoint_below (clamp 5.0 35.0 t) (clamp 20.0 95.0 h) d
                    ltac:(lra) ltac:(lra) ltac:(lra) ltac:(lra) E) as Hbelow;
      assert (d' = d) by congruence; subst d';
      set (T := clamp 5.0 35.0 t) in *;
      set (RH := clamp 20.0 95.0 h) in *;
      set (P := clamp 980.0 1040.0 p) in *;
      set (W := clamp 0.0 50.0 w) in *;
      set (D := py_fmod wd 360) in *;
      destruct (rounded_between T 50 350) as [? ?];
        [qdiv; unfold inject_Z; lra|qdiv; unfold inject_Z; lra|];
      destruct (rounded_between RH 200 950) as [? ?];
        [qdiv; unfold inject_Z; lra|qdiv; unfold inject_Z; lra|];
      destruct (rounded_between P 9800 10400) as [? ?];
        [qdiv; unfold inject_Z; lra|qdiv; unfold inject_Z; lra|];
      destruct (rounded_between W 0 500) as [? ?];
        [qdiv; unfold inject_Z; lra|qdiv; unfold inject_Z; lra|];
      destruct (rounded_between D 0 3600) as [? ?];
        [qdiv; unfold inject_Z; lra|qdiv; unfold inject_Z; lra|];
      destruct (rounded_between d 50 10000) as [? ?];
        [qdiv; unfold inject_Z; lra|qdiv; unfold inject_Z; lra|]
  end.
  qdiv. unfold inject_Z in *.
  do 6 eexists. split; [reflexivity|].
  repeat (constructor; [apply small_not_too_large; lra|]). constructor.
Qed.

End SimulatedFacts.

(** *** Records with floats that are no numbers *)

Section Binary64Facts.
Context `{Library} `{Binary64.Decoder}.

(** [max(lo, min(hi, x))] is a number between the bounds whatever
    float [x] is: [NaN] and [Infinity] give [hi], [-Infinity] gives
    [lo]. *)
Lemma clamp_finite (lo hi : Q) (x : Binary64.float) :
  (lo <= hi)%Q ->
  exists q,
    Binary64.max (Binary64.Finite lo) (Binary64.min (Binary64.Finite hi) x)
    = Binary64.Finite q /\ (lo <= q)%Q /\ (q <= hi)%Q.
Proof.
  intros Hle. unfold Binary64.max, Binary64.min.
  destruct x as [a| | |]; cbn [Binary64.lt].
  - destruct (Qltb a hi) eqn:Ea; cbn [Binary64.lt].
    + apply Qltb_lt in Ea. destruct (Qltb lo a) eqn:El.
      * apply Qltb_lt in El. exists a. split; [done|]. split; lra.
      * exists lo. split; [done|]. split; lra.
    + destruct (Qltb lo hi) eqn:El.
      * exists hi. split; [done|]. split; lra.
      * exists lo. split; [done|]. split; lra.
  - destruct (Qltb lo hi) eqn:El.
    + exists hi. split; [done|]. split; lra.
    + exists lo. split; [done|]. split; lra.
  - exists lo. split; [done|]. split; lra.
  - destruct (Qltb lo hi) eqn:El.
    + exists hi. split; [done|]. split; lra.
    + exists lo. split; [done|]. split; lra.
Qed.

(** On numbers it is [clamp]. *)
Lemma clamp_number (lo hi x : Q) :
  Binary64.max (Binary64.Finite lo)
    (Binary64.min (Binary64.Finite hi) (Binary64.Finite x))
  = Binary64.Finite (clamp lo hi x).
Proof.
  unfold Binary64.max, Binary64.min, clamp, Qmax, Qmin,
    GenericMinMax.gmax, GenericMinMax.gmin. cbn [Binary64.lt]. unfold Qltb.
  rewrite <- (Qcompare_antisym hi x).
  destruct (hi ?= x)%Q; cbn [CompOpp Binary64.lt]; unfold Qltb;
    by destruct (lo ?= _)%Q.
Qed.

(** On numbers the Magnus block is the one of the three scripts. *)
Lemma dewpoint_number (T RH : Q) :
  Binary64.dewpoint (Binary64.Finite T) (Binary64.Finite RH)
  = option_map Binary64.Finite (simulated_dewpoint T RH).
Proof.
  unfold Binary64.dewpoint, simulated_dewpoint, py_div.
  cbn [Binary64.mul Binary64.add Binary64.div Binary64.sub Binary64.neg].
  destruct (Qeq_bool (237.7 + T) 0); [done|].
  cbn [option_bind].
  change (Qeq_bool 100.0 0) with false. cbn [option_bind Binary64.add Binary64.mul
    Binary64.sub Binary64.neg Binary64.div].
  by destruct (Qeq_bool _ 0).
Qed.

Lemma drift_usable previous key dflt draw :
  Binary64.usable previous key ->
  exists x,
    Binary64.drift (Binary64.Object previous) key dflt draw = Some x /\
    (Binary64.finite_reading previous key -> exists q, x = Binary64.Finite q) /\
    (~ Binary64.finite_reading previous key ->
     forall m, Binary64.rem x m = Binary64.NaN).
Proof.
  unfold Binary64.usable, Binary64.finite_reading, Binary64.drift.
  destruct (Binary64.get previous key) as [e|].
  - intros [x Hx]. rewrite Hx. cbn [option_bind]. eexists. split; [reflexivity|].
    split.
    + intros [q [= ->]]. by eexists.
    + intros Hnot m. destruct x as [q| | |]; [|done..].
      exfalso. apply Hnot. by exists q.
  - intros _. cbn [Binary64.to_float option_bind Binary64.add].
    eexists. split; [reflexivity|]. split; [by eexists|].
    intros Hnot. by destruct Hnot.
Qed.

Lemma drift_returns previous key dflt draw x :
  Binary64.drift (Binary64.Object previous) key dflt draw = Some x ->
  Binary64.usable previous key.
Proof.
  unfold Binary64.usable, Binary64.drift.
  destruct (Binary64.get previous key) as [e|]; [|done].
  destruct (Binary64.to_float e); [by eexists|done].
Qed.

Lemma get_plain (d : dict) k :
  Binary64.get (Binary64.plain d) k = option_map Binary64.Plain (dict_get d k).
Proof.
  induction d as [|[k' v] d IH]; [done|]. cbn.
  by destruct (String.eqb k' k).
Qed.

(** On a record of numbers a reading drifts as in
    [generate_realistic_weather]. *)
Lemma drift_number (previous : dict) key dflt draw :
  too_large dflt = false ->
  Binary64.drift (Binary64.Object (Binary64.plain previous)) key dflt draw
  = option_map Binary64.Finite (drift (VDict previous) key dflt draw).
Proof.
  intros Hdflt. unfold Binary64.drift, drift, py_get, dict_get_default.
  rewrite get_plain.
  destruct (dict_get previous key) as [v|]; cbn [option_map option_bind].
  - cbn [Binary64.to_float]. destruct (as_num v) as [q|]; [|done].
    cbn [option_bind]. by destruct (too_large q).
  - cbn [Binary64.to_float as_num option_bind]. by rewrite Hdflt.
Qed.

(** On a previous record of numbers the generator is
    [generate_realistic_weather]. *)
Lemma generator_on_numbers file (previous : dict) r now :
  previous_weather file = VDict previous ->
  Binary64.previous_weather file = Binary64.Object (Binary64.plain previous) ->
  Binary64.generate_realistic_weather file r now
  = option_map Binary64.written (generate_realistic_weather file r now).
Proof.
  intros Hprev Hprev'.
  unfold Binary64.generate_realistic_weather, generate_realistic_weather.
  rewrite Hprev, Hprev'. rewrite !drift_number by reflexivity.
  destruct (drift (VDict previous) "temperature_c" _ _) as [temp|]; [|done].
  destruct (drift (VDict previous) "humidity_pct" _ _) as [humidity|]; [|done].
  destruct (drift (VDict previous) "pressure_hpa" _ _) as [pressure|]; [|done].
  destruct (drift (VDict previous) "wind_speed_kmh" _ _) as [wind_speed|]; [|done].
  destruct (drift (VDict previous) "wind_direction_deg" _ _) as [wind_dir|]; [|done].
  cbn [option_map option_bind]. rewrite !clamp_number, dewpoint_number.
  by destruct (simulated_dewpoint _ _).
Qed.

End Binary64Facts.

(** X9.  The simulated generator on a previous record that may hold
    floats that are no numbers.  When the record is an object, the
    generator returns a record exactly when each of the five readings
    it carries over is absent or something that a float is added to
    (a float, a number below the range of the floats, a boolean), and
    raises otherwise.  Whatever the readings and the draws, the record
    then has a temperature in [5, 35], a humidity in [20, 95], a
    pressure in [980, 1040], a wind speed in [0, 50] and a dewpoint
    not below its temperature.  Its wind direction is in [0, 360] when
    the previous direction is absent or a number, and [NaN] when the
    previous direction is [NaN], [Infinity] or [-Infinity]. *)
Theorem simulated_weather_in_range `{Library} `{Binary64.Decoder}
  (file : option string) (previous : Binary64.record) (r : draws) (now : Z) :
  Binary64.previous_weather file = Binary64.Object previous ->
  (Forall (Binary64.usable previous) simulated_keys ->
   exists out t d,
     Binary64.generate_realistic_weather file r now = Some out /\
     Binary64.field_between out "temperature_c" 5 35 /\
     Binary64.field_between out "humidity_pct" 20 95 /\
     Binary64.field_between out "pressure_hpa" 980 1040 /\
     Binary64.field_between out "wind_speed_kmh" 0 50 /\
     (Binary64.finite_reading previous "wind_direction_deg" ->
      Binary64.field_between out "wind_direction_deg" 0 360) /\
     (~ Binary64.finite_reading previous "wind_direction_deg" ->
      Binary64.get out "wind_direction_deg"
      = Some (Binary64.Float Binary64.NaN)) /\
     Binary64.get out "temperature_c"
     = Some (Binary64.Float (Binary64.Finite t)) /\
     Binary64.get out "dewpoint_c"
     = Some (Binary64.Float (Binary64.Finite d)) /\ (t <= d)%Q) /\
  (~ Forall (Binary64.usable previous) simulated_keys ->
   Binary64.generate_realistic_weather file r now = None).
Proof.
  intros Hprev. unfold Binary64.generate_realistic_weather. rewrite Hprev. split.
  - intros Hall.
    apply Forall_cons_1 in Hall as [Ht Hall].
    apply Forall_cons_1 in Hall as [Hh Hall].
    apply Forall_cons_1 in Hall as [Hp Hall].
    apply Forall_cons_1 in Hall as [Hw Hall].
    apply Forall_cons_1 in Hall as [Hd _].
    destruct (drift_usable previous _ 18.0 (d_temp r) Ht) as (temp & -> & _).
    destruct (drift_usable previous _ 60.0 (d_humidity r) Hh)
      as (humidity & -> & _).
    destruct (drift_usable previous _ 1013.0 (d_pressure r) Hp)
      as (pressure & -> & _).
    destruct (drift_usable previous _ 5.0 (d_wind_speed r) Hw)
      as (wind_speed & -> & _).
    destruct (drift_usable previous _ 180.0 (d_wind_dir r) Hd)
      as (wind_dir & -> & Hnumber & Hnan).
    cbn [option_bind].
    destruct (clamp_finite 5.0 35.0 temp) as (T & -> & Ht0 & Ht1); [lra|].
    destruct (clamp_finite 20.0 95.0 humidity) as (RH & -> & Hh0 & Hh1); [lra|].
    destruct (clamp_finite 980.0 1040.0 pressure) as (P & -> & Hp0 & Hp1); [lra|].
    destruct (clamp_finite 0.0 50.0 wind_speed) as (W & -> & Hw0 & Hw1); [lra|].
    rewrite dewpoint_number.
    destruct (simulated_dewpoint_above T RH) as (dew & -> & Hdew);
      [lra|lra|lra|lra|].
    cbn [option_map option_bind Binary64.round].
    destruct (rounded_between T 50 350) as [? ?];
      [qdiv; unfold inject_Z; lra|qdiv; unfold inject_Z; lra|].
    destruct (rounded_between RH 200 950) as [? ?];
      [qdiv; unfold inject_Z; lra|qdiv; unfold inject_Z; lra|].
    destruct (rounded_between P 9800 10400) as [? ?];
      [qdiv; unfold inject_Z; lra|qdiv; unfold inject_Z; lra|].
    destruct (rounded_between W 0 500) as [? ?];
      [qdiv; unfold inject_Z; lra|qdiv; unfold inject_Z; lra|].
    qdiv. unfold inject_Z in *.
    do 3 eexists. split; [reflexivity|].
    split; [eexists; split; [reflexivity|split; lra]|].
    split; [eexists; split; [reflexivity|split; lra]|].
    split; [eexists; split; [reflexivity|split; lra]|].
    split; [eexists; split; [reflexivity|split; lra]|].
    split; [|split].
    + intros Hfin. destruct (Hnumber Hfin) as [q ->].
      cbn [Binary64.rem Binary64.round].
      destruct (py_fmod_bounds q 360) as [Hd0 Hd1]; [reflexivity|].
      set (D := py_fmod q 360) in *.
      destruct (py_round1_bounds D 0 3600) as [? ?];
        [unfold inject_Z; lra|unfold inject_Z; lra|].
      eexists. split; [reflexivity|]. qdiv. unfold inject_Z in *. split; lra.
    + intros Hnot. rewrite (Hnan Hnot 360%Q). reflexivity.
    + split; [reflexivity|]. split; [reflexivity|].
      apply py_round1_mono. lra.
  - intros Hnot.
    destruct (Binary64.drift (Binary64.Object previous) "temperature_c" 18.0
                (d_temp r)) as [temp|] eqn:Et; [|done].
    destruct (Binary64.drift (Binary64.Object previous) "humidity_pct" 60.0
                (d_humidity r)) as [humidity|] eqn:Eh; [|done].
    destruct (Binary64.drift (Binary64.Object previous) "pressure_hpa" 1013.0
                (d_pressure r)) as [pressure|] eqn:Ep; [|done].
    destruct (Binary64.drift (Binary64.Object previous) "wind_speed_kmh" 5.0
                (d_wind_speed r)) as [wind_speed|] eqn:Ew; [|done].
    destruct (Binary64.drift (Binary64.Object previous) "wind_direction_deg" 180.0
                (d_wind_dir r)) as [wind_dir|] eqn:Ed; [|done].
    exfalso. apply Hnot.
    repeat (constructor; [by eapply drift_returns|]). constructor.
Qed.

(** [simulated_weather_in_range] on a record that holds [Infinity] as
    temperature and [NaN] as wind direction: the generator returns a
    record with a temperature of 35 degrees and the wind direction
    [NaN]. *)
Lemma simulated_weather_in_range_witness :
  exists out,
    @Binary64.generate_realistic_weather sample_library Binary64.ex_decoder
      (Some Binary64.ex_text) ex_draws ex_now = Some out /\
    Binary64.field_between out "temperature_c" 5 35 /\
    Binary64.get out "temperature_c"
    = Some (Binary64.Float (Binary64.Finite (py_round 35.0 1))) /\
    Binary64.get out "wind_direction_deg" = Some (Binary64.Float Binary64.NaN).
Proof.
  destruct (@simulated_weather_in_range sample_library Binary64.ex_decoder
              (Some Binary64.ex_text) Binary64.ex_previous ex_draws ex_now eq_refl)
    as [Hrun _].
  destruct Hrun as (out & t & d & Hout & Ht & _ & _ & _ & _ & Hnan & _).
  - repeat (constructor; [vm_compute; by eauto|]). constructor.
  - exists out. split; [exact Hout|]. split; [exact Ht|]. split.
    + vm_compute in Hout. injection Hout as <-. vm_compute. reflexivity.
    + apply Hnan. intros [q Hq]. discriminate Hq.
Defined.

(** ** The local reader *)

(** X10.  A station record that has the key [dewpoint] with a value
    that Python takes as false (a dewpoint of exactly 0, an empty
    string, null) and no key [dewpoint_c] makes the local reader
    raise: [sensor_data.get("dewpoint") or sensor_data.get("dewpoint_c")]
    is then [None], and [float(None)] is a [TypeError]. *)
Theorem zero_dewpoint_reading_raises `{Library}
  (raw_data sensor : dict) (v : value) (now : Z) :
  get_ok raw_data = true ->
  dict_get raw_data "data" = Some (VDict sensor) ->
  dict_get sensor "dewpoint" = Some v -> truthy v = false ->
  dict_get sensor "dewpoint_c" = None ->
  parse_to_standard_format raw_data now = None.
Proof.
  intros Hok Hdata Hdew Hfalse Hnone.
  unfold parse_to_standard_format, dict_get_default. rewrite Hok, Hdata.
  cbn [negb].
  repeat match goal with
    | |- match extract_first ?f ?t ?s ?c with _ => _ end = None =>
        destruct (extract_first f t s c); [|reflexivity]
    end.
  unfold local_dewpoint_step, py_in, py_get, dict_has, dict_get_default.
  rewrite Hdew, Hnone, Hfalse. reflexivity.
Qed.

(** [zero_dewpoint_reading_raises] on a record at 3 degrees with a
    dewpoint of 0. *)
Lemma zero_dewpoint_reading_raises_witness :
  parse_to_standard_format ex_raw_zero_dewpoint ex_now = None.
Proof.
  apply (zero_dewpoint_reading_raises ex_raw_zero_dewpoint
           [ ("temperature", VNum 3); ("humidity", VNum 80);
             ("dewpoint", VNum 0) ] (VNum 0) ex_now); reflexivity.
Defined.

(** ** The file reader and the age of the record *)

Section FileReaderFacts.
Context `{Library} `{Calendar}.

(** More than 600 seconds, in microseconds. *)
Lemma age_over_limit (now data_time : Z) :
  Qltb 600 (age_seconds now data_time) = true
  <-> 600 * second_us < now - data_time.
Proof.
  rewrite Qltb_lt. unfold age_seconds, second_us.
  set (delta := now - data_time).
  assert (Hq : (inject_Z delta / inject_Z 1000000 * inject_Z 1000000
                == inject_Z delta)%Q) by (apply Qdiv_mult_l; discriminate).
  split.
  - intros Hlt. rewrite Zlt_Qlt, inject_Z_mult.
    rewrite <- Hq. apply Qmult_lt_r; [reflexivity|exact Hlt].
  - intros Hlt. rewrite Zlt_Qlt, inject_Z_mult in Hlt.
    rewrite <- Hq in Hlt. by apply Qmult_lt_r in Hlt.
Qed.

Lemma age_within_limit (now data_time : Z) :
  Qltb 600 (age_seconds now data_time) = false
  <-> now - data_time <= 600 * second_us.
Proof.
  pose proof (age_over_limit now data_time) as Hover.
  destruct (Qltb 600 (age_seconds now data_time)).
  - split; [done|]. intros Hle. assert (600 * second_us < now - data_time) by
      (by apply Hover). lia.
  - split; [|done]. intros _.
    destruct (Z_le_gt_dec (now - data_time) (600 * second_us)) as [|Hgt]; [done|].
    assert (false = true) by (apply Hover; lia). done.
Qed.

(** The update keeps the timestamp that the record already has. *)
Lemma update_keeps_timestamp json_data data now st ts :
  json_loads json_data = Some data ->
  recognized_numeric data ->
  dict_get (read_current_weather st) "timestamp" = Some ts ->
  exists new,
    update_from_json json_data now st = (true, Some new) /\
    dict_get new "timestamp" = Some ts.
Proof.
  intros Hdata Hr Hts.
  destruct (parse_json_weather_some data Hr) as (normalized & Hparse & Hne).
  pose proof (normalized_no_timestamp data normalized Hparse) as Hnorm.
  assert (Hcur : dict_get (dict_update (read_current_weather st) normalized)
                   "timestamp" = Some ts) by (by rewrite dict_update_other).
  exists (dict_update (read_current_weather st) normalized).
  unfold update_from_json, write_weather, dict_has.
  rewrite Hdata, Hparse, Hcur. by split.
Qed.

(** The first update stamps the record with the time of the update. *)
Lemma first_update_stamps json_data data now :
  json_loads json_data = Some data ->
  recognized_numeric data ->
  exists new,
    update_from_json json_data now None = (true, Some new) /\
    dict_get new "timestamp" = Some (VStr (isoformat now)).
Proof.
  intros Hdata Hr.
  destruct (parse_json_weather_some data Hr) as (normalized & Hparse & Hne).
  pose proof (normalized_no_timestamp data normalized Hparse) as Hnorm.
  assert (Hcur : dict_get (dict_update [] normalized) "timestamp" = None)
    by (by rewrite dict_update_other).
  eexists. unfold update_from_json, write_weather, dict_has.
  rewrite Hdata, Hparse. cbn [read_current_weather]. rewrite Hcur.
  split; [reflexivity|]. apply dict_get_set_eq.
Qed.

(** The reader on a stored object with a timestamp that parses to an
    aware instant. *)
Lemma reader_on_aware d s t now_age now_read :
  dict_get d "timestamp" = Some (VStr s) ->
  parse_iso (replace_Z s) = Some (Aware t) ->
  read_file_based_sensors (Decoded (VDict d)) now_age now_read
  = if Qltb 600 (age_seconds now_age t) then
      [ ("ok", VBool false); ("error", VStr "Sensor data is stale");
        ("age_seconds", VNum (age_seconds now_age t));
        ("last_update", VStr s) ]
    else
      [ ("ok", VBool true); ("source", VStr "Local Weather Station (file)");
        ("data", VDict d); ("read_at", VStr (isoformat now_read)) ].
Proof.
  intros Hts Hparse. unfold read_file_based_sensors, py_in, py_getitem, dict_has.
  by rewrite Hts, Hparse.
Qed.

End FileReaderFacts.

(** X11.  The file reader on a stored object: without a timestamp the
    record is always accepted; with a timestamp that parses to an
    aware instant it is accepted exactly when it is at most 600
    seconds old at the reading (a timestamp in the future is
    accepted), and is refused as stale otherwise; a timestamp
    without offset, or one that is not a string, makes the reader
    answer with an error. *)
Theorem file_reader_staleness `{Library} `{Calendar}
  (d : dict) (now_age now_read : Z) :
  let result := read_file_based_sensors (Decoded (VDict d)) now_age now_read in
  (dict_get d "timestamp" = None ->
   get_ok result = true /\ dict_get result "data" = Some (VDict d)) /\
  (forall s t,
     dict_get d "timestamp" = Some (VStr s) ->
     parse_iso (replace_Z s) = Some (Aware t) ->
     (get_ok result = true <-> now_age - t <= 600 * second_us) /\
     (now_age - t <= 600 * second_us ->
      dict_get result "data" = Some (VDict d)) /\
     (600 * second_us < now_age - t ->
      dict_get result "error" = Some (VStr "Sensor data is stale") /\
      dict_get result "last_update" = Some (VStr s) /\
      dict_get result "data" = None)) /\
  (forall s t,
     dict_get d "timestamp" = Some (VStr s) ->
     parse_iso (replace_Z s) = Some (Naive t) ->
     get_ok result = false) /\
  (forall v,
     dict_get d "timestamp" = Some v -> (forall s, v <> VStr s) ->
     get_ok result = false).
Proof.
  cbv zeta. split; [|split; [|split]].
  - intros Hts. unfold read_file_based_sensors, py_in, dict_has.
    by rewrite Hts.
  - intros s t Hts Hparse. rewrite (reader_on_aware d s t _ _ Hts Hparse).
    destruct (Qltb 600 (age_seconds now_age t)) eqn:Hage.
    + apply age_over_limit in Hage.
      split; [split; [done|lia]|]. split; [lia|]. done.
    + apply age_within_limit in Hage.
      split; [done|]. split; [done|lia].
  - intros s t Hts Hparse.
    unfold read_file_based_sensors, py_in, py_getitem, dict_has.
    by rewrite Hts, Hparse.
  - intros v Hts Hv.
    unfold read_file_based_sensors, py_in, py_getitem, dict_has.
    rewrite Hts. destruct v; try done. by destruct (Hv s).
Qed.

(** [file_reader_staleness] on the record stamped 11:55: accepted at
    12:05, stale one microsecond later; the same stamp without offset
    is an error at any time. *)
Lemma file_reader_staleness_witness :
  get_ok (read_file_based_sensors (file_of_store ex_store)
            (ex_now + 5 * minute_us) ex_now) = true /\
  get_ok (read_file_based_sensors (file_of_store ex_store)
            (ex_now + 5 * minute_us + 1) ex_now) = false /\
  get_ok (read_file_based_sensors (file_of_store ex_store_naive) ex_now ex_now)
  = false.
Proof.
  split; [|split].
  - destruct (file_reader_staleness
                [ ("timestamp", VStr "2024-11-04T11:55:00+00:00");
                  ("temperature_c", VNum 11); ("humidity_pct", VNum 60);
                  ("station_name", VStr "roof") ]
                (ex_now + 5 * minute_us) ex_now) as (_ & Haware & _).
    destruct (Haware "2024-11-04T11:55:00+00:00" (ex_now - 5 * minute_us))
      as (Hok & _); [reflexivity|reflexivity|].
    apply Hok. vm_compute. discriminate.
  - destruct (file_reader_staleness
                [ ("timestamp", VStr "2024-11-04T11:55:00+00:00");
                  ("temperature_c", VNum 11); ("humidity_pct", VNum 60);
                  ("station_name", VStr "roof") ]
                (ex_now + 5 * minute_us + 1) ex_now) as (_ & Haware & _).
    destruct (Haware "2024-11-04T11:55:00+00:00" (ex_now - 5 * minute_us))
      as (Hok & _); [reflexivity|reflexivity|].
    destruct (get_ok _) eqn:E; [|reflexivity].
    exfalso. destruct Hok as [Hok _]. specialize (Hok eq_refl).
    vm_compute in Hok. by apply Hok.
  - destruct (file_reader_staleness
                [ ("timestamp", VStr "2024-11-04T11:55:00");
                  ("temperature_c", VNum 11) ] ex_now ex_now)
      as (_ & _ & Hnaive & _).
    apply (Hnaive "2024-11-04T11:55:00" (ex_now - 5 * minute_us)); reflexivity.
Defined.

(** X12.  An update through the receiver does not make the record
    fresh: once the stored timestamp is more than 600 seconds old, a
    reading that [update_from_json] has just accepted and written is
    refused as stale by the file reader; only the first update, on a
    missing file, stamps the record, and is accepted for the
    following 600 seconds. *)
Theorem receiver_update_reads_stale `{Library} `{Calendar}
  (json_data : string) (data : value) (now now_age now_read : Z) :
  json_loads json_data = Some data ->
  recognized_numeric data ->
  now <= now_age ->
  (forall st s t,
     dict_get (read_current_weather st) "timestamp" = Some (VStr s) ->
     parse_iso (replace_Z s) = Some (Aware t) ->
     600 * second_us < now - t ->
     exists st',
       update_from_json json_data now st = (true, st') /\
       let result := read_file_based_sensors (file_of_store st') now_age now_read in
       get_ok result = false /\
       dict_get result "error" = Some (VStr "Sensor data is stale")) /\
  (parse_iso (replace_Z (isoformat now)) = Some (Aware now) ->
   now_age - now <= 600 * second_us ->
   exists st',
     update_from_json json_data now None = (true, st') /\
     get_ok (read_file_based_sensors (file_of_store st') now_age now_read)
     = true).
Proof.
  intros Hdata Hr Hnow. split.
  - intros st s t Hts Hparse Hold.
    destruct (update_keeps_timestamp json_data data now st (VStr s) Hdata Hr Hts)
      as (new & Hupd & Hnew).
    exists (Some new). split; [exact Hupd|]. cbn [file_of_store].
    rewrite (reader_on_aware new s t _ _ Hnew Hparse).
    replace (Qltb 600 (age_seconds now_age t)) with true
      by (symmetry; apply age_over_limit; lia).
    by split.
  - intros Hround Hage.
    destruct (first_update_stamps json_data data now Hdata Hr)
      as (new & Hupd & Hnew).
    exists (Some new). split; [exact Hupd|]. cbn [file_of_store].
    rewrite (reader_on_aware new _ now _ _ Hnew Hround).
    replace (Qltb 600 (age_seconds now_age now)) with false
      by (symmetry; apply age_within_limit; lia).
    reflexivity.
Qed.

(** [receiver_update_reads_stale] at 12:10: the record stamped 11:55
    takes the temperature of the request and is stale for the reader;
    the same request on a missing file gives a fresh record. *)
Lemma receiver_update_reads_stale_witness :
  (exists st',
     update_from_json Sample.body_temp (ex_now + 10 * minute_us) ex_store
     = (true, st') /\
     get_ok (read_file_based_sensors (file_of_store st')
               (ex_now + 10 * minute_us) (ex_now + 10 * minute_us)) = false) /\
  (exists st',
     update_from_json Sample.body_temp (ex_now + 10 * minute_us) None
     = (true, st') /\
     get_ok (read_file_based_sensors (file_of_store st')
               (ex_now + 10 * minute_us) (ex_now + 10 * minute_us)) = true).
Proof.
  destruct (receiver_update_reads_stale Sample.body_temp
              (VDict [("temp", VNum 12.5)]) (ex_now + 10 * minute_us)
              (ex_now + 10 * minute_us) (ex_now + 10 * minute_us))
    as [Hold Hfirst]; [reflexivity| |reflexivity|].
  - exists [("temp", VNum 12.5)], "temp", (VNum 12.5), 12.5%Q.
    split; [reflexivity|]. split; [by left|]. split; [reflexivity|].
    split; [reflexivity|]. constructor; [|constructor].
    intros [_ Ho]. discriminate Ho.
  - split.
    + destruct (Hold ex_store "2024-11-04T11:55:00+00:00"
                  (ex_now - 5 * minute_us)) as (st' & Hupd & Hok & _);
        [reflexivity|reflexivity|reflexivity|].
      exists st'. by split.
    + apply Hfirst; [reflexivity|]. vm_compute. discriminate.
Defined.

(** ** Which alias counts *)

(** X13.  The alias loops of the local reader stop at the first name
    of their list that the station record has: its value is the one
    converted, and when it does not convert the reader raises, whatever
    the later names hold; a record with none of the names leaves the
    field out. *)
Theorem reader_takes_first_alias `{Library}
  (fields : list string) (target : string) (sensor current : dict) :
  (Forall (fun f => dict_get sensor f = None) fields ->
   extract_first fields target (VDict sensor) current = Some current) /\
  (forall pre field post v,
     fields = pre ++ field :: post ->
     Forall (fun f => dict_get sensor f = None) pre ->
     dict_get sensor field = Some v ->
     extract_first fields target (VDict sensor) current
     = (let* q := py_float v in Some (dict_set current target (VNum q)))).
Proof.
  assert (Hskip : forall pre rest,
             Forall (fun f => dict_get sensor f = None) pre ->
             extract_first (pre ++ rest) target (VDict sensor) current
             = extract_first rest target (VDict sensor) current).
  { induction pre as [|f pre IH]; intros rest Hpre; [done|].
    apply Forall_cons_1 in Hpre as [Hf Hpre].
    cbn [app extract_first py_in]. unfold dict_has. rewrite Hf. by apply IH. }
  split.
  - intros Hnone. rewrite <- (app_nil_r fields). by rewrite Hskip.
  - intros pre field post v -> Hpre Hv. rewrite Hskip by done.
    cbn [extract_first py_in py_getitem]. unfold dict_has. by rewrite Hv.
Qed.

(** [reader_takes_first_alias] on a record that spells the temperature
    twice: [temperature] comes first in the list and does not convert,
    so the reader raises although [temp] holds 9. *)
Lemma reader_takes_first_alias_witness :
  extract_first temperature_aliases "temperature_c" (VDict ex_two_spellings) []
  = None /\
  extract_first ["humidity"; "rh"] "humidity_pct" (VDict ex_two_spellings) []
  = Some [].
Proof.
  destruct (reader_takes_first_alias temperature_aliases "temperature_c"
              ex_two_spellings []) as [_ Hfirst].
  destruct (reader_takes_first_alias ["humidity"; "rh"] "humidity_pct"
              ex_two_spellings []) as [Hnone _].
  split.
  - rewrite (Hfirst [] "temperature"
               ["temp"; "temperature_c"; "temp_c"; "outdoor_temp"]
               (VStr "n/a")); [reflexivity|reflexivity|constructor|reflexivity].
  - apply Hnone. repeat constructor.
Defined.

Section LastAlias.
Context `{Library}.

Lemma normalize_loop_app d d' acc :
  for_each normalize_step (d ++ d') acc
  = (let* acc' := for_each normalize_step d acc in
     for_each normalize_step d' acc').
Proof.
  revert acc. induction d as [|kv d IH]; intros acc; simpl; [done|].
  destruct (normalize_step acc kv); [apply IH|done].
Qed.

(** Entries for other fields, and entries that do not convert, leave
    an extracted field as it is. *)
Lemma normalize_loop_other d target x acc acc' :
  Forall (fun kv => target_of (fst kv) <> target \/ py_float (snd kv) = None) d ->
  dict_get acc target = Some x ->
  for_each normalize_step d acc = Some acc' ->
  dict_get acc' target = Some x.
Proof.
  revert acc. induction d as [|kv d IH]; intros acc Hd Hacc; simpl.
  - by intros [= <-].
  - apply Forall_cons_1 in Hd as [Hkv Hd].
    destruct (normalize_step acc kv) as [acc1|] eqn:Hstep; [|done].
    apply IH; [done|].
    destruct (normalize_step_inv acc kv acc1 Hstep)
      as [_ [[_ ->]|(q & _ & Hq & ->)]]; [done|].
    destruct Hkv as [Hne|Hnone]; [|congruence].
    by rewrite dict_get_set_ne.
Qed.

End LastAlias.

(** X14.  The receiver goes through the request in its own order and
    overwrites: of several entries that name the same field, the last
    one that converts is the one stored, provided that no recognised
    key of the request holds an integer beyond the range of the
    floats; such an entry, before or after, makes
    [parse_json_weather] return nothing at all. *)
Theorem receiver_takes_last_alias `{Library}
  (d d' : dict) (key : string) (v : value) (q : Q) :
  is_canonical (target_of key) = true ->
  py_float v = Some q ->
  Forall (fun kv => target_of (fst kv) <> target_of key
                    \/ py_float (snd kv) = None) d' ->
  (Forall (fun kv => ~ oversized_entry kv) (d ++ d') ->
   exists normalized,
     parse_json_weather (VDict (d ++ (key, v) :: d')) = Some normalized /\
     dict_get normalized (target_of key) = Some (VNum q)) /\
  (Exists oversized_entry (d ++ d') ->
   parse_json_weather (VDict (d ++ (key, v) :: d')) = None).
Proof.
  intros Hc Hq Hd'. split.
  - intros Hsmall. apply Forall_app in Hsmall as [Hd Hd'small].
    cbn [parse_json_weather]. rewrite normalize_loop_app.
    destruct (normalize_loop_total d [] Hd) as [acc ->].
    cbn [option_bind for_each].
    rewrite (normalize_step_take acc (key, v) q Hc Hq). cbn [option_bind fst].
    destruct (normalize_loop_total d' (dict_set acc (target_of key) (VNum q))
                Hd'small) as [normalized Hloop].
    rewrite Hloop.
    assert (Hget : dict_get normalized (target_of key) = Some (VNum q)).
    { apply (normalize_loop_other d' _ _ _ _ Hd' (dict_get_set_eq acc _ _) Hloop). }
    destruct normalized as [|e normalized]; [done|].
    by exists (e :: normalized).
  - intros Hbig. apply parse_json_weather_oversized.
    apply Exists_app in Hbig as [Hbig|Hbig]; apply Exists_app; [by left|].
    right. by apply Exists_cons_tl.
Qed.

(** [receiver_takes_last_alias] on a request that spells the
    temperature twice: [temp] comes last and is the one stored; with
    the integer [10^400] as humidity in front, nothing is. *)
Lemma receiver_takes_last_alias_witness :
  (exists normalized,
     parse_json_weather (VDict [("temperature", VNum 2); ("temp", VNum 1)])
     = Some normalized /\
     dict_get normalized "temperature_c" = Some (VNum 1)) /\
  parse_json_weather
    (VDict [ ("rh", VNum (inject_Z (10 ^ 400))); ("temperature", VNum 2);
             ("temp", VNum 1) ]) = None.
Proof.
  split.
  - destruct (receiver_takes_last_alias [("temperature", VNum 2)] [] "temp"
                (VNum 1) 1) as [Hlast _];
      [reflexivity|reflexivity|constructor|].
    destruct Hlast as (normalized & Hparse & Hget).
    + constructor; [|constructor]. intros [_ Ho]. discriminate Ho.
    + exists normalized. split; [exact Hparse|exact Hget].
  - destruct (receiver_takes_last_alias
                [("rh", VNum (inject_Z (10 ^ 400))); ("temperature", VNum 2)] []
                "temp" (VNum 1) 1) as [_ Hnone];
      [reflexivity|reflexivity|constructor|].
    apply Hnone. apply Exists_cons_hd. split; [reflexivity|].
    vm_compute. reflexivity.
Defined.

(** ** The composer when the online channel is available *)

Section ComposeSucceeds.
Context `{Library}.



End ComposeSucceeds.



(** ** The estimate of the online reader *)

Lemma online_current_visibility current cd vis m :
  online_current_data current = Some cd ->
  py_get current "visibility" (VNum 10000) = Some vis ->
  as_num vis = Some m ->
  dict_get cd "visibility_km" = Some (VNum (m / 1000)).
Proof.
  unfold online_current_data. intros Hcd Hvis Hm.
  rewrite Hvis in Hcd. unfold py_div_const in Hcd. rewrite Hm in Hcd.
  repeat match type of Hcd with
         | match ?x with Some _ => _ | None => _ end = Some _ =>
             let E := fresh "E" in destruct x eqn:E; [|discriminate]
         end.
  injection Hcd as <-. reflexivity.
Qed.

Lemma estimate_low_visibility cloud_cover v res :
  (v <= 10)%Q ->
  sky_quality_estimate cloud_cover v = Some res ->
  (fst res = "moderate" \/ fst res = "poor") /\ (snd res <= 5)%Q /\
  ((v <= 5)%Q -> fst res = "poor").
Proof.
  intros Hv. unfold sky_quality_estimate, py_lt.
  destruct (as_num cloud_cover) as [c|]; [|done].
  replace (Qltb 15 v) with false by (symmetry; apply Qltb_ge; lra).
  replace (Qltb 10 v) with false by (symmetry; apply Qltb_ge; lra).
  rewrite !andb_false_r.
  destruct (Qltb 5 v) eqn:E5; [apply Qltb_lt in E5|apply Qltb_ge in E5];
    destruct (Qltb c 60); cbn [andb]; intros [= <-]; cbn [fst snd];
    (split; [tauto|split; [apply Qle_bool_iff; reflexivity|]]);
    intros Hlow; first [reflexivity | exfalso; lra].
Qed.

(** X16.  When the provider's current conditions give no visibility
    (the reader then takes 10000 m) or one of at most 10 km, the
    estimate of the online reader is never better than moderate,
    rating 5, however clear the sky; from 5 km down it is poor. *)
Theorem estimate_capped_by_visibility
  (weather_data : dict) (current vis : value) (m : Q) (out : dict) :
  get_ok weather_data = true ->
  dict_get weather_data "current" = Some current ->
  py_get current "visibility" (VNum 10000) = Some vis ->
  as_num vis = Some m -> (m <= 10000)%Q ->
  parse_to_forecast_format weather_data = Some out ->
  exists est t r,
    dict_get out "sky_quality_estimate" = Some (VDict est) /\
    dict_get est "transparency" = Some (VStr t) /\
    dict_get est "rating" = Some (VNum r) /\
    (t = "moderate" \/ t = "poor") /\ (r <= 5)%Q /\
    ((m <= 5000)%Q -> t = "poor").
Proof.
  intros Hok Hcur Hvis Hm Hcap. unfold parse_to_forecast_format.
  rewrite Hok, Hcur. cbn [negb]. intros Hout.
  destruct (dict_get weather_data "forecast") as [forecast|]; [|done].
  destruct (py_get forecast "list" (VList [])) as [forecast_list|]; [|done].
  destruct (online_current_data current) as [cd|] eqn:Hcd; [|done].
  rewrite (online_current_visibility current cd vis m Hcd Hvis Hm) in Hout.
  cbn [as_num] in Hout.
  repeat match type of Hout with
         | match ?x with Some _ => _ | None => _ end = Some _ =>
             let E := fresh "E" in destruct x eqn:E; [|discriminate]
         end.
  injection Hout as <-.
  assert (Hkm : (m / 1000 <= 10)%Q) by (qdiv; lra).
  match goal with
  | E : sky_quality_estimate _ _ = Some ?res |- _ =>
      destruct (estimate_low_visibility _ _ res Hkm E) as (Ht & Hr & Hpoor)
  end.
  do 3 eexists. split; [reflexivity|]. split; [reflexivity|].
  split; [reflexivity|]. split; [exact Ht|]. split; [exact Hr|].
  intros Hlow. apply Hpoor. qdiv. lra.
Qed.

(** [estimate_capped_by_visibility] on the sample answer: 30% cloud
    cover with the visibility at 10000 m is rated moderate, where the
    same cloud cover counts as good for the window scorer. *)
Lemma estimate_capped_by_visibility_witness :
  exists out est,
    parse_to_forecast_format ex_weather_data = Some out /\
    dict_get out "sky_quality_estimate" = Some (VDict est) /\
    dict_get est "transparency" = Some (VStr "moderate").
Proof.
  destruct (parse_to_forecast_format ex_weather_data) as [out|] eqn:Hout;
    [|vm_compute in Hout; discriminate].
  destruct (estimate_capped_by_visibility ex_weather_data
              (VDict [ ("main", VDict [ ("temp", VNum 18); ("feels_like", VNum 17);
                                        ("humidity", VNum 60);
                                        ("pressure", VNum 1013) ]);
                       ("clouds", VDict [("all", VNum 30)]);
                       ("visibility", VNum 10000);
                       ("wind", VDict [("speed", VNum 2); ("deg", VNum 270)]);
                       ("weather", VList [VDict [("description", VStr "clear sky");
                                                 ("icon", VStr "01n")]]) ])
              (VNum 10000) 10000 out)
    as (est & t & r & Hest & Ht & _);
    [reflexivity|reflexivity|reflexivity|reflexivity
    |apply Qle_bool_iff; reflexivity|exact Hout|].
  exists out, est. split; [reflexivity|]. split; [exact Hest|].
  vm_compute in Hout. injection Hout as <-.
  injection Hest as <-. reflexivity.
Defined.

(** ** The inbox drain takes one picture *)

Section NewestFacts.

Lemma max_by_mtime_in best files :
  In (max_by_mtime best files) (best :: files).
Proof.
  revert best. induction files as [|f files IH]; intros best; [by left|].
  cbn [max_by_mtime].
  destruct (IH (if mtime (snd best) <? mtime (snd f) then f else best))
    as [Heq|Hin].
  - rewrite <- Heq. destruct (mtime (snd best) <? mtime (snd f));
      [right; by left|by left].
  - right. by right.
Qed.

Lemma max_by_mtime_best best files :
  mtime (snd best) <= mtime (snd (max_by_mtime best files)).
Proof.
  revert best. induction files as [|f files IH]; intros best; simpl; [lia|].
  destruct (mtime (snd best) <? mtime (snd f)) eqn:E;
    [apply Z.ltb_lt in E|apply Z.ltb_ge in E].
  - specialize (IH f). lia.
  - apply IH.
Qed.

Lemma max_by_mtime_ge best files entry :
  In entry (best :: files) ->
  mtime (snd entry) <= mtime (snd (max_by_mtime best files)).
Proof.
  revert best. induction files as [|f files IH]; intros best.
  - intros [<-|[]]. simpl. lia.
  - cbn [max_by_mtime]. intros Hin.
    pose proof (max_by_mtime_best
                  (if mtime (snd best) <? mtime (snd f) then f else best) files)
      as Hbest.
    destruct (mtime (snd best) <? mtime (snd f)) eqn:E;
      [apply Z.ltb_lt in E|apply Z.ltb_ge in E].
    + destruct Hin as [<-|[<-|Hin]]; [lia|exact Hbest|].
      apply IH. by right.
    + destruct Hin as [<-|[<-|Hin]]; [exact Hbest|lia|].
      apply IH. by right.
Qed.

Lemma glob_suffix_in suffix dir entry :
  In entry (glob_suffix suffix dir)
  <-> In entry dir /\ ends_with suffix (fst entry) = true.
Proof. unfold glob_suffix. apply filter_In. Qed.

(** The candidates of [_newest_jpg] are the pictures of the
    directory. *)
Lemma candidates_pictures dir entry :
  In entry (glob_suffix ".jpg" dir ++ glob_suffix ".jpeg" dir)
  <-> In entry dir /\ is_picture (fst entry) = true.
Proof.
  rewrite in_app_iff, !glob_suffix_in. unfold is_picture.
  rewrite orb_true_iff. tauto.
Qed.

Lemma newest_jpg_none dir :
  _newest_jpg dir = None
  <-> forall entry, In entry dir -> is_picture (fst entry) = false.
Proof.
  unfold _newest_jpg.
  destruct (glob_suffix ".jpg" dir ++ glob_suffix ".jpeg" dir)
    as [|f files] eqn:Hfiles.
  - split; [|done]. intros _ entry Hin.
    destruct (is_picture (fst entry)) eqn:Hp; [|done].
    assert (Hc : In entry (glob_suffix ".jpg" dir ++ glob_suffix ".jpeg" dir))
      by (by apply candidates_pictures).
    rewrite Hfiles in Hc. destruct Hc.
  - split; [done|]. intros Hnone. exfalso.
    assert (Hc : In f (glob_suffix ".jpg" dir ++ glob_suffix ".jpeg" dir))
      by (rewrite Hfiles; by left).
    apply candidates_pictures in Hc as [Hin Hp].
    rewrite (Hnone f Hin) in Hp. discriminate.
Qed.

Lemma newest_jpg_some dir newest :
  _newest_jpg dir = Some newest ->
  In newest dir /\ is_picture (fst newest) = true /\
  forall entry, In entry dir -> is_picture (fst entry) = true ->
                mtime (snd entry) <= mtime (snd newest).
Proof.
  unfold _newest_jpg.
  destruct (glob_suffix ".jpg" dir ++ glob_suffix ".jpeg" dir)
    as [|f files] eqn:Hfiles; [done|].
  intros [= <-].
  assert (Hc : In (max_by_mtime f files)
                 (glob_suffix ".jpg" dir ++ glob_suffix ".jpeg" dir))
    by (rewrite Hfiles; apply max_by_mtime_in).
  apply candidates_pictures in Hc as [Hin Hp].
  split; [exact Hin|]. split; [exact Hp|].
  intros entry He Hpe. apply max_by_mtime_ge. rewrite <- Hfiles.
  by apply candidates_pictures.
Qed.

End NewestFacts.

(** X17.  One run of the inbox drain takes one picture.  It answers
    [False] and changes nothing exactly when the drop directory has no
    name ending in [.jpg] or [.jpeg] (the match is case-sensitive);
    otherwise the picture it publishes as the latest file is one of
    the drop directory than which no picture there is newer, and the
    gallery and archive entries of every other name are left as they
    were: an older picture waiting in the drop directory is not
    copied. *)
Theorem ingest_takes_newest_only `{Library}
  (fs : skycam) (now_archive now_status : Z) :
  let r := ingest_latest now_archive now_status fs in
  (fst r = false <->
   forall entry, In entry (inbox fs) -> is_picture (fst entry) = false) /\
  (fst r = false -> snd r = fs) /\
  (fst r = true ->
   exists n f,
     In (n, f) (inbox fs) /\ is_picture n = true /\
     latest (snd r) = Some f /\ images (snd r) !! n = Some f /\
     (forall entry, In entry (inbox fs) -> is_picture (fst entry) = true ->
                    mtime (snd entry) <= mtime f) /\
     (forall n', n' <> n ->
        images (snd r) !! n' = images fs !! n' /\
        forall day, archive (snd r) !! (day, n') = archive fs !! (day, n'))).
Proof.
  cbv zeta. unfold ingest_latest.
  destruct (_newest_jpg (inbox fs)) as [[n f]|] eqn:Hnewest.
  - cbn [fst snd]. split; [|split; [done|]].
    + split; [done|]. intros Hnone. apply newest_jpg_none in Hnone.
      congruence.
    + intros _. destruct (newest_jpg_some _ _ Hnewest) as (Hin & Hp & Hmax).
      exists n, f. cbn [latest images archive].
      split; [exact Hin|]. split; [exact Hp|]. split; [done|].
      split; [apply lookup_insert_eq|]. split; [exact Hmax|].
      intros n' Hne. split.
      * apply lookup_insert_ne. congruence.
      * intros day. apply lookup_insert_ne. congruence.
  - cbn [fst snd]. split; [|split; [done|done]].
    split; [|done]. intros _. by apply newest_jpg_none.
Qed.

(** [ingest_takes_newest_only] on the sample drop directory: the
    [.jpeg] of 1730721000 is published, and the older [sky_0001.jpg]
    reaches neither the gallery nor the archive. *)
Lemma ingest_takes_newest_only_witness :
  let r := ingest_latest ex_now ex_now ex_skycam in
  latest (snd r) = Some ex_picture_new /\
  images (snd r) !! "sky_0001.jpg" = None /\
  archive (snd r) !! ("2024/11/04", "sky_0001.jpg") = None.
Proof.
  intros r.
  destruct (ingest_takes_newest_only ex_skycam ex_now ex_now)
    as (_ & _ & Htrue).
  destruct Htrue as (n & f & Hin & Hp & Hlatest & Himg & Hmax & Hother);
    [reflexivity|].
  fold r in Hlatest, Himg, Hother.
  assert (Hn : n = "sky_0002.jpeg" /\ f = ex_picture_new).
  { simpl in Hin. destruct Hin as [Hin|[Hin|[Hin|[]]]]; injection Hin as <- <-.
    - exfalso.
      specialize (Hmax ("sky_0002.jpeg", ex_picture_new)).
      cbn [fst snd] in Hmax.
      assert (Hle : mtime ex_picture_new <= mtime ex_picture_old)
        by (apply Hmax; [simpl; auto|reflexivity]).
      vm_compute in Hle. by apply Hle.
    - discriminate Hp.
    - done. }
  destruct Hn as [-> ->].
  split; [exact Hlatest|].
  destruct (Hother "sky_0001.jpg") as [Hi Ha]; [discriminate|].
  split; [rewrite Hi; reflexivity|rewrite Ha; reflexivity].
Defined.

(** ** Metadata uploads and the forecast document *)

Section UploadFacts.
Context `{Library}.







End UploadFacts.



(** ** Station files and the timestamp of the record *)

Section StationFileFacts.
Context `{Library} `{Texts}.

Lemma boltwood_no_timestamp filepath text weather :
  parse_boltwood_file filepath text = Some weather ->
  dict_get weather "timestamp" = None.
Proof.
  unfold parse_boltwood_file. intros Hw.
  destruct (7 <=? _)%nat; [|done].
  repeat match type of Hw with
         | match ?x with Some _ => _ | None => _ end = Some _ =>
             destruct x; [|discriminate]
         end.
  by injection Hw as <-.
Qed.

Lemma cloudsensor_field_other data field target weather weather' k :
  cloudsensor_field data field target weather = Some weather' ->
  String.eqb target k = false ->
  dict_get weather' k = dict_get weather k.
Proof.
  intros Hf Hne%String.eqb_neq. revert Hf. unfold cloudsensor_field.
  destruct (dict_get data field) as [v|]; [|by intros [= <-]].
  destruct (py_float v) as [q|]; [|done]. intros [= <-].
  apply dict_get_set_ne. congruence.
Qed.

Lemma cloudsensor_no_timestamp filepath text weather :
  parse_cloudsensor_file filepath text = Some weather ->
  dict_get weather "timestamp" = None.
Proof.
  unfold parse_cloudsensor_file.
  set (data := fold_left cloudsensor_line _ []). intros Hw.
  destruct (cloudsensor_field data "temperature" "temperature_c" [])
    as [w1|] eqn:E1; [|done].
  destruct (cloudsensor_field data "humidity" "humidity_pct" w1)
    as [w2|] eqn:E2; [|done].
  destruct (cloudsensor_field data "pressure" "pressure_hpa" w2)
    as [w3|] eqn:E3; [|done].
  destruct (cloudsensor_field data "wind_speed" "wind_speed_kmh" w3)
    as [w4|] eqn:E4; [|done].
  destruct (cloudsensor_field data "wind_direction" "wind_direction_deg" w4)
    as [w5|] eqn:E5; [|done].
  assert (H5 : dict_get w5 "timestamp" = None).
  { rewrite (cloudsensor_field_other _ _ _ _ _ "timestamp" E5 eq_refl).
    rewrite (cloudsensor_field_other _ _ _ _ _ "timestamp" E4 eq_refl).
    rewrite (cloudsensor_field_other _ _ _ _ _ "timestamp" E3 eq_refl).
    rewrite (cloudsensor_field_other _ _ _ _ _ "timestamp" E2 eq_refl).
    by rewrite (cloudsensor_field_other _ _ _ _ _ "timestamp" E1 eq_refl). }
  assert (H6 : forall w6,
             (if dict_has data "dewpoint" || dict_has data "dew_point" then
                cloudsensor_field data
                  (if dict_has data "dewpoint" then "dewpoint" else "dew_point")
                  "dewpoint_c" w5
              else Some w5) = Some w6 ->
             dict_get w6 "timestamp" = None).
  { intros w6. destruct (dict_has data "dewpoint" || dict_has data "dew_point").
    - intros E6.
      by rewrite (cloudsensor_field_other _ _ _ _ _ "timestamp" E6 eq_refl).
    - by intros [= <-]. }
  destruct (if dict_has data "dewpoint" || dict_has data "dew_point" then _
            else _) as [w6|]; [|done].
  specialize (H6 w6 eq_refl).
  assert (Hgen : forall w : dict,
             dict_get w "timestamp" = None ->
             dict_get
               (dict_set (dict_set w "station_name" (VStr "AAG CloudSensor"))
                  "source_file" (VStr filepath)) "timestamp" = None).
  { intros w Hnone. by rewrite !dict_get_set_ne by discriminate. }
  destruct w6 as [|e w6]; [done|]. injection Hw as <-.
  exact (Hgen (e :: w6) H6).
Qed.

Lemma store_update_keeps weather now st ts :
  dict_get weather "timestamp" = None ->
  dict_get (read_current_weather st) "timestamp" = Some ts ->
  exists new,
    store_update weather now st = (true, Some new) /\
    dict_get new "timestamp" = Some ts.
Proof.
  intros Hw Hts.
  assert (Hcur : dict_get (dict_update (read_current_weather st) weather)
                   "timestamp" = Some ts) by (by rewrite dict_update_other).
  exists (dict_update (read_current_weather st) weather).
  unfold store_update, write_weather, dict_has. by rewrite Hcur.
Qed.

End StationFileFacts.

(** X19.  [update_from_file] answers [False] and leaves the stored
    record as it was, or answers [True] and keeps the timestamp that
    the record had: neither a Boltwood file nor a CloudSensor file nor
    a JSON file renews it.  A record that a file has just updated is
    therefore refused as stale by the file reader once its first
    timestamp is more than 600 seconds old. *)
Theorem file_update_keeps_timestamp `{Library} `{Texts} `{Calendar}
  (filepath : string) (file : option string) (now now_age now_read : Z)
  (st : store) :
  let r := update_from_file filepath file now st in
  (fst r = false -> snd r = st) /\
  (fst r = true ->
   forall s, dict_get (read_current_weather st) "timestamp" = Some (VStr s) ->
     exists new,
       snd r = Some new /\ dict_get new "timestamp" = Some (VStr s) /\
       forall t, parse_iso (replace_Z s) = Some (Aware t) ->
         600 * second_us < now_age - t ->
         get_ok (read_file_based_sensors (Decoded (VDict new)) now_age now_read)
         = false).
Proof.
  cbv zeta.
  assert (Hkeep : forall weather,
            dict_get weather "timestamp" = None ->
            let r := store_update weather now st in
            (fst r = false -> snd r = st) /\
            (fst r = true ->
             forall s,
               dict_get (read_current_weather st) "timestamp" = Some (VStr s) ->
               exists new,
                 snd r = Some new /\ dict_get new "timestamp" = Some (VStr s) /\
                 forall t, parse_iso (replace_Z s) = Some (Aware t) ->
                   600 * second_us < now_age - t ->
                   get_ok (read_file_based_sensors (Decoded (VDict new))
                             now_age now_read) = false)).
  { intros weather Hw. cbv zeta. split; [done|]. intros _ s Hs.
    destruct (store_update_keeps weather now st (VStr s) Hw Hs)
      as (new & Hupd & Hnew).
    exists new. rewrite Hupd. split; [done|]. split; [exact Hnew|].
    intros t Hparse Hold.
    rewrite (reader_on_aware new s t _ _ Hnew Hparse).
    replace (Qltb 600 (age_seconds now_age t)) with true
      by (symmetry; by apply age_over_limit).
    reflexivity. }
  unfold update_from_file.
  destruct file as [text|]; [|by split].
  destruct (String.eqb (path_suffix filepath) ".dat").
  { destruct (parse_boltwood_file filepath text) as [weather|] eqn:Hw;
      [|by split].
    apply Hkeep. by eapply boltwood_no_timestamp. }
  destruct (String.eqb (path_suffix filepath) ".txt").
  { destruct (parse_cloudsensor_file filepath text) as [weather|] eqn:Hw;
      [|by split].
    apply Hkeep. by eapply cloudsensor_no_timestamp. }
  destruct (String.eqb (path_suffix filepath) ".json"); [|by split].
  destruct (json_loads text) as [data|]; [|by split].
  destruct (parse_json_weather data) as [normalized|] eqn:Hn; [|by split].
  apply Hkeep. by eapply normalized_no_timestamp.
Qed.

(** [file_update_keeps_timestamp] on the line of the Boltwood format
    description, read at 12:10 into the record stamped 11:55: the
    temperature is -10.5 and the wind 0.72 km/h, the timestamp is still
    11:55, and the reader refuses the record as stale. *)
Lemma file_update_keeps_timestamp_witness :
  exists new,
    update_from_file "/data/boltwood.dat" (Some ex_boltwood)
      (ex_now + 10 * minute_us) ex_store = (true, Some new) /\
    dict_get new "temperature_c" = Some (VNum (-10.5)) /\
    dict_get new "wind_direction_deg" = Some (VNum 23) /\
    dict_get new "timestamp" = Some (VStr "2024-11-04T11:55:00+00:00") /\
    get_ok (read_file_based_sensors (Decoded (VDict new))
              (ex_now + 10 * minute_us) (ex_now + 10 * minute_us)) = false.
Proof.
  destruct (file_update_keeps_timestamp "/data/boltwood.dat" (Some ex_boltwood)
              (ex_now + 10 * minute_us) (ex_now + 10 * minute_us)
              (ex_now + 10 * minute_us) ex_store) as [_ Htrue].
  destruct (Htrue eq_refl "2024-11-04T11:55:00+00:00" eq_refl)
    as (new & Hnew & Hts & Hstale).
  exists new.
  assert (Hrun : update_from_file "/data/boltwood.dat" (Some ex_boltwood)
                   (ex_now + 10 * minute_us) ex_store = (true, Some new)).
  { rewrite <- Hnew. vm_compute. reflexivity. }
  split; [exact Hrun|].
  vm_compute in Hnew. injection Hnew as <-.
  split; [vm_compute; reflexivity|]. split; [reflexivity|].
  split; [exact Hts|].
  apply (Hstale (ex_now - 5 * minute_us)); reflexivity.
Defined.

(** ** From the simulated generator to the merge *)

Section Pipeline.
Context `{Library} `{Calendar}.

Lemma standard_format_of_record stamp t h p w wd dp read_at now :
  Forall (fun q => too_large q = false) [t; h; p; w; wd; dp] ->
  parse_to_standard_format
    [ ("ok", VBool true); ("source", VStr "Local Weather Station (file)");
      ("data", VDict (station_record stamp t h p w wd dp));
      ("read_at", VStr read_at) ] now
  = Some
      [ ("ok", VBool true);
        ("source", VStr "Local Weather Station (file)");
        ("timestamp", VStr read_at);
        ("current", VDict (standard_current t h p w wd dp));
        ("raw", VDict (station_record stamp t h p w wd dp));
        ("note",
          VStr "Local sensor - cloud cover and visibility may not be available") ].
Proof.
  intros Hall. repeat (apply Forall_cons_1 in Hall as [? Hall]).
  unfold parse_to_standard_format.
  repeat (cbv -[too_large];
          match goal with
          | Hq : too_large ?q = false |- context [too_large ?q] => rewrite Hq
          end).
  reflexivity.
Qed.

(** The local pass on the six readings takes them all. *)
Lemma local_pass_standard t h p w wd dp :
  exists m1,
    for_each (merge_local_step (VDict (standard_current t h p w wd dp)))
      local_keys merged_init = Some m1 /\
    map fst m1 = merged_keys /\
    forall key, In key local_keys ->
      dict_get m1 key = dict_get (standard_current t h p w wd dp) key /\
      dict_get m1 key <> Some VNone.
Proof.
  eexists. split; [reflexivity|]. split; [reflexivity|].
  intros key Hkey. simpl in Hkey.
  destruct Hkey as [<-|[<-|[<-|[<-|[<-|[<-|[]]]]]]]; by split.
Qed.

(** Whatever a usable online channel holds, the merge keeps the six
    local readings. *)
Lemma merge_keeps_standard online_data local_data t h p w wd dp :
  get_ok local_data = true ->
  dict_get local_data "current" = Some (VDict (standard_current t h p w wd dp)) ->
  online_usable online_data ->
  exists m,
    merge_weather_sources online_data local_data = Some m /\
    forall key, In key local_keys ->
      dict_get m key = dict_get (standard_current t h p w wd dp) key.
Proof.
  intros Hok Hcur Honline.
  destruct (local_pass_standard t h p w wd dp) as (m1 & H1 & K1 & Hm1).
  unfold merge_weather_sources. unfold dict_has at 1.
  rewrite Hok, Hcur. cbn [andb]. rewrite H1.
  destruct (get_ok online_data && dict_has online_data "current") eqn:Hon.
  - destruct Honline as [Hoff|[oc Hoc]]; [congruence|]. rewrite Hoc.
    destruct (online_pass_total oc m1 K1) as [m2 H2].
    assert (K2 : map fst m2 = merged_keys) by (by apply (online_pass_keys oc m1)).
    destruct (fill_pass_total oc m2 K2) as (m3 & H3 & K3).
    exists m3. rewrite H2, K2. split; [exact H3|].
    intros key Hkey. destruct (Hm1 key Hkey) as [Hval Hnn].
    assert (H2k : dict_get m2 key = dict_get m1 key)
      by exact (online_pass_other oc key m1 m2 K1 (local_not_online key Hkey) H2).
    destruct (dict_get m1 key) as [x|] eqn:Hx.
    + rewrite <- Hval.
      eapply fill_pass_keeps; [exact K2|by rewrite H2k| |exact H3].
      intros ->. by apply Hnn.
    + exfalso. assert (Hin : In key (map fst m1))
        by (rewrite K1; by apply local_keys_merged).
      destruct (dict_get_In m1 key Hin) as [x Hx']. congruence.
  - exists m1. split; [reflexivity|]. intros key Hkey. by apply Hm1.
Qed.

End Pipeline.

(** X20.  The record of the simulated generator goes through the
    whole local channel unchanged: read within 600 seconds of its
    timestamp, the file reader accepts it, the local reader finds its
    six readings under the names the generator wrote them (the
    dewpoint is taken from the record, not recomputed) and nothing
    else, and the merge gives them precedence over whatever a usable
    online channel holds. *)
Theorem simulated_record_reaches_merge `{Library} `{Calendar}
  (file : option string) (r : draws) (now now_age now_read now_parse : Z)
  (out online_data : dict) :
  generate_realistic_weather file r now = Some out ->
  parse_iso (replace_Z (isoformat now)) = Some (Aware now) ->
  now_age - now <= 600 * second_us ->
  online_usable online_data ->
  exists local_data cur m,
    parse_to_standard_format
      (read_file_based_sensors (Decoded (VDict out)) now_age now_read) now_parse
    = Some local_data /\
    get_ok local_data = true /\
    dict_get local_data "timestamp" = Some (VStr (isoformat now_read)) /\
    dict_get local_data "current" = Some (VDict cur) /\
    map fst cur = local_keys_in_order /\
    (forall key, In key local_keys -> dict_get cur key = dict_get out key) /\
    merge_weather_sources online_data local_data = Some m /\
    (forall key, In key local_keys -> dict_get m key = dict_get out key).
Proof.
  intros Hout Hround Hage Honline.
  destruct (generator_readings file r now out Hout)
    as (t & h & p & w & wd & dp & -> & Hsmall).
  rewrite (reader_on_aware (station_record (isoformat now) t h p w wd dp)
             (isoformat now) now now_age now_read eq_refl Hround).
  replace (Qltb 600 (age_seconds now_age now)) with false
    by (symmetry; by apply age_within_limit).
  rewrite (standard_format_of_record _ _ _ _ _ _ _ _ _ Hsmall).
  destruct (merge_keeps_standard online_data
              [ ("ok", VBool true);
                ("source", VStr "Local Weather Station (file)");
                ("timestamp", VStr (isoformat now_read));
                ("current", VDict (standard_current t h p w wd dp));
                ("raw", VDict (station_record (isoformat now) t h p w wd dp));
                ("note",
                  VStr "Local sensor - cloud cover and visibility may not be available") ]
              t h p w wd dp eq_refl eq_refl Honline) as (m & Hm & Hkeys).
  assert (Hsame : forall key, In key local_keys ->
            dict_get (standard_current t h p w wd dp) key
            = dict_get (station_record (isoformat now) t h p w wd dp) key).
  { intros key Hkey. simpl in Hkey.
    destruct Hkey as [<-|[<-|[<-|[<-|[<-|[<-|[]]]]]]]; reflexivity. }
  do 3 eexists. split; [reflexivity|]. split; [reflexivity|].
  split; [reflexivity|]. split; [reflexivity|]. split; [reflexivity|].
  split; [exact Hsame|]. split; [exact Hm|].
  intros key Hkey. rewrite (Hkeys key Hkey). by apply Hsame.
Qed.

(** [simulated_record_reaches_merge] on a first run of the generator
    at noon, read one minute later: the simulated 18.1 degrees beat
    the 20 degrees of the online channel. *)
Lemma simulated_record_reaches_merge_witness :
  exists out local_data m,
    generate_realistic_weather None ex_draws ex_now = Some out /\
    parse_to_standard_format
      (read_file_based_sensors (Decoded (VDict out)) (ex_now + minute_us)
         (ex_now + minute_us)) (ex_now + minute_us) = Some local_data /\
    merge_weather_sources ex_online local_data = Some m /\
    dict_get m "temperature_c" = Some (VNum 18.1).
Proof.
  destruct (generate_realistic_weather None ex_draws ex_now) as [out|] eqn:Hout;
    [|vm_compute in Hout; discriminate].
  destruct (simulated_record_reaches_merge None ex_draws ex_now
              (ex_now + minute_us) (ex_now + minute_us) (ex_now + minute_us)
              out ex_online Hout)
    as (local_data & cur & m & Hlocal & _ & _ & _ & _ & _ & Hm & Hkeys);
    [reflexivity|vm_compute; discriminate|right; by eexists|].
  exists out, local_data, m. split; [reflexivity|]. split; [exact Hlocal|].
  split; [exact Hm|].
  rewrite Hkeys by (simpl; auto).
  vm_compute in Hout. injection Hout as <-. reflexivity.
Defined.

(** ** From the online reader to the window scorer *)

Section ReaderToScorer.
Context `{Library}.



End ReaderToScorer.



(** ** The fetcher scripts as processes *)

Section ProcessFacts.
Context `{Library} `{Calendar} `{Printer}.

Lemma print_line_nonempty s : String.eqb (print_line s) "" = false.
Proof. unfold print_line. by destruct s. Qed.

(** What [run_fetcher] makes of a script that exits with 1. *)
Lemma run_fetcher_exit_1 script_name out err :
  run_fetcher script_name
    (Some (Completed {| returncode := 1; stdout := out; stderr := err |}))
  = VDict [ ("ok", VBool false);
            ("error",
              VStr (if String.eqb err "" then "Script execution failed" else err));
            ("script", VStr script_name) ].
Proof. reflexivity. Qed.

(** What [run_fetcher] makes of a script that prints one line that
    decodes. *)
Lemma run_fetcher_printed script_name text v :
  json_loads (print_line text) = Some v ->
  run_fetcher script_name
    (Some (Completed {| returncode := 0; stdout := print_line text;
                        stderr := "" |}))
  = v.
Proof.
  intros Hv. unfold run_fetcher. cbn [returncode stdout stderr].
  by rewrite print_line_nonempty, Hv.
Qed.

(** A local result that is not ok counts as no local result in the
    merge. *)
Lemma merge_ignores_failed_local online_data d :
  get_ok d = false ->
  merge_weather_sources online_data d = merge_weather_sources online_data [].
Proof. intros Hd. unfold merge_weather_sources. by rewrite Hd. Qed.

End ProcessFacts.

(** X22.  The composer gets no further than the online script lets
    it.  Whenever the fetch is not ok (no API key, a network error,
    any other error) or the online reader raises, what [run_fetcher]
    hands to the composer is an object that is not ok, and
    [generate_combined_forecast] raises, whatever the local channel
    delivers; without an API key the script exits with 0 and the
    object is its demo document. *)
Theorem online_failure_stops_composer `{Library} `{Printer}
  (api_key : string) (net : fetch_outcome) (now : Z) (traceback : string) :
  json_loads (print_line (json_dumps (VDict demo_data))) = Some (VDict demo_data) ->
  get_ok (fetch_weather_data api_key net now) = false
  \/ parse_to_forecast_format (fetch_weather_data api_key net now) = None ->
  exists online_data,
    run_fetcher "fetch_online_weather.py"
      (Some (Completed (online_main api_key net now traceback)))
    = VDict online_data /\
    get_ok online_data = false /\
    (api_key = "" -> online_data = demo_data) /\
    forall local_data t1 t2 t3,
      generate_combined_forecast online_data local_data t1 t2 t3 = None.
Proof.
  intros Hround Hfail.
  assert (Hgoal : exists online_data,
            run_fetcher "fetch_online_weather.py"
              (Some (Completed (online_main api_key net now traceback)))
            = VDict online_data /\
            get_ok online_data = false /\
            (api_key = "" -> online_data = demo_data)).
  { unfold online_main, fetch_weather_data in *.
    destruct (String.eqb_spec api_key "") as [->|Hkey].
    - cbn [get_ok dict_get String.eqb Ascii.eqb Bool.eqb truthy
             dict_get_default].
      exists demo_data. split; [by apply run_fetcher_printed|]. by split.
    - destruct net as [current forecast|e|e].
      + destruct Hfail as [Hoff|Hraise]; [discriminate Hoff|].
        cbn [get_ok dict_get String.eqb Ascii.eqb Bool.eqb truthy].
        rewrite Hraise. eexists. rewrite run_fetcher_exit_1.
        split; [reflexivity|]. by split.
      + eexists. split; [reflexivity|]. by split.
      + eexists. split; [reflexivity|]. by split. }
  destruct Hgoal as (online_data & Hrun & Hoff & Hdemo).
  exists online_data. split; [exact Hrun|]. split; [exact Hoff|].
  split; [exact Hdemo|].
  intros local_data t1 t2 t3. by apply compose_raises_without_online.
Qed.

(** [online_failure_stops_composer] without an API key: the demo
    document reaches the composer, which raises although the local
    station answers. *)
Lemma online_failure_stops_composer_witness :
  @run_fetcher demo_library demo_printer "fetch_online_weather.py"
    (Some (Completed (@online_main demo_library demo_printer ""
                        (NetworkError "unreachable") ex_now "")))
  = VDict demo_data /\
  @generate_combined_forecast demo_library demo_data ex_local_ok
    ex_now ex_now ex_now = None.
Proof.
  destruct (@online_failure_stops_composer demo_library demo_printer ""
              (NetworkError "unreachable") ex_now "")
    as (online_data & Hrun & _ & Hdemo & Hnone);
    [reflexivity|left; reflexivity|].
  rewrite (Hdemo eq_refl) in Hrun, Hnone. split; [exact Hrun|apply Hnone].
Defined.

(** X23.  A failure of the station script stays in the local channel.
    Only the sensor types [file] and [http] can give a reading.  When
    the reading is not ok, or the local reader raises on it, what
    [run_fetcher] hands to the composer is an object that is not ok
    and names the script, and the merge treats it as no local data at
    all; when the reading is ok, the reader returns and the printed
    text decodes back, the composer gets the reader's result. *)
Theorem local_failure_is_contained `{Library} `{Calendar} `{Printer}
  (env : station_env) (f : weather_file) (http : http_outcome)
  (now_age now_read now_parse : Z) (traceback : string) :
  let raw := read_local_weather env f http now_age now_read in
  let local_data :=
    run_fetcher "fetch_local_weather.py"
      (Some (Completed (local_main env f http now_age now_read now_parse
                          traceback))) in
  (SENSOR_TYPE env <> "file" -> SENSOR_TYPE env <> "http" ->
   get_ok raw = false) /\
  (get_ok raw = false \/ parse_to_standard_format raw now_parse = None ->
   exists d,
     local_data = VDict d /\ get_ok d = false /\
     dict_get d "script" = Some (VStr "fetch_local_weather.py") /\
     forall online_data,
       merge_weather_sources online_data d
       = merge_weather_sources online_data []) /\
  (forall formatted,
     get_ok raw = true ->
     parse_to_standard_format raw now_parse = Some formatted ->
     json_loads (print_line (json_dumps (VDict formatted)))
     = Some (VDict formatted) ->
     local_data = VDict formatted).
Proof.
  cbv zeta. split; [|split].
  - intros Hfile Hhttp. unfold read_local_weather.
    destruct (String.eqb_spec (SENSOR_TYPE env) "file") as [|_]; [done|].
    destruct (String.eqb_spec (SENSOR_TYPE env) "mqtt") as [_|_].
    + unfold read_mqtt_sensors. by destruct (paho_installed env).
    + destruct (String.eqb_spec (SENSOR_TYPE env) "http") as [|_]; done.
  - intros Hfail. unfold local_main.
    set (raw := read_local_weather env f http now_age now_read) in *.
    assert (Hexit : exists err,
              (if get_ok raw then
                 match parse_to_standard_format raw now_parse with
                 | Some formatted =>
                     {| returncode := 0;
                        stdout := print_line (json_dumps (VDict formatted));
                        stderr := "" |}
                 | None => {| returncode := 1; stdout := ""; stderr := traceback |}
                 end
               else {| returncode := 1; stdout := "";
                       stderr := print_line (json_dumps (VDict raw)) |})
              = {| returncode := 1; stdout := ""; stderr := err |}).
    { destruct (get_ok raw) eqn:Hok; [|by eexists].
      destruct Hfail as [?|Hraise]; [done|]. rewrite Hraise. by eexists. }
    destruct Hexit as [err ->]. rewrite run_fetcher_exit_1.
    eexists. split; [reflexivity|]. split; [reflexivity|].
    split; [reflexivity|]. intros online_data.
    by apply merge_ignores_failed_local.
  - intros formatted Hok Hparse Hround. unfold local_main.
    rewrite Hok, Hparse. by apply run_fetcher_printed.
Qed.

(** [local_failure_is_contained] on the station record with a
    dewpoint of 0: the reading is ok, the local reader raises, and the
    composer is told that the script failed. *)
Lemma local_failure_is_contained_witness :
  get_ok (read_local_weather ex_env
            (Decoded (VDict [ ("temperature", VNum 3); ("humidity", VNum 80);
                              ("dewpoint", VNum 0) ]))
            (HttpFailure "") ex_now ex_now) = true /\
  exists d,
    @run_fetcher sample_library demo_printer "fetch_local_weather.py"
      (Some (Completed
               (@local_main sample_library sample_calendar demo_printer ex_env
                  (Decoded (VDict [ ("temperature", VNum 3);
                                    ("humidity", VNum 80);
                                    ("dewpoint", VNum 0) ]))
                  (HttpFailure "") ex_now ex_now ex_now "TypeError")))
    = VDict d /\
    get_ok d = false /\ dict_get d "error" = Some (VStr "TypeError").
Proof.
  split; [reflexivity|].
  destruct (@local_failure_is_contained sample_library sample_calendar
              demo_printer ex_env
              (Decoded (VDict [ ("temperature", VNum 3); ("humidity", VNum 80);
                                ("dewpoint", VNum 0) ]))
              (HttpFailure "") ex_now ex_now ex_now "TypeError")
    as (_ & Hfail & _).
  destruct Hfail as (d & Hd & Hoff & _); [right; reflexivity|].
  exists d. split; [exact Hd|]. split; [exact Hoff|].
  vm_compute in Hd. injection Hd as <-. reflexivity.
Defined.
